(** * peyetribe: a client for the Eye Tribe tracker protocol

    A shallow embedding of [peyetribe.py] and the properties of its
    connection life cycle, mode switch, listener, queue and frame decoder.

    Conventions of the embedding:
    - Python values stay dynamically typed ([json]); an operation on a value
      of the wrong type raises the exception Python raises.
    - Python floats are exact rationals ([Q]); what depends on binary
      rounding is outside the model.
    - A method of [EyeTribe] is a function from the object to an outcome and
      the object as the call leaves it, so that what an exception leaves
      mutated is visible.
    - The network is an input: what a [recv] comes back with (a chunk or a
      timeout) is an argument of the operation that receives; a [send] goes
      through and is recorded on the socket.
    - The two threads are functions on the shared object; when each thread
      ends relative to a [join] is an input of [pullmode].
    - The interpreter is a parameter ([pyver]): the module declares itself
      for Python 2 and 3, and its classes behave differently under them. *)

From Stdlib Require Import ZArith QArith Qround Qminmax Qabs String Ascii List Bool Lia.
Import ListNotations.

Set Implicit Arguments.
Set Warnings "-register-all".


(** ** Python values, exceptions and outcomes *)

Module Py.

(** What [json.loads] returns: [None], [bool], [int], [float], [unicode],
    [list] and [dict] (a dict is kept as its association list, looked up
    from the front). *)
Inductive json : Type :=
| JNull
| JBool (b : bool)
| JInt (z : Z)
| JFloat (q : Q)
| JStr (s : string)
| JArr (l : list json)
| JObj (kvs : list (string * json)).

(** The exceptions the module meets.  [Exception msg arg] is the plain
    [Exception(msg, arg)] the module raises itself; the others are raised by
    the interpreter and the socket library. *)
Inductive exn : Type :=
| Exception (msg : string) (arg : option json)
| AttributeError (attr : string)
| KeyError (key : string)
| TypeError
| ValueError
| IOError
| RecursionError
| socket_timeout
| socket_error.

(** A call returns, raises, or never comes back (a blocking [Queue.get]). *)
Inductive outcome (A : Type) : Type :=
| Ret (a : A)
| Raise (e : exn)
| Blocked.
Arguments Raise {A} e.
Arguments Blocked {A}.

Definition obind {A B} (m : outcome A) (k : A -> outcome B) : outcome B :=
  match m with
  | Ret a => k a
  | Raise e => Raise e
  | Blocked => Blocked
  end.

(** [d[key]] for a string key. *)
Fixpoint assoc (key : string) (kvs : list (string * json)) : option json :=
  match kvs with
  | [] => None
  | (k, v) :: rest => if String.eqb key k then Some v else assoc key rest
  end.

Definition subscript (v : json) (key : string) : outcome json :=
  match v with
  | JObj kvs =>
      match assoc key kvs with
      | Some w => Ret w
      | None => Raise (KeyError key)
      end
  | _ => Raise TypeError
  end.

(** [key in v]: key membership for a dict, element membership for a list,
    substring test for a string, [TypeError] for anything else. *)
Fixpoint is_prefix (p s : string) : bool :=
  match p, s with
  | EmptyString, _ => true
  | String a p', String b s' => Ascii.eqb a b && is_prefix p' s'
  | String _ _, EmptyString => false
  end.

Fixpoint is_substring (p s : string) : bool :=
  is_prefix p s ||
  match s with
  | EmptyString => false
  | String _ s' => is_substring p s'
  end.

Definition is_str (key : string) (v : json) : bool :=
  match v with
  | JStr s => String.eqb s key
  | _ => false
  end.

Definition contains (key : string) (v : json) : outcome bool :=
  match v with
  | JObj kvs => Ret (match assoc key kvs with Some _ => true | None => false end)
  | JArr l => Ret (existsb (is_str key) l)
  | JStr s => Ret (is_substring key s)
  | _ => Raise TypeError
  end.

(** [v != n] for an int literal [n], and [v != s] for a string literal. *)
Definition ne_int (v : json) (n : Z) : bool :=
  match v with
  | JInt z => negb (Z.eqb z n)
  | JFloat q => negb (Qeq_bool q (inject_Z n))
  | JBool b => negb (Z.eqb (if b then 1 else 0) n)
  | _ => true
  end.

Definition ne_str (v : json) (s : string) : bool := negb (is_str s v).

(** Truth value of a Python object ([if v:]). *)
Definition truthy (v : json) : bool :=
  match v with
  | JNull => false
  | JBool b => b
  | JInt z => negb (Z.eqb z 0)
  | JFloat q => negb (Qeq_bool q 0)
  | JStr s => negb (String.eqb s EmptyString)
  | JArr l => match l with [] => false | _ => true end
  | JObj kvs => match kvs with [] => false | _ => true end
  end.

(** The float a number converts to; [None] for what is not a number. *)
Definition as_float (v : json) : option Q :=
  match v with
  | JInt z => Some (inject_Z z)
  | JFloat q => Some q
  | JBool b => Some (if b then 1 else 0)
  | _ => None
  end.

(** [v / d] for a float literal [d]. *)
Definition truediv (v : json) (d : Q) : outcome Q :=
  match as_float v with
  | Some q => Ret (q / d)
  | None => Raise TypeError
  end.

(** Truncation toward zero, as [int(float)] and ["%d" % float] do. *)
Definition trunc (q : Q) : Z := Z.quot (Qnum q) (Zpos (Qden q)).

End Py.
Export Py.

Declare Scope py_scope.
Delimit Scope py_scope with py.
Notation "'let!' x ':=' e 'in' k" := (obind e (fun x => k))
  (at level 10, x name, e at level 200, k at level 200) : py_scope.
Open Scope py_scope.

(** ** The data of [EyeTribe.Frame] and its nested classes *)

(** The two conversion specifications the module puts in [Coord.fmt]:
  ["%d"] (the default) and ["%.3f"]. *)
Inductive format : Type :=
| fmt_d
| fmt_f (prec : nat).

Record Coord : Type := mkCoord {
  Coord_x : json;
  Coord_y : json;
  Coord_ssep : string;
  Coord_fmt : format
}.

Record Eye : Type := mkEye {
  Eye_raw : Coord;
  Eye_avg : Coord;
  Eye_psize : json;
  Eye_pcenter : Coord;
  Eye_ssep : string
}.

Record Frame : Type := mkFrame {
  etime : Q;
  time : Q;
  timestamp : json;
  fix_ : json;
  state : json;
  raw : Coord;
  avg : Coord;
  lefteye : Eye;
  righteye : Eye;
  Frame_ssep : string
}.

Definition set_time (t : Q) (f : Frame) : Frame :=
  {| etime := etime f; time := t; timestamp := timestamp f; fix_ := fix_ f;
     state := state f; raw := raw f; avg := avg f; lefteye := lefteye f;
     righteye := righteye f; Frame_ssep := Frame_ssep f |}.

(** ** The interpreter: attribute access through the module's properties

  Every property of the module has the same two bodies,
<<
      @property
      def x(self): return self.x
      @x.setter
      def x(self, val): self.x = val
>>
  and every class is declared without a base ([class Frame():]).  Under
  Python 3 such a class is new-style and the property is a data descriptor:
  [self.x = val] calls the setter, whose body is again [self.x = val], and
  [self.x] calls the getter, whose body is again [self.x]; each call takes
  one interpreter stack frame until the recursion limit raises
  [RecursionError].  Under Python 2 the class is a classic class: assignment
  stores into the instance dictionary, which a read consults first, and the
  property is never entered. *)

Inductive pyver : Type := Py2 | Py3.

(** The module itself reads [sys.version_info[0]] to pick [Queue] or [queue]. *)
Definition version_info_major (py : pyver) : Z :=
  match py with Py2 => 2 | Py3 => 3 end.

Section Interpreter.

Variable py : pyver.
(** Stack frames left before [RecursionError] ([sys.getrecursionlimit()]
    minus the current depth). *)
Variable recursion_limit : nat.

(** The setter [def x(self, val): self.x = val] entered with [depth] frames
    left. *)
Fixpoint property_setter {A : Type} (depth : nat) (val : A) : outcome A :=
  match depth with
  | O => Raise RecursionError
  | S d => property_setter d val
  end.

(** The getter [def x(self): return self.x] entered with [depth] frames
    left, on an object whose instance dictionary holds [stored]. *)
Fixpoint property_getter {A : Type} (depth : nat) (stored : A) : outcome A :=
  match depth with
  | O => Raise RecursionError
  | S d => property_getter d stored
  end.

(** [self.a = val] and [obj.a] where the class declares a property [a]. *)
Definition setattr {A : Type} (val : A) : outcome A :=
  match py with
  | Py2 => Ret val
  | Py3 => property_setter recursion_limit val
  end.

Definition getattr {A : Type} (stored : A) : outcome A :=
  match py with
  | Py2 => Ret stored
  | Py3 => property_getter recursion_limit stored
  end.


(** ** [EyeTribe.Frame]: construction and accessors *)

(** [Coord.__init__(self, x=0, y=0, ssep=';', fmt="%d")]: [x] and [y] are
    properties, [ssep] and [fmt] plain attributes. *)
Definition Coord_init (x y : json) (ssep : string) (fmt : format) : outcome Coord :=
  let! x' := setattr x in
  let! y' := setattr y in
  Ret (mkCoord x' y' ssep fmt).

(** [Eye.__init__(self, raw, avg, psize, pcenter, ssep=';')]. *)
Definition Eye_init (raw avg : Coord) (psize : json) (pcenter : Coord) (ssep : string)
  : outcome Eye :=
  let! raw' := setattr raw in
  let! avg' := setattr avg in
  let! psize' := setattr psize in
  let! pcenter' := setattr pcenter in
  Ret (mkEye raw' avg' psize' pcenter' ssep).

(** [Coord(d[key]['x'], d[key]['y'], fmt=fmt)]. *)
Definition Coord_of (d : json) (key : string) (fmt : format) : outcome Coord :=
  let! c := subscript d key in
  let! cx := subscript c "x" in
  let! c' := subscript d key in
  let! cy := subscript c' "y" in
  Coord_init cx cy ";" fmt.

(** The argument list of [EyeTribe.Frame.Eye(...)] in [Frame.__init__],
    evaluated left to right, then the call. *)
Definition Eye_of (eye : json) : outcome Eye :=
  let! r := Coord_of eye "raw" fmt_d in
  let! a := Coord_of eye "avg" fmt_d in
  let! ps := subscript eye "psize" in
  let! pc := Coord_of eye "pcenter" (fmt_f 3) in
  Eye_init r a ps pc ";".

(** [Frame.__init__(self, json, ssep=';')]; [now] is what [time.time()]
    returns.  [raw] and [ssep] are the only attributes of [Frame] without a
    property. *)
Definition Frame_init (now : Q) (json : json) (ssep : string) : outcome Frame :=
  let! etime' := setattr now in
  let! t := subscript json "time" in
  let! t' := truediv t 1000 in
  let! time' := setattr t' in
  let! ts := subscript json "timestamp" in
  let! timestamp' := setattr ts in
  let! fx := subscript json "fix" in
  let! fix' := setattr fx in
  let! st := subscript json "state" in
  let! state' := setattr st in
  let! raw' := Coord_of json "raw" fmt_d in
  let! av := Coord_of json "avg" fmt_d in
  let! avg' := setattr av in
  let! eye := subscript json "lefteye" in
  let! le := Eye_of eye in
  let! lefteye' := setattr le in
  let! eye := subscript json "righteye" in
  let! re := Eye_of eye in
  let! righteye' := setattr re in
  Ret (mkFrame etime' time' timestamp' fix' state' raw' avg' lefteye' righteye' ssep).

(** The accessors: each reads an attribute that has a property, except
    [Frame.raw]. *)
Definition Coord_get_x (c : Coord) : outcome json := getattr (Coord_x c).
Definition Coord_get_y (c : Coord) : outcome json := getattr (Coord_y c).
Definition Eye_get_raw (e : Eye) : outcome Coord := getattr (Eye_raw e).
Definition Eye_get_avg (e : Eye) : outcome Coord := getattr (Eye_avg e).
Definition Eye_get_psize (e : Eye) : outcome json := getattr (Eye_psize e).
Definition Eye_get_pcenter (e : Eye) : outcome Coord := getattr (Eye_pcenter e).
Definition Frame_get_etime (f : Frame) : outcome Q := getattr (etime f).
Definition Frame_get_time (f : Frame) : outcome Q := getattr (time f).
Definition Frame_get_timestamp (f : Frame) : outcome json := getattr (timestamp f).
Definition Frame_get_fix (f : Frame) : outcome json := getattr (fix_ f).
Definition Frame_get_state (f : Frame) : outcome json := getattr (state f).
Definition Frame_get_raw (f : Frame) : outcome Coord := Ret (raw f).
Definition Frame_get_avg (f : Frame) : outcome Coord := getattr (avg f).
Definition Frame_get_lefteye (f : Frame) : outcome Eye := getattr (lefteye f).
Definition Frame_get_righteye (f : Frame) : outcome Eye := getattr (righteye f).

(** [Frame.eye(self, left=False)]. *)
Definition Frame_eye (f : Frame) (left : bool) : outcome Eye :=
  if left then Frame_get_lefteye f else Frame_get_righteye f.

(** [f.time -= off]: a read of the property and a write of it. *)
Definition Frame_sub_time (f : Frame) (off : Q) : outcome Frame :=
  let! t := Frame_get_time f in
  let! t' := setattr (t - off) in
  Ret (set_time t' f).

End Interpreter.

(** ** Strings: [str.split] and [str.strip]

    A [string] is the decoded text, one character per code point below 256. *)

Definition newline : ascii := ascii_of_nat 10.
Definition dquote : ascii := ascii_of_nat 34.

(** A text written with ['] for the double quote. *)
Fixpoint dq (s : string) : string :=
  match s with
  | EmptyString => EmptyString
  | String c s' => String (if Ascii.eqb c "'" then dquote else c) (dq s')
  end.

(** [s.split(sep)] for a one-character separator: one more segment than
    there are separators. *)
Fixpoint split (sep : ascii) (s : string) : list string :=
  match s with
  | EmptyString => [EmptyString]
  | String c s' =>
      if Ascii.eqb c sep then EmptyString :: split sep s'
      else match split sep s' with
           | seg :: segs => String c seg :: segs
           | [] => [String c EmptyString]
           end
  end.

(** [unicode.isspace] on the code points below 256. *)
Definition isspace (c : ascii) : bool :=
  let n := nat_of_ascii c in
  ((9 <=? n) && (n <=? 13)) || ((28 <=? n) && (n <=? 32)) || (n =? 133) || (n =? 160).

Fixpoint lstrip (s : string) : string :=
  match s with
  | EmptyString => EmptyString
  | String c s' => if isspace c then lstrip s' else s
  end.

Fixpoint rstrip (s : string) : string :=
  match s with
  | EmptyString => EmptyString
  | String c s' =>
      match rstrip s' with
      | EmptyString => if isspace c then EmptyString else String c EmptyString
      | r => String c r
      end
  end.

Definition strip (s : string) : string := rstrip (lstrip s).

(** ** Decimal digits *)

Definition digit_char (d : Z) : ascii := ascii_of_nat (48 + Z.to_nat d).
Arguments digit_char : simpl never.

Definition digit_val (c : ascii) : option Z :=
  let n := nat_of_ascii c in
  if (48 <=? n) && (n <=? 57) then Some (Z.of_nat (n - 48)) else None.

(** The value of a string of decimal digits read from the left, starting
    from [acc]; [None] when a character is not a digit. *)
Fixpoint read_digits_from (acc : Z) (s : string) : option Z :=
  match s with
  | EmptyString => Some acc
  | String c s' =>
      match digit_val c with
      | Some d => read_digits_from (acc * 10 + d) s'
      | None => None
      end
  end.

Definition read_digits (s : string) : option Z :=
  match s with
  | EmptyString => None
  | _ => read_digits_from 0 s
  end.

(** The decimal digits of [n >= 0], most significant first; [fuel] bounds
    their number. *)
Fixpoint dec_fuel (fuel : nat) (n : Z) : string :=
  match fuel with
  | O => EmptyString
  | S f =>
      String.append
        (if (n <? 10)%Z then EmptyString else dec_fuel f (n / 10)%Z)
        (String (digit_char (n mod 10)%Z) EmptyString)
  end.

Definition dec (n : Z) : string := dec_fuel (S (Z.to_nat (Z.log2 n))) n.

(** The last [width] decimal digits of [n >= 0], zeros included. *)
Fixpoint fixed_digits (width : nat) (n : Z) : string :=
  match width with
  | O => EmptyString
  | S w =>
      String.append (fixed_digits w (n / 10)%Z)
                    (String (digit_char (n mod 10)%Z) EmptyString)
  end.

(** [int(v)]: identity on an int, truncation of a float, parse of a string. *)
Definition int_of_digits (s : string) : outcome Z :=
  match read_digits s with
  | Some n => Ret n
  | None => Raise ValueError
  end.

Definition int_of_str (s : string) : outcome Z :=
  match strip s with
  | String "-" ds => let! n := int_of_digits ds in Ret (- n)%Z
  | String "+" ds => int_of_digits ds
  | ds => int_of_digits ds
  end.

Definition int (v : json) : outcome Z :=
  match v with
  | JInt z => Ret z
  | JFloat q => Ret (trunc q)
  | JBool b => Ret (if b then 1 else 0)%Z
  | JStr s => int_of_str s
  | _ => Raise TypeError
  end.

(** ** The socket and the threads *)

(** What the client needs of a socket object: its receive timeout ([None]
    is blocking) and what has been written to it. *)
Record socket : Type := mkSocket {
  timeout : option Q;
  sent : list string
}.

(** What a [recv] on the socket comes back with: a chunk of text, received
    when the wall clock reads [now], or [socket.timeout]. *)
Inductive recv_event : Type :=
| Chunk (now : Q) (data : string)
| TimedOut.

(** What the network does to [connect]: refuses the TCP connection, or
    accepts it and answers the first request. *)
Inductive wire : Type :=
| Refused
| Answer (ev : recv_event).

Inductive target : Type := target_hbeater | target_listener.

(** A [threading.Thread] object. *)
Inductive thread : Type := Thread (t : target).

(** Where a thread's target function stands. *)
Inductive thread_state : Type :=
| Running
| Returned
| Died (e : exn).

(** ** The [EyeTribe] object *)

(** The requests, written with ['] where the source has the double quote
    ([dq] puts it back). *)
Definition etm_get_init : string :=
  dq "{ 'category': 'tracker', 'request' : 'get', 'values': [ 'iscalibrated', 'heartbeatinterval' ] }".
Definition etm_set_push : string :=
  dq "{ 'category': 'tracker', 'request' : 'set', 'values': { 'push': true } }".
Definition etm_set_pull : string :=
  dq "{ 'category': 'tracker', 'request' : 'set', 'values': { 'push': false } }".
Definition etm_get_frame : string :=
  dq "{ 'category': 'tracker', 'request' : 'get', 'values': [ 'frame' ] }".
Definition etm_heartbeat : string := dq "{ 'category': 'heartbeat' }".

Record EyeTribe : Type := mkEyeTribe {
  host : string;
  port : Z;
  sock : option socket;
  queue : list Frame;
  ispushmode : bool;
  hbinterval : Q;
  hbeater : option thread;
  listener : option thread;
  pmcallback : option (Frame -> json);
  toffset : option Q;
  ssep : string
}.

(** [EyeTribe.__init__(self, host='localhost', port=6555, ssep=';')]. *)
Definition EyeTribe_init (host : string) (port : Z) (ssep : string) : EyeTribe :=
  {| host := host; port := port; sock := None; queue := []; ispushmode := false;
     hbinterval := 0; hbeater := None; listener := None; pmcallback := None;
     toffset := None; ssep := ssep |}.

Definition set_host (v : string) (o : EyeTribe) : EyeTribe :=
  mkEyeTribe v (port o) (sock o) (queue o) (ispushmode o) (hbinterval o) (hbeater o)
             (listener o) (pmcallback o) (toffset o) (ssep o).
Definition set_port (v : Z) (o : EyeTribe) : EyeTribe :=
  mkEyeTribe (host o) v (sock o) (queue o) (ispushmode o) (hbinterval o) (hbeater o)
             (listener o) (pmcallback o) (toffset o) (ssep o).
Definition set_sock (v : option socket) (o : EyeTribe) : EyeTribe :=
  mkEyeTribe (host o) (port o) v (queue o) (ispushmode o) (hbinterval o) (hbeater o)
             (listener o) (pmcallback o) (toffset o) (ssep o).
Definition set_queue (v : list Frame) (o : EyeTribe) : EyeTribe :=
  mkEyeTribe (host o) (port o) (sock o) v (ispushmode o) (hbinterval o) (hbeater o)
             (listener o) (pmcallback o) (toffset o) (ssep o).
Definition set_ispushmode (v : bool) (o : EyeTribe) : EyeTribe :=
  mkEyeTribe (host o) (port o) (sock o) (queue o) v (hbinterval o) (hbeater o)
             (listener o) (pmcallback o) (toffset o) (ssep o).
Definition set_hbinterval (v : Q) (o : EyeTribe) : EyeTribe :=
  mkEyeTribe (host o) (port o) (sock o) (queue o) (ispushmode o) v (hbeater o)
             (listener o) (pmcallback o) (toffset o) (ssep o).
Definition set_hbeater (v : option thread) (o : EyeTribe) : EyeTribe :=
  mkEyeTribe (host o) (port o) (sock o) (queue o) (ispushmode o) (hbinterval o) v
             (listener o) (pmcallback o) (toffset o) (ssep o).
Definition set_listener (v : option thread) (o : EyeTribe) : EyeTribe :=
  mkEyeTribe (host o) (port o) (sock o) (queue o) (ispushmode o) (hbinterval o) (hbeater o)
             v (pmcallback o) (toffset o) (ssep o).
Definition set_pmcallback (v : option (Frame -> json)) (o : EyeTribe) : EyeTribe :=
  mkEyeTribe (host o) (port o) (sock o) (queue o) (ispushmode o) (hbinterval o) (hbeater o)
             (listener o) v (toffset o) (ssep o).
Definition set_toffset (v : option Q) (o : EyeTribe) : EyeTribe :=
  mkEyeTribe (host o) (port o) (sock o) (queue o) (ispushmode o) (hbinterval o) (hbeater o)
             (listener o) (pmcallback o) v (ssep o).

(** A method of [EyeTribe]: from the object to an outcome and the object as
    the call leaves it. *)
Definition M (A : Type) : Type := EyeTribe -> outcome A * EyeTribe.

Definition ret {A} (a : A) : M A := fun self => (Ret a, self).
Definition raise {A} (e : exn) : M A := fun self => (Raise e, self).
Definition lift {A} (o : outcome A) : M A := fun self => (o, self).
Definition attr {A} (f : EyeTribe -> A) : M A := fun self => (Ret (f self), self).
Definition assign (g : EyeTribe -> EyeTribe) : M unit := fun self => (Ret tt, g self).

Definition bind {A B} (m : M A) (k : A -> M B) : M B :=
  fun self =>
    match m self with
    | (Ret a, self') => k a self'
    | (Raise e, self') => (Raise e, self')
    | (Blocked, self') => (Blocked, self')
    end.

Notation "x <- m ;; k" := (bind m (fun x => k))
  (at level 61, m at next level, right associativity) : py_scope.
Notation "m ;; k" := (bind m (fun _ => k))
  (at level 61, right associativity) : py_scope.

(** The messages of the module's own [Exception]s. *)
Definition msg_connect_protocol : string := "connection failed, protocol error (%d)".
Definition msg_already_connected : string :=
  "cannot connect an already connected socket; close it first".
Definition msg_rebind : string := "cannot (re)bind a connected socket; close it first".
Definition msg_closed : string := "cannot close an already closed connection".
Definition msg_push_protocol : string :=
  "The connection failed with tracker protocol error (%d)".
Definition msg_push_timeout : string :=
  "The pushmode connection failed with a timeout; lost tracker connection?".
Definition msg_listener_alive : string :=
  "Listener thread did not terminate as expected; protocol error?".
Definition msg_hbeater_alive : string :=
  "HeartBeater thread did not terminate as expected; protocol error?".

(** The failures the design names, and the one each exception stands for. *)
Inductive failure : Type :=
| AlreadyConnected
| NotConnected
| ProtocolError
| TimeoutError
| ShutdownTimeout
| Unclassified.

Definition classify (e : exn) : failure :=
  match e with
  | Exception msg _ =>
      if String.eqb msg msg_already_connected then AlreadyConnected
      else if String.eqb msg msg_rebind then AlreadyConnected
      else if String.eqb msg msg_closed then NotConnected
      else if String.eqb msg msg_connect_protocol then ProtocolError
      else if String.eqb msg msg_push_protocol then ProtocolError
      else if String.eqb msg msg_push_timeout then TimeoutError
      else if String.eqb msg msg_listener_alive then ShutdownTimeout
      else if String.eqb msg msg_hbeater_alive then ShutdownTimeout
      else Unclassified
  | _ => Unclassified
  end.

(** ** Socket operations on [self.sock] *)

(** [self.sock.send(msg.encode())]; on [None] the attribute lookup fails. *)
Definition sock_send (msg : string) : M unit :=
  s <- attr sock ;;
  match s with
  | None => raise (AttributeError "send")
  | Some so => assign (set_sock (Some (mkSocket (timeout so) (sent so ++ [msg]))))
  end.

(** [self.sock.settimeout(v)]; a negative value is out of range. *)
Definition sock_settimeout (v : Q) : M unit :=
  s <- attr sock ;;
  match s with
  | None => raise (AttributeError "settimeout")
  | Some so =>
      if Qle_bool 0 v then assign (set_sock (Some (mkSocket (Some v) (sent so))))
      else raise ValueError
  end.

(** [self.sock.recv(EyeTribe.etm_buffer_size)], decoded; [ev] is what the
    network delivers. *)
Definition sock_recv (ev : recv_event) : M string :=
  s <- attr sock ;;
  match s with
  | None => raise (AttributeError "recv")
  | Some _ =>
      match ev with
      | Chunk _ data => ret data
      | TimedOut => raise socket_timeout
      end
  end.

(** [self.queue.put(f)] and [self.queue.get(block)] of the FIFO [Queue]. *)
Definition queue_put (f : Frame) : M unit :=
  q <- attr queue ;; assign (set_queue (q ++ [f])).

Inductive queue_get_result : Type :=
| Item (f : Frame)
| Empty.

Definition queue_get (block : bool) : M queue_get_result :=
  q <- attr queue ;;
  match q with
  | f :: q' => assign (set_queue q') ;; ret (Item f)
  | [] => if block then (fun self => (Blocked, self)) else ret Empty
  end.

(** [for x in xs: body(x)]. *)
Fixpoint for_each {A} (xs : list A) (body : A -> M unit) : M unit :=
  match xs with
  | [] => ret tt
  | x :: rest => body x ;; for_each rest body
  end.

(** ** The methods of [EyeTribe] *)

Section Client.

Variable py : pyver.
Variable recursion_limit : nat.
(** [json.loads], from the standard library. *)
Variable loads : string -> outcome json.

(** [EyeTribe.connect(self)]. *)
Definition connect (net : wire) : M unit :=
  s <- attr sock ;;
  match s with
  | None =>
      assign (set_sock (Some (mkSocket None []))) ;;
      match net with
      | Refused => raise socket_error
      | Answer ev =>
          sock_send etm_get_init ;;
          sock_settimeout 30 ;;
          r <- sock_recv ev ;;
          p <- lift (loads r) ;;
          sc <- lift (subscript p "statuscode") ;;
          if ne_int sc 200 then raise (Exception msg_connect_protocol (Some sc))
          else
            vals <- lift (subscript p "values") ;;
            hb <- lift (subscript vals "heartbeatinterval") ;;
            n <- lift (int hb) ;;
            assign (set_hbinterval (inject_Z n / 1000)) ;;
            h <- attr hbinterval ;;
            if negb (Qeq_bool h 0) then sock_settimeout (h * 2) else ret tt
      end
  | Some _ => raise (Exception msg_already_connected None)
  end.

(** [EyeTribe.bind(self, host='localhost', port=6555)]. *)
Definition bind_ (host' : string) (port' : Z) : M unit :=
  s <- attr sock ;;
  match s with
  | Some _ => assign (set_host host') ;; assign (set_port port')
  | None => raise (Exception msg_rebind None)
  end.

(** The value of [self.sock.close]: a bound method when [self.sock] is a
    socket (never [None]); the lookup fails on [None]. *)
Definition sock_close_method : M (option unit) :=
  s <- attr sock ;;
  match s with
  | None => raise (AttributeError "close")
  | Some _ => ret (Some tt)
  end.

(** [EyeTribe.close(self)]. *)
Definition close : M unit :=
  m <- sock_close_method ;;
  match m with
  | Some _ => assign (set_sock None)
  | None => raise (Exception msg_closed None)
  end.

(** [EyeTribe.pushmode(self, callback=None)], up to the start of the two
    threads; [ev] is what the socket delivers to the one [recv]. *)
Definition pushmode (callback : option (Frame -> json)) (ev : recv_event) : M unit :=
  pm <- attr ispushmode ;;
  if pm then ret tt
  else
    assign (set_ispushmode true) ;;
    match callback with
    | Some cb => assign (set_pmcallback (Some cb))
    | None => ret tt
    end ;;
    sock_send etm_set_push ;;
    r <- sock_recv ev ;;
    p <- lift (loads r) ;;
    sc <- lift (subscript p "statuscode") ;;
    if ne_int sc 200 then raise (Exception msg_push_protocol (Some sc))
    else
      h <- attr hbinterval ;;
      (if negb (Qeq_bool h 0) then assign (set_hbeater (Some (Thread target_hbeater)))
       else assign (set_hbeater None)) ;;
      assign (set_listener (Some (Thread target_listener))).

(** The body of [if f['category'] != "heartbeat" and ...:] in [listener]:
    decode the frame, normalise its time, offer it to the callback, queue it. *)
Definition listener_frame (now : Q) (payload : json) : M unit :=
  f <- lift (Frame_init py recursion_limit now payload ";") ;;
  off <- attr toffset ;;
  match off with
  | None =>
      t <- lift (Frame_get_time py recursion_limit f) ;;
      assign (set_toffset (Some t))
  | Some _ => ret tt
  end ;;
  off' <- attr toffset ;;
  match off' with
  | None => raise TypeError
  | Some o =>
      f' <- lift (Frame_sub_time py recursion_limit f o) ;;
      cb <- attr pmcallback ;;
      let dont_queue :=
        match cb with
        | Some callback => truthy (callback f')
        | None => false
        end in
      if dont_queue then ret tt else queue_put f'
  end.

(** The body of [for js in r.decode().split(...)] in [listener]. *)
Definition listener_doc (now : Q) (js : string) : M unit :=
  if String.eqb (strip js) EmptyString then ret tt
  else
    f <- lift (loads js) ;;
    sc <- lift (subscript f "statuscode") ;;
    if ne_int sc 200 then
      assign (set_ispushmode false) ;;
      raise (Exception msg_connect_protocol (Some sc))
    else
      cat <- lift (subscript f "category") ;;
      if ne_str cat "heartbeat" then
        hasv <- lift (contains "values" f) ;;
        if hasv then
          vals <- lift (subscript f "values") ;;
          hasf <- lift (contains "frame" vals) ;;
          if hasf then
            vals' <- lift (subscript f "values") ;;
            payload <- lift (subscript vals' "frame") ;;
            listener_frame now payload
          else ret tt
        else ret tt
      else ret tt.

(** One turn of the [while] loop of [listener], from the moment [recv]
    comes back: the [try] block, and the handler of [socket.timeout]. *)
Definition listener_recv (ev : recv_event) : M unit :=
  s <- attr sock ;;
  match s with
  | None => raise (AttributeError "recv")
  | Some _ =>
      match ev with
      | Chunk now data => for_each (split newline data) (listener_doc now)
      | TimedOut =>
          pm <- attr ispushmode ;;
          if pm then
            assign (set_ispushmode false) ;;
            raise (Exception msg_push_timeout None)
          else ret tt
      end
  end.

(** The thread [listener] on the events its socket delivers, the other
    threads standing still: [while self.ispushmode: ...].  [Running] is a
    thread waiting in [recv]. *)
Fixpoint listener_target (evs : list recv_event) (self : EyeTribe)
  : thread_state * EyeTribe :=
  if ispushmode self then
    match evs with
    | [] => (Running, self)
    | ev :: evs' =>
        match listener_recv ev self with
        | (Ret _, self') => listener_target evs' self'
        | (Raise e, self') => (Died e, self')
        | (Blocked, self') => (Running, self')
        end
    end
  else (Returned, self).

(** The same thread taken up while it waits in [recv]: the loop test was
    passed before, whatever the flag has become since. *)
Definition listener_resume (ev : recv_event) (evs : list recv_event) (self : EyeTribe)
  : thread_state * EyeTribe :=
  match listener_recv ev self with
  | (Ret _, self') => listener_target evs self'
  | (Raise e, self') => (Died e, self')
  | (Blocked, self') => (Running, self')
  end.

(** [time.sleep(secs)]: comes back after [secs] seconds; a negative length
    is refused, with [ValueError] by Python 3 and with the [IOError] of the
    system call ([EINVAL]) by Python 2 on POSIX systems. *)
Definition time_sleep (secs : Q) : M unit :=
  if Qle_bool 0 secs then ret tt
  else raise (match py with Py2 => IOError | Py3 => ValueError end).

(** One turn of the [while] loop of [hbeater]: a heartbeat is written, then
    the thread sleeps for the heartbeat interval. *)
Definition hbeater_turn : M unit :=
  sock_send etm_heartbeat ;;
  h <- attr hbinterval ;;
  time_sleep h.

(** The thread [hbeater] for at most [beats] turns of its loop. *)
Fixpoint hbeater_target (beats : nat) (self : EyeTribe) : thread_state * EyeTribe :=
  if ispushmode self then
    match beats with
    | O => (Running, self)
    | S n =>
        match hbeater_turn self with
        | (Ret _, self') => hbeater_target n self'
        | (Raise e, self') => (Died e, self')
        | (Blocked, self') => (Running, self')
        end
    end
  else (Returned, self).

(** [t.join(bound)] followed by [t.isAlive()].  [exit] is the time, counted
    from the call of [join], at which the thread's target comes back ([None]
    if it never does): [join] waits for that, and no longer than [bound]. *)
Definition isAlive_after_join (bound : Q) (exit : option Q) : bool :=
  match exit with
  | None => true
  | Some d => negb (Qle_bool d bound)
  end.

(** [min((self.hbinterval*2, 10))]. *)
Definition join_bound (self : EyeTribe) : Q := Qmin (hbinterval self * 2) 10.

(** [EyeTribe.pullmode(self)], first half: the test of the flag and, in push
    mode, the two statements before the first [join].  Returns the test. *)
Definition pullmode_signal : M bool :=
  pm <- attr ispushmode ;;
  if pm then
    assign (set_ispushmode false) ;;
    sock_send etm_set_pull ;;
    ret true
  else ret false.

(** [EyeTribe.pullmode(self)], second half, from the first [join] on. *)
Definition pullmode_sync (was_push : bool) (lexit hexit : option Q) : M unit :=
  (if was_push then
     l <- attr listener ;;
     b <- attr join_bound ;;
     match l with
     | None => raise (AttributeError "join")
     | Some _ =>
         if isAlive_after_join b lexit then raise (Exception msg_listener_alive None)
         else
           assign (set_listener None) ;;
           h <- attr hbinterval ;;
           if negb (Qeq_bool h 0) then
             hb <- attr hbeater ;;
             match hb with
             | None => raise (AttributeError "join")
             | Some _ =>
                 if isAlive_after_join b hexit
                 then raise (Exception msg_hbeater_alive None)
                 else assign (set_hbeater None)
             end
           else ret tt
     end
   else ret tt) ;;
  assign (set_toffset None) ;;
  assign (set_pmcallback None).

(** [EyeTribe.pullmode(self)] when no other thread touches the object in
    between. *)
Definition pullmode (lexit hexit : option Q) : M unit :=
  was_push <- pullmode_signal ;;
  pullmode_sync was_push lexit hexit.

(** [EyeTribe.next(self, block=True)]; [ev] is what the socket delivers to
    the [recv] of the pull-mode branch. *)
Definition next (block : bool) (ev : recv_event) : M (option Frame) :=
  pm <- attr ispushmode ;;
  if pm then
    r <- queue_get block ;;
    match r with
    | Item f => ret (Some f)
    | Empty => ret None
    end
  else
    sock_send etm_get_frame ;;
    r <- sock_recv ev ;;
    p <- lift (loads r) ;;
    sc <- lift (subscript p "statuscode") ;;
    if ne_int sc 200 then raise (Exception msg_connect_protocol (Some sc))
    else
      vals <- lift (subscript p "values") ;;
      payload <- lift (subscript vals "frame") ;;
      f <- lift (Frame_init py recursion_limit
                   (match ev with Chunk now _ => now | TimedOut => 0 end) payload ";") ;;
      ret (Some f).

End Client.

(** ** The conversions of the [%] operator *)

(** The int that ["%d"] prints. *)
Definition int_value (v : json) : outcome Z :=
  match v with
  | JInt z => Ret z
  | JFloat q => Ret (trunc q)
  | JBool b => Ret (if b then 1 else 0)%Z
  | _ => Raise TypeError
  end.

Definition dec_signed (z : Z) : string :=
  if (z <? 0)%Z then String "-" (dec (- z)) else dec z.

(** ["%d" % v]. *)
Definition format_d (v : json) : outcome string :=
  let! z := int_value v in Ret (dec_signed z).

(** Rounding to the nearest integer, ties to even. *)
Definition round_half_even (q : Q) : Z :=
  let n := Qnum q in
  let d := Zpos (Qden q) in
  let fl := (n / d)%Z in
  match (2 * (n mod d) ?= d)%Z with
  | Lt => fl
  | Gt => (fl + 1)%Z
  | Eq => if Z.even fl then fl else (fl + 1)%Z
  end.

(** [|q|] in units of [10^-prec], rounded. *)
Definition scaled (prec : nat) (q : Q) : Z :=
  round_half_even (Qabs q * inject_Z (10 ^ Z.of_nat prec)).

Definition is_negative (q : Q) : bool := negb (Qle_bool 0 q).

Fixpoint zeros (n : nat) : string :=
  match n with
  | O => EmptyString
  | S k => String "0" (zeros k)
  end.

(** ["%0<width>.<prec>f" % q] ([width = 0] for no padding): sign, zeros up
    to the width, integer part, point, [prec] digits. *)
Definition format_f_float (width prec : nat) (q : Q) : string :=
  let m := scaled prec q in
  let p := (10 ^ Z.of_nat prec)%Z in
  let body :=
    String.append (dec (m / p)) (String "." (fixed_digits prec (m mod p))) in
  let sign := if is_negative q then String "-" EmptyString else EmptyString in
  String.append sign
    (String.append (zeros (width - String.length sign - String.length body)) body).

Definition format_f (width prec : nat) (v : json) : outcome string :=
  match as_float v with
  | Some q => Ret (format_f_float width prec q)
  | None => Raise TypeError
  end.

Definition apply_format (fmt : format) (v : json) : outcome string :=
  match fmt with
  | fmt_d => format_d v
  | fmt_f prec => format_f 0 prec v
  end.

(** [v & mask] for an int literal [mask]. *)
Definition bit_and (v : json) (mask : Z) : outcome Z :=
  match v with
  | JInt z => Ret (Z.land z mask)
  | JBool b => Ret (Z.land (if b then 1 else 0) mask)
  | _ => Raise TypeError
  end.

(** ** The string renderings ([__str__]) *)

Section Rendering.

Variable py : pyver.
Variable recursion_limit : nat.
(** The builtin [str] on a value of a JSON document (the timestamp). *)
Variable str_ : json -> string.

(** [Coord.__str__]. *)
Definition Coord_str (c : Coord) : outcome string :=
  let! x := Coord_get_x py recursion_limit c in
  let! y := Coord_get_y py recursion_limit c in
  let! sx := apply_format (Coord_fmt c) x in
  let! sy := apply_format (Coord_fmt c) y in
  Ret (String.append sx (String.append (Coord_ssep c) sy)).

(** [Eye.__str__]. *)
Definition Eye_str (e : Eye) : outcome string :=
  let! r := Eye_get_raw py recursion_limit e in
  let! sr := Coord_str r in
  let! a := Eye_get_avg py recursion_limit e in
  let! sa := Coord_str a in
  let! ps := Eye_get_psize py recursion_limit e in
  let! pc := Eye_get_pcenter py recursion_limit e in
  let! spc := Coord_str pc in
  let! sps := format_f 0 1 ps in
  Ret (String.append sr (String.append (Eye_ssep e)
      (String.append sa (String.append (Eye_ssep e)
      (String.append sps (String.append (Eye_ssep e) spc)))))).

(** ['c' if (self.state & mask) else '.']. *)
Definition state_flag (f : Frame) (c : ascii) (mask : Z) : outcome string :=
  let! st := Frame_get_state py recursion_limit f in
  let! b := bit_and st mask in
  Ret (String (if (b =? 0)%Z then "."%char else c) EmptyString).

(** [Frame.__str__]. *)
Definition Frame_str (f : Frame) : outcome string :=
  let! l := state_flag f "L" 16 in
  let! fl := state_flag f "F" 8 in
  let! p := state_flag f "P" 4 in
  let! e := state_flag f "E" 2 in
  let! g := state_flag f "G" 1 in
  let st := String.append l (String.append fl (String.append p (String.append e g))) in
  let! fx := Frame_get_fix py recursion_limit f in
  let fch := String (if truthy fx then "F"%char else "N"%char) EmptyString in
  let sep := Frame_ssep f in
  let! et := Frame_get_etime py recursion_limit f in
  let! t := Frame_get_time py recursion_limit f in
  let! ts := Frame_get_timestamp py recursion_limit f in
  let s :=
    String.append (format_f_float 14 3 et) (String.append sep
   (String.append (format_f_float 7 3 t) (String.append sep
   (String.append (str_ ts) sep)))) in
  let! sraw := Coord_str (raw f) in
  let! a := Frame_get_avg py recursion_limit f in
  let! savg := Coord_str a in
  let s := String.append s (String.append fch (String.append sep
          (String.append st (String.append sep
          (String.append sraw (String.append sep savg)))))) in
  let! le := Frame_get_lefteye py recursion_limit f in
  let! sle := Eye_str le in
  let s := String.append s (String.append sep sle) in
  let! re := Frame_get_righteye py recursion_limit f in
  let! sre := Eye_str re in
  Ret (String.append s (String.append sep sre)).

End Rendering.

(** ** Reading a rendering back *)

(** What a rendering keeps of a coordinate pair, of an eye and of a frame:
    integers, in the unit of the last printed digit. *)
Record kept_eye : Type := mkKeptEye {
  k_eye_raw : Z * Z;
  k_eye_avg : Z * Z;
  k_psize : Z;
  k_pcenter : Z * Z
}.

Record kept : Type := mkKept {
  k_fix : bool;
  k_state : Z;
  k_raw : Z * Z;
  k_avg : Z * Z;
  k_lefteye : kept_eye;
  k_righteye : kept_eye
}.

Definition parse_signed (s : string) : option Z :=
  match s with
  | String c r =>
      if Ascii.eqb c "-" then option_map Z.opp (read_digits r) else read_digits s
  | EmptyString => None
  end.

Fixpoint remove_char (c : ascii) (s : string) : string :=
  match s with
  | EmptyString => EmptyString
  | String a s' => if Ascii.eqb a c then remove_char c s' else String a (remove_char c s')
  end.

(** A printed ["%.<prec>f"], in units of its last digit. *)
Definition parse_fixed (s : string) : option Z := parse_signed (remove_char "." s).

Definition parse_fix (s : string) : option bool :=
  if String.eqb s "F" then Some true
  else if String.eqb s "N" then Some false
  else None.

Definition flag_bit (c : ascii) (weight : Z) : Z :=
  if Ascii.eqb c "." then 0%Z else weight.

Definition parse_state (s : string) : option Z :=
  match s with
  | String l (String f (String p (String e (String g EmptyString)))) =>
      Some (flag_bit l 16 + flag_bit f 8 + flag_bit p 4 + flag_bit e 2 + flag_bit g 1)%Z
  | _ => None
  end.

Definition opt_bind {A B} (o : option A) (k : A -> option B) : option B :=
  match o with
  | Some a => k a
  | None => None
  end.

Definition parse_pair (parse : string -> option Z) (sx sy : string) : option (Z * Z) :=
  opt_bind (parse sx) (fun x => opt_bind (parse sy) (fun y => Some (x, y))).

Definition parse_eye (rx ry ax ay ps cx cy : string) : option kept_eye :=
  opt_bind (parse_pair parse_signed rx ry) (fun r =>
  opt_bind (parse_pair parse_signed ax ay) (fun a =>
  opt_bind (parse_fixed ps) (fun p =>
  opt_bind (parse_pair parse_fixed cx cy) (fun c =>
  Some (mkKeptEye r a p c))))).

(** The last twenty fields of a rendering, read from the right. *)
Definition unrender (s : string) : option kept :=
  match rev (split ";" s) with
  | rcy :: rcx :: rps :: ray :: rax :: rry :: rrx
    :: lcy :: lcx :: lps :: lay :: lax :: lry :: lrx
    :: avy :: avx :: rwy :: rwx :: st :: fx :: _ =>
      opt_bind (parse_fix fx) (fun kf =>
      opt_bind (parse_state st) (fun ks =>
      opt_bind (parse_pair parse_signed rwx rwy) (fun kr =>
      opt_bind (parse_pair parse_signed avx avy) (fun ka =>
      opt_bind (parse_eye lrx lry lax lay lps lcx lcy) (fun kl =>
      opt_bind (parse_eye rrx rry rax ray rps rcx rcy) (fun kre =>
      Some (mkKept kf ks kr ka kl kre)))))))
  | _ => None
  end.

(** What a wire frame document holds in the same units: coordinates cut to
    integers, pupil sizes rounded to tenths, pupil centres to thousandths,
    the five low bits of the state, the truth value of the fixation flag. *)
Definition signed_scaled (prec : nat) (v : json) : outcome Z :=
  match as_float v with
  | Some q => Ret (if is_negative q then (- scaled prec q)%Z else scaled prec q)
  | None => Raise TypeError
  end.

Definition wire_pair (proj : json -> outcome Z) (d : json) (key : string)
  : outcome (Z * Z) :=
  let! c := subscript d key in
  let! x := subscript c "x" in
  let! y := subscript c "y" in
  let! px := proj x in
  let! py := proj y in
  Ret (px, py).

Definition wire_eye (eye : json) : outcome kept_eye :=
  let! r := wire_pair int_value eye "raw" in
  let! a := wire_pair int_value eye "avg" in
  let! ps := subscript eye "psize" in
  let! p := signed_scaled 1 ps in
  let! c := wire_pair (signed_scaled 3) eye "pcenter" in
  Ret (mkKeptEye r a p c).

Definition wire_kept (json : json) : outcome kept :=
  let! fx := subscript json "fix" in
  let! st := subscript json "state" in
  let! ks := bit_and st 31 in
  let! r := wire_pair int_value json "raw" in
  let! a := wire_pair int_value json "avg" in
  let! le := subscript json "lefteye" in
  let! kl := wire_eye le in
  let! re := subscript json "righteye" in
  let! kr := wire_eye re in
  Ret (mkKept (truthy fx) ks r a kl kr).

(** ** A reference [json.loads]

    A reader for the JSON the tracker sends: objects, arrays, strings
    without escapes, numbers without exponent, [true], [false], [null].
    Anything else is a [ValueError].  It instantiates the [loads] the client
    is parametrised by. *)

Definition json_ws (c : ascii) : bool :=
  let n := nat_of_ascii c in
  (n =? 32) || (n =? 9) || (n =? 10) || (n =? 13).

Fixpoint skip_ws (s : string) : string :=
  match s with
  | String c s' => if json_ws c then skip_ws s' else s
  | EmptyString => EmptyString
  end.

(** The longest prefix of digits, and what follows it. *)
Fixpoint span_digits (s : string) : string * string :=
  match s with
  | String c s' =>
      match digit_val c with
      | Some _ => let (ds, rest) := span_digits s' in (String c ds, rest)
      | None => (EmptyString, s)
      end
  | EmptyString => (EmptyString, EmptyString)
  end.

Definition is_exponent (s : string) : bool :=
  match s with
  | String c _ => Ascii.eqb c "e" || Ascii.eqb c "E"
  | EmptyString => false
  end.

(** An unsigned number: an int, or a float when it has a fraction. *)
Definition parse_unsigned (s : string) : option (json * string) :=
  let (ip, rest) := span_digits s in
  match read_digits ip with
  | None => None
  | Some i =>
      match rest with
      | String "." rest' =>
          let (fp, rest'') := span_digits rest' in
          match read_digits fp with
          | None => None
          | Some f =>
              if is_exponent rest'' then None
              else
                let den := Z.to_pos (10 ^ Z.of_nat (String.length fp)) in
                Some (JFloat (Qmake (i * Zpos den + f) den), rest'')
          end
      | _ => if is_exponent rest then None else Some (JInt i, rest)
      end
  end.

Definition negate (v : json) : json :=
  match v with
  | JInt z => JInt (- z)
  | JFloat q => JFloat (- q)
  | _ => v
  end.

Definition parse_number (s : string) : option (json * string) :=
  match s with
  | String "-" s' =>
      match parse_unsigned s' with
      | Some (v, rest) => Some (negate v, rest)
      | None => None
      end
  | _ => parse_unsigned s
  end.

(** The characters up to the closing quote; no escapes. *)
Fixpoint parse_chars (s : string) : option (string * string) :=
  match s with
  | EmptyString => None
  | String c s' =>
      if Ascii.eqb c dquote then Some (EmptyString, s')
      else if Ascii.eqb c "\" then None
      else match parse_chars s' with
           | Some (str, rest) => Some (String c str, rest)
           | None => None
           end
  end.

Definition strip_prefix (p s : string) : option string :=
  if is_prefix p s then Some (String.substring (String.length p)
                                 (String.length s - String.length p) s)
  else None.

(** [d[k] = v] on the association list: a later pair replaces an earlier
    one with the same key. *)
Fixpoint dict_set (k : string) (v : json) (kvs : list (string * json))
  : list (string * json) :=
  match kvs with
  | [] => [(k, v)]
  | (k', v') :: rest =>
      if String.eqb k k' then (k, v) :: rest else (k', v') :: dict_set k v rest
  end.

Fixpoint parse_value (fuel : nat) (s : string) : option (json * string) :=
  match fuel with
  | O => None
  | S n =>
      match skip_ws s with
      | EmptyString => None
      | String c s' as s0 =>
          if Ascii.eqb c "{" then
            match skip_ws s' with
            | String "}" rest => Some (JObj [], rest)
            | _ => parse_members n s' []
            end
          else if Ascii.eqb c "[" then
            match skip_ws s' with
            | String "]" rest => Some (JArr [], rest)
            | _ => parse_elements n s' []
            end
          else if Ascii.eqb c dquote then
            match parse_chars s' with
            | Some (str, rest) => Some (JStr str, rest)
            | None => None
            end
          else if Ascii.eqb c "t" then
            option_map (fun rest => (JBool true, rest)) (strip_prefix "true" s0)
          else if Ascii.eqb c "f" then
            option_map (fun rest => (JBool false, rest)) (strip_prefix "false" s0)
          else if Ascii.eqb c "n" then
            option_map (fun rest => (JNull, rest)) (strip_prefix "null" s0)
          else parse_number s0
      end
  end
with parse_elements (fuel : nat) (s : string) (acc : list json)
  : option (json * string) :=
  match fuel with
  | O => None
  | S n =>
      match parse_value n s with
      | None => None
      | Some (v, rest) =>
          match skip_ws rest with
          | String "," rest' => parse_elements n rest' (acc ++ [v])
          | String "]" rest' => Some (JArr (acc ++ [v]), rest')
          | _ => None
          end
      end
  end
with parse_members (fuel : nat) (s : string) (acc : list (string * json))
  : option (json * string) :=
  match fuel with
  | O => None
  | S n =>
      match skip_ws s with
      | String c s' =>
          if Ascii.eqb c dquote then
            match parse_chars s' with
            | None => None
            | Some (key, rest) =>
                match skip_ws rest with
                | String ":" rest' =>
                    match parse_value n rest' with
                    | None => None
                    | Some (v, rest'') =>
                        match skip_ws rest'' with
                        | String "," r => parse_members n r (dict_set key v acc)
                        | String "}" r => Some (JObj (dict_set key v acc), r)
                        | _ => None
                        end
                    end
                | _ => None
                end
            end
          else None
      | EmptyString => None
      end
  end.

Definition json_loads (s : string) : outcome json :=
  match parse_value (S (String.length s)) s with
  | Some (v, rest) =>
      match skip_ws rest with
      | EmptyString => Ret v
      | _ => Raise ValueError
      end
  | None => Raise ValueError
  end.

(** [str] on the scalars that print without a fraction. *)
Definition str_scalar (v : json) : string :=
  match v with
  | JStr s => s
  | JInt z => dec_signed z
  | JBool true => "True"
  | JBool false => "False"
  | JNull => "None"
  | _ => EmptyString
  end.

(** ** Sample clients and wire documents *)

(** [EyeTribe()] with its default arguments. *)
Definition fresh : EyeTribe := EyeTribe_init "localhost" 6555 ";".

(** The handshake reply of Scenario A, and replies to a mode switch. *)
Definition reply_handshake : string :=
  dq "{'statuscode':200,'values':{'heartbeatinterval':20}}".
Definition reply_handshake_no_heartbeat : string :=
  dq "{'statuscode':200,'values':{'heartbeatinterval':0}}".
Definition reply_ok : string :=
  dq "{'category':'tracker','request':'set','statuscode':200}".
Definition reply_error : string :=
  dq "{'category':'tracker','request':'set','statuscode':500}".

(** A frame as the tracker sends it, with the device time and the raw
    x coordinate left open. *)
Definition sample_eye : string :=
  "{'avg':{'x':1060.5,'y':610.25},'pcenter':{'x':0.3262,'y':0.5212},'psize':20.3247,'raw':{'x':1058,'y':612}}".

Definition sample_payload (time rawx : string) : string :=
  String.append "{'avg':{'x':1055.4305,'y':608.0665},'fix':true,'lefteye':"
 (String.append sample_eye
 (String.append ",'raw':{'x':"
 (String.append rawx
 (String.append ",'y':600},'righteye':"
 (String.append sample_eye
 (String.append ",'state':7,'time':"
 (String.append time ",'timestamp':'2014-04-15 12:00:00.123'}"))))))).

Definition sample_frame_doc (time rawx : string) : string :=
  dq (String.append
        "{'category':'tracker','request':'get','statuscode':200,'values':{'frame':"
        (String.append (sample_payload time rawx) "}}")).

(** The client after [connect] has read [reply] on a fresh client. *)
Definition connected_with (reply : string) : EyeTribe :=
  snd (connect json_loads (Answer (Chunk 0 reply)) fresh).

Definition connected : EyeTribe := connected_with reply_handshake.

(** Everything [next] hands out in push mode until it finds the queue
    empty, asked without blocking, at most [fuel] times. *)
Fixpoint dequeue_all (py : pyver) (limit : nat) (loads : string -> outcome json)
  (fuel : nat) (self : EyeTribe) : list Frame :=
  match fuel with
  | O => []
  | S n =>
      match next py limit loads false TimedOut self with
      | (Ret (Some f), self') => f :: dequeue_all py limit loads n self'
      | _ => []
      end
  end.

(** ** Vocabulary of the properties *)

Fixpoint occurs (c : ascii) (s : string) : bool :=
  match s with
  | EmptyString => false
  | String a s' => Ascii.eqb a c || occurs c s'
  end.

(** [js] is one line of the stream and holds a reply with status 200 that
    is not a heartbeat and carries the frame [payload]. *)
Definition frame_document (loads : string -> outcome json) (js : string) (payload : json)
  : Prop :=
  String.eqb (strip js) EmptyString = false
  /\ occurs newline js = false
  /\ exists j sc cat vals,
       loads js = Ret j
       /\ subscript j "statuscode" = Ret sc /\ ne_int sc 200 = false
       /\ subscript j "category" = Ret cat /\ ne_str cat "heartbeat" = true
       /\ subscript j "values" = Ret vals
       /\ subscript vals "frame" = Ret payload.

(** The event [ev] is a chunk holding one frame document, which decodes
    to [f]. *)
Definition receives (py : pyver) (limit : nat) (loads : string -> outcome json)
  (ev : recv_event) (f : Frame) : Prop :=
  exists now js payload,
    ev = Chunk now js
    /\ frame_document loads js payload
    /\ Frame_init py limit now payload ";" = Ret f.

(** The offset in force once [f] has been seen, the frame as it is handed
    on, and whether the callback lets it into the queue. *)
Definition offset_for (self : EyeTribe) (f : Frame) : Q :=
  match toffset self with
  | None => time f
  | Some o => o
  end.

Definition normalised (off : Q) (f : Frame) : Frame := set_time (time f - off) f.

Definition queued (cb : option (Frame -> json)) (f' : Frame) : bool :=
  match cb with
  | Some callback => negb (truthy (callback f'))
  | None => true
  end.

(** What [next] hands out, without blocking, until the queue is empty. *)
Definition dequeues (py : pyver) (limit : nat) (loads : string -> outcome json)
  (self : EyeTribe) : list Frame :=
  dequeue_all py limit loads (S (List.length (queue self))) self.

(** The connected client after [pushmode()] has read [reply_ok]. *)
Definition pushed_from (self : EyeTribe) : EyeTribe :=
  snd (pushmode json_loads None (Chunk 1 reply_ok) self).

Definition pushed : EyeTribe := pushed_from connected.

(** The payload of a sample frame as [json.loads] returns it. *)
Definition sample_json (time rawx : string) : json :=
  match json_loads (dq (sample_payload time rawx)) with
  | Ret j => j
  | _ => JNull
  end.

(** Callbacks that take every frame, and none. *)
Definition callback_consumes : Frame -> json := fun _ => JBool true.
Definition callback_declines : Frame -> json := fun _ => JBool false.

(** Strings of decimal digits, and fields joined by a separator. *)
Definition is_digit (c : ascii) : bool :=
  match digit_val c with
  | Some _ => true
  | None => false
  end.

Fixpoint all_digits (s : string) : bool :=
  match s with
  | EmptyString => true
  | String c s' => is_digit c && all_digits s'
  end.

Fixpoint join (sep : ascii) (fields : list string) : string :=
  match fields with
  | [] => EmptyString
  | [x] => x
  | x :: rest => String.append x (String sep (join sep rest))
  end.

(** What a conversion keeps of a value, and how its print is read back. *)
Definition kept_value (fmt : format) (v : json) : outcome Z :=
  match fmt with
  | fmt_d => int_value v
  | fmt_f prec => signed_scaled prec v
  end.

Definition parse_field (fmt : format) : string -> option Z :=
  match fmt with
  | fmt_d => parse_signed
  | fmt_f _ => parse_fixed
  end.

(** What [str()] gives for the sample frame received at wall-clock time 2. *)
Definition sample_rendering : string :=
  "0000000002.000;005.000;2014-04-15 12:00:00.123;F;..PEG;1058;600;1055;608;1058;612;1060;610;20.3;0.326;0.521;1058;612;1060;610;20.3;0.326;0.521".

(** More sample documents: a handshake reply with a negative heartbeat
    interval, a heartbeat reply, and a line that is not JSON. *)
Definition reply_handshake_negative : string :=
  dq "{'statuscode':200,'values':{'heartbeatinterval':-20}}".
Definition reply_heartbeat : string :=
  dq "{'category':'heartbeat','statuscode':200}".
Definition half_document : string :=
  dq "{'category':'tracker','request':'get','statuscode':200,'values':{'fra".

(** A connected client in pull mode with one frame left on its queue. *)
Definition sample_frames (time : string) : list Frame :=
  match Frame_init Py2 0 2 (sample_json time "1058") ";" with
  | Ret f => [f]
  | _ => []
  end.

Definition with_stale_frame : EyeTribe := set_queue (sample_frames "5000") connected.

(** What the listener may change of the object: nothing but the queue,
    which it extends, the time offset, which it sets when unset, and the
    flag, which it clears. *)
Definition listener_changes (s s' : EyeTribe) : Prop :=
  host s' = host s /\ port s' = port s /\ sock s' = sock s
  /\ hbinterval s' = hbinterval s /\ hbeater s' = hbeater s
  /\ listener s' = listener s /\ pmcallback s' = pmcallback s /\ ssep s' = ssep s
  /\ (exists added, queue s' = queue s ++ added)
  /\ (forall o, toffset s = Some o -> toffset s' = Some o)
  /\ (ispushmode s = false -> ispushmode s' = false).

(** A line the listener passes over: blank, or a reply with status 200
    that is a heartbeat reply or carries no frame. *)
Definition ignored_line (loads : string -> outcome json) (js : string) : Prop :=
  String.eqb (strip js) EmptyString = true
  \/ exists j sc cat,
       loads js = Ret j
       /\ subscript j "statuscode" = Ret sc /\ ne_int sc 200 = false
       /\ subscript j "category" = Ret cat
       /\ (ne_str cat "heartbeat" = false
           \/ contains "values" j = Ret false
           \/ exists vals,
                subscript j "values" = Ret vals /\ contains "frame" vals = Ret false).

(** A chunk made of such lines only. *)
Definition ignored_chunk (loads : string -> outcome json) (ev : recv_event) : Prop :=
  exists now data,
    ev = Chunk now data /\ Forall (ignored_line loads) (split newline data).

(** The header line the module prints before a run of rendered frames. *)
(** The heartbeat thread of a client in push mode after [beats] turns of
    its loop; there is no such thread when [pushmode] did not start one. *)
Definition hbeater_run (py : pyver) (beats : nat) (self : EyeTribe) : EyeTribe :=
  match hbeater self with
  | Some _ => snd (hbeater_target py beats self)
  | None => self
  end.

Definition header : string :=
  "eT;dT;aT;Fix;State;Rwx;Rwy;Avx;Avy;LRwx;LRwy;LAvx;LAvy;RSz;LCx;LCy;RRwx;RRwy;RAvx;RAvy;RS;RCx;RCy".

(** * Properties *)

(** ** The interpreter and the frame decoder *)

Lemma property_setter_overflows (A : Type) (depth : nat) (val : A) :
  property_setter depth val = Raise RecursionError.
Proof. induction depth as [|d IH]; simpl; [reflexivity | exact IH]. Qed.

Lemma property_getter_overflows (A : Type) (depth : nat) (stored : A) :
  property_getter depth stored = Raise RecursionError.
Proof. induction depth as [|d IH]; simpl; [reflexivity | exact IH]. Qed.

Lemma setattr_new_style (A : Type) (limit : nat) (val : A) :
  setattr Py3 limit val = Raise RecursionError.
Proof. apply property_setter_overflows. Qed.

Lemma getattr_new_style (A : Type) (limit : nat) (stored : A) :
  getattr Py3 limit stored = Raise RecursionError.
Proof. apply property_getter_overflows. Qed.

Lemma setattr_returns (A : Type) (py : pyver) (limit : nat) (val v : A) :
  setattr py limit val = Ret v -> py = Py2 /\ v = val.
Proof.
  destruct py; simpl; intros H.
  - injection H as <-. split; reflexivity.
  - rewrite property_setter_overflows in H. discriminate.
Qed.

(** C1. Under Python 3 no wire frame document is ever turned into a
    [Frame]: the first statement of [Frame.__init__], [self.etime = ...],
    enters the setter of [etime], which re-enters itself until the
    interpreter raises [RecursionError]; [Coord.__init__] fails the same way
    on [self.x = x], and so does every accessor that goes through a
    property (here [time] and [Coord.x]), whatever the recursion limit. *)
Theorem Frame_new_style_never_built :
  forall (limit : nat) (now : Q) (json : json) (ssep : string),
    Frame_init Py3 limit now json ssep = Raise RecursionError
    /\ (forall x y s fmt, Coord_init Py3 limit x y s fmt = Raise RecursionError)
    /\ (forall f, Frame_get_time Py3 limit f = Raise RecursionError)
    /\ (forall c, Coord_get_x Py3 limit c = Raise RecursionError).
Proof.
  intros limit now json ssep. repeat split.
  - unfold Frame_init. rewrite setattr_new_style. reflexivity.
  - intros. unfold Coord_init. rewrite setattr_new_style. reflexivity.
  - intros f. apply getattr_new_style.
  - intros c. apply getattr_new_style.
Qed.

(** Under Python 2 the same constructor returns: the classes are classic,
    every attribute lands in the instance dictionary, and the frame holds
    the values of the document, the time divided by 1000. *)
Lemma Frame_classic_built (limit : nat) (now : Q) (json t ts fx st lj rj : json)
      (q : Q) (rw av : Coord) (le re : Eye) :
  subscript json "time" = Ret t ->
  as_float t = Some q ->
  subscript json "timestamp" = Ret ts ->
  subscript json "fix" = Ret fx ->
  subscript json "state" = Ret st ->
  Coord_of Py2 limit json "raw" fmt_d = Ret rw ->
  Coord_of Py2 limit json "avg" fmt_d = Ret av ->
  subscript json "lefteye" = Ret lj ->
  Eye_of Py2 limit lj = Ret le ->
  subscript json "righteye" = Ret rj ->
  Eye_of Py2 limit rj = Ret re ->
  let f := mkFrame now (q / 1000) ts fx st rw av le re ";" in
  Frame_init Py2 limit now json ";" = Ret f
  /\ Frame_get_time Py2 limit f = Ret (q / 1000)
  /\ Frame_get_state Py2 limit f = Ret st
  /\ Frame_get_lefteye Py2 limit f = Ret le.
Proof.
  intros Ht Hq Hts Hfx Hst Hrw Hav Hlj Hle Hrj Hre f.
  split; [| repeat split].
  unfold Frame_init, truediv. cbn [setattr obind].
  rewrite Ht. cbn [obind]. rewrite Hq. cbn [obind].
  rewrite Hts. cbn [obind]. rewrite Hfx. cbn [obind]. rewrite Hst. cbn [obind].
  rewrite Hrw. cbn [obind]. rewrite Hav. cbn [obind].
  rewrite Hlj. cbn [obind]. rewrite Hle. cbn [obind].
  rewrite Hrj. cbn [obind]. rewrite Hre. reflexivity.
Qed.

(** ** The connection life cycle *)

(** C3. [bind] does the opposite of what its docstring and its message say:
    on a client that owns no socket it raises the "cannot (re)bind a
    connected socket" exception and leaves host and port alone; on a client
    that owns one it stores the new host and port. *)
Theorem bind_guard_inverted :
  forall (self : EyeTribe) (host' : string) (port' : Z),
    bind_ host' port' (set_sock None self)
      = (Raise (Exception msg_rebind None), set_sock None self)
    /\ classify (Exception msg_rebind None) = AlreadyConnected
    /\ forall so : socket,
         bind_ host' port' (set_sock (Some so) self)
           = (Ret tt, set_port port' (set_host host' (set_sock (Some so) self))).
Proof.
  intros self host' port'. repeat split.
Qed.

(** C4. [close] on a client that owns a socket releases it; on a client
    that owns none the test [self.sock.close is None] fails on the attribute
    lookup, so the call ends in [AttributeError] and the "cannot close an
    already closed connection" exception is never raised. *)
Theorem close_unconnected_attribute_error :
  forall self : EyeTribe,
    close (set_sock None self) = (Raise (AttributeError "close"), set_sock None self)
    /\ classify (AttributeError "close") <> NotConnected
    /\ forall so : socket,
         close (set_sock (Some so) self) = (Ret tt, set_sock None self).
Proof.
  intros self. repeat split. discriminate.
Qed.

(** Unfolding of the method combinators. *)
Ltac step := unfold bind, attr, assign, ret, raise, lift; simpl.

Lemma hbinterval_zero (n : Z) : Qeq_bool (inject_Z n / 1000) 0 = (n =? 0)%Z.
Proof.
  unfold Qeq_bool, Qdiv, Qmult, Qinv, inject_Z. simpl.
  rewrite !Z.mul_1_r. reflexivity.
Qed.




(** ** The switch to push mode *)

(** C2. A reply with a status other than 200 to the "set push" request
    makes [pushmode] raise its protocol error with the socket still open,
    but the flag [ispushmode], set before the request was sent, stays set,
    and a callback given to the call stays registered. *)
Theorem pushmode_protocol_error_keeps_flag :
  forall (loads : string -> outcome json) (self : EyeTribe) (so : socket)
         (callback : option (Frame -> json)) (now : Q) (r : string) (p sc : json),
    ispushmode self = false ->
    sock self = Some so ->
    loads r = Ret p ->
    subscript p "statuscode" = Ret sc ->
    ne_int sc 200 = true ->
    exists self',
      pushmode loads callback (Chunk now r) self
        = (Raise (Exception msg_push_protocol (Some sc)), self')
      /\ classify (Exception msg_push_protocol (Some sc)) = ProtocolError
      /\ ispushmode self' = true
      /\ pmcallback self'
         = match callback with Some cb => Some cb | None => pmcallback self end
      /\ sock self' = Some (mkSocket (timeout so) (sent so ++ [etm_set_push]))
      /\ listener self' = listener self /\ hbeater self' = hbeater self.
Proof.
  intros loads self so callback now r p sc Hpm Hs Hl Hsc Hne.
  unfold pushmode, sock_send, sock_recv. step. rewrite Hpm.
  destruct callback as [cb|]; simpl; rewrite Hs; simpl; rewrite Hl; simpl;
    rewrite Hsc; simpl; rewrite Hne; eexists; repeat split.
Qed.

(** The failing call: a connected client in pull mode, [pushmode(cb)] answered
    with status 500. *)
Lemma pushmode_protocol_error_on_connected :
  ispushmode connected = false
  /\ exists self',
       pushmode json_loads (Some (fun _ => JBool true)) (Chunk 1 reply_error) connected
         = (Raise (Exception msg_push_protocol (Some (JInt 500))), self')
       /\ ispushmode self' = true
       /\ (exists cb, pmcallback self' = Some cb)
       /\ pmcallback connected = None.
Proof.
  split; [reflexivity|].
  destruct (@pushmode_protocol_error_keeps_flag json_loads connected
              (mkSocket (Some (inject_Z 20 / 1000 * 2)) [etm_get_init])
              (Some (fun _ => JBool true)) 1 reply_error
              (JObj [("category"%string, JStr "tracker");
                     ("request"%string, JStr "set");
                     ("statuscode"%string, JInt 500)]) (JInt 500))
    as (self' & Hrun & _ & Hflag & Hcb & _);
    try (vm_compute; reflexivity).
  exists self'. repeat split; try assumption.
  - eexists. exact Hcb.
Defined.

(** The state a successful switch to push mode leaves. *)
Lemma pushmode_switch_state :
  forall (loads : string -> outcome json) (self : EyeTribe) (so : socket)
         (callback : option (Frame -> json)) (now : Q) (r : string) (p sc : json),
    ispushmode self = false ->
    sock self = Some so ->
    loads r = Ret p ->
    subscript p "statuscode" = Ret sc ->
    ne_int sc 200 = false ->
    pushmode loads callback (Chunk now r) self
    = (Ret tt,
       set_listener (Some (Thread target_listener))
         (set_hbeater (if Qeq_bool (hbinterval self) 0 then None
                       else Some (Thread target_hbeater))
            (set_sock (Some (mkSocket (timeout so) (sent so ++ [etm_set_push])))
               (set_pmcallback (match callback with
                                | Some cb => Some cb
                                | None => pmcallback self
                                end)
                  (set_ispushmode true self))))).
Proof.
  intros loads self so callback now r p sc Hpm Hs Hl Hsc Hok.
  unfold pushmode, sock_send, sock_recv. step. rewrite Hpm.
  destruct callback as [cb|]; simpl; rewrite Hs; simpl; rewrite Hl; simpl;
    rewrite Hsc; simpl; rewrite Hok;
    destruct self as [h p0 s q pm hbi hbt l cb0 off ss]; simpl;
    destruct (Qeq_bool hbi 0); reflexivity.
Qed.

(** ** The listener *)

Lemma Frame_init_returns (py : pyver) (limit : nat) (now : Q) (json : json)
      (ssep : string) (f : Frame) :
  Frame_init py limit now json ssep = Ret f -> py = Py2.
Proof.
  destruct py; [reflexivity|]. unfold Frame_init.
  rewrite setattr_new_style. discriminate.
Qed.

(** What the listener does with a payload that decodes. *)
Lemma listener_frame_decoded (py : pyver) (limit : nat) (now : Q) (payload : json)
      (f : Frame) (self : EyeTribe) :
  Frame_init py limit now payload ";" = Ret f ->
  let off := offset_for self f in
  let f' := normalised off f in
  listener_frame py limit now payload self
    = (Ret tt,
       set_queue (queue self ++ (if queued (pmcallback self) f' then [f'] else []))
                 (set_toffset (Some off) self)).
Proof.
  intros H off f'. pose proof (Frame_init_returns _ _ _ _ _ H) as ->.
  unfold listener_frame. step. rewrite H. simpl.
  subst f' off. unfold offset_for, queued, normalised, queue_put.
  destruct self as [h p s q pm hb hbt l cb off ss]; simpl.
  destruct off as [o|]; simpl; step;
    destruct cb as [c|]; simpl;
    try (destruct (truthy (c _)); simpl); rewrite ?app_nil_r; reflexivity.
Qed.

Lemma subscript_contains (v : json) (key : string) (w : json) :
  subscript v key = Ret w -> contains key v = Ret true.
Proof.
  destruct v; simpl; try discriminate.
  destruct (assoc key kvs); [reflexivity | discriminate].
Qed.

(** A frame document goes through the tests of [listener] to the frame
    branch. *)
Lemma listener_doc_frame (py : pyver) (limit : nat) (loads : string -> outcome json)
      (now : Q) (js : string) (payload : json) (self : EyeTribe) :
  frame_document loads js payload ->
  listener_doc py limit loads now js self = listener_frame py limit now payload self.
Proof.
  intros (Hs & _ & j & sc & cat & vals & Hl & Hsc & Hok & Hcat & Hne & Hv & Hf).
  unfold listener_doc. rewrite Hs. step.
  rewrite Hl. simpl. rewrite Hsc. simpl. rewrite Hok. rewrite Hcat. simpl.
  rewrite Hne. rewrite (subscript_contains _ _ Hv). simpl. rewrite Hv. simpl.
  rewrite (subscript_contains _ _ Hf). simpl. rewrite Hf. simpl.
  destruct (listener_frame py limit now payload self) as [[u|e|] s']; reflexivity.
Qed.

Lemma split_no_separator (sep : ascii) (s : string) :
  occurs sep s = false -> split sep s = [s].
Proof.
  induction s as [|c s IH]; simpl; [reflexivity|].
  intros H. apply orb_false_iff in H as [Hc Hs].
  rewrite Hc, (IH Hs). reflexivity.
Qed.

Lemma split_not_nil (sep : ascii) (s : string) : split sep s <> [].
Proof.
  destruct s as [|c s]; simpl; [discriminate|].
  destruct (Ascii.eqb c sep); [discriminate|].
  destruct (split sep s); discriminate.
Qed.

Lemma split_append (sep : ascii) (a b : string) :
  split sep (String.append a (String sep b)) = split sep a ++ split sep b.
Proof.
  induction a as [|c a IH]; simpl.
  - rewrite Ascii.eqb_refl. reflexivity.
  - destruct (Ascii.eqb c sep); [rewrite IH; reflexivity|].
    rewrite IH. destruct (split sep a) eqn:E; [|reflexivity].
    exfalso. exact (split_not_nil _ _ E).
Qed.

(** A chunk that is one frame document. *)
Lemma listener_recv_frame (py : pyver) (limit : nat) (loads : string -> outcome json)
      (ev : recv_event) (f : Frame) (self : EyeTribe) (so : socket) :
  sock self = Some so ->
  receives py limit loads ev f ->
  let off := offset_for self f in
  let f' := normalised off f in
  listener_recv py limit loads ev self
    = (Ret tt,
       set_queue (queue self ++ (if queued (pmcallback self) f' then [f'] else []))
                 (set_toffset (Some off) self)).
Proof.
  intros Hso (now & js & payload & -> & Hdoc & Hdec) off f'.
  unfold listener_recv. step. rewrite Hso.
  rewrite (split_no_separator _ _ (proj1 (proj2 Hdoc))). simpl. step.
  rewrite (listener_doc_frame py limit now self Hdoc).
  rewrite (@listener_frame_decoded py limit now payload f _ Hdec). reflexivity.
Qed.

(** Once the offset is set, a run of frame chunks leaves it alone and
    queues each frame with its time counted from it. *)
Lemma listener_target_offset_kept (py : pyver) (limit : nat)
      (loads : string -> outcome json) (evs : list recv_event) (fs : list Frame) :
  Forall2 (receives py limit loads) evs fs ->
  forall (self : EyeTribe) (so : socket) (o : Q),
    sock self = Some so ->
    ispushmode self = true ->
    toffset self = Some o ->
    listener_target py limit loads evs self
      = (Running,
         set_queue (queue self ++ filter (queued (pmcallback self)) (map (normalised o) fs))
                   self).
Proof.
  induction 1 as [|ev f evs fs Hev _ IH]; intros self so o Hso Hpm Hoff.
  - simpl. rewrite Hpm. destruct self; simpl. rewrite app_nil_r. reflexivity.
  - simpl. rewrite Hpm.
    rewrite (@listener_recv_frame py limit loads ev f self so Hso Hev).
    unfold offset_for. rewrite Hoff.
    erewrite IH; [| simpl; eassumption | simpl; assumption | reflexivity].
    destruct self as [h p s q pm hb hbt l cb off ss]; simpl in *. subst.
    destruct (queued cb (normalised o f)); simpl;
      rewrite <- ?app_assoc, ?app_nil_r; reflexivity.
Qed.

Lemma pullmode_returns_offset_cleared (lexit hexit : option Q) (st st' : EyeTribe) :
  pullmode lexit hexit st = (Ret tt, st') ->
  toffset st' = None /\ pmcallback st' = None /\ ispushmode st' = false.
Proof.
  unfold pullmode, pullmode_signal, pullmode_sync, sock_send. step.
  destruct (ispushmode st) eqn:Hpm; simpl.
  - destruct (sock st); simpl; [|discriminate].
    destruct (listener st); simpl; [|discriminate].
    destruct (isAlive_after_join _ lexit); simpl; [discriminate|].
    destruct (negb (Qeq_bool (hbinterval st) 0)); simpl.
    + destruct (hbeater st); simpl; [|discriminate].
      destruct (isAlive_after_join _ hexit); simpl; [discriminate|].
      intros H. injection H as <-. repeat split.
    + intros H. injection H as <-. repeat split.
  - intros H. injection H as <-. repeat split. exact Hpm.
Qed.

(** The time offset in a session entered with the offset unset.  In a
    push-mode session that starts with the
    offset unset (a fresh client, or after a [pullmode] that returned), the
    offset is set once, to the device time [T0] of the first frame decoded;
    that frame is handed on with time [T0 - T0 = 0], every later frame with
    its time minus [T0], and the offset is still [T0] after them; a
    [pullmode] that returns leaves the offset unset. *)
Theorem time_offset_set_once_per_session :
  forall (py : pyver) (limit : nat) (loads : string -> outcome json)
         (self : EyeTribe) (so : socket) (evs : list recv_event)
         (f0 : Frame) (fs : list Frame),
    sock self = Some so ->
    ispushmode self = true ->
    toffset self = None ->
    Forall2 (receives py limit loads) evs (f0 :: fs) ->
    let T0 := time f0 in
    (exists self',
        listener_target py limit loads evs self = (Running, self')
        /\ toffset self' = Some T0
        /\ queue self'
           = queue self
               ++ filter (queued (pmcallback self)) (map (normalised T0) (f0 :: fs)))
    /\ time (normalised T0 f0) == 0
    /\ (forall f, time (normalised T0 f) = time f - T0)
    /\ (forall lexit hexit st st',
          pullmode lexit hexit st = (Ret tt, st') -> toffset st' = None).
Proof.
  intros py limit loads self so evs f0 fs Hso Hpm Hoff Hall T0.
  split; [| split; [| split]].
  - inversion Hall as [|ev f evs' fs' Hev Hrest]; subst.
    simpl. rewrite Hpm.
    rewrite (@listener_recv_frame py limit loads ev f0 self so Hso Hev).
    unfold offset_for. rewrite Hoff. fold T0.
    erewrite (@listener_target_offset_kept py limit loads evs' fs Hrest);
      [| simpl; eassumption | simpl; assumption | reflexivity].
    eexists. split; [reflexivity|]. simpl. split; [reflexivity|].
    destruct (queued (pmcallback self) (normalised T0 f0)); simpl;
      rewrite <- ?app_assoc, ?app_nil_r; reflexivity.
  - unfold normalised, T0. simpl. ring.
  - reflexivity.
  - intros lexit hexit st st' H.
    exact (proj1 (pullmode_returns_offset_cleared _ _ _ H)).
Qed.

Lemma sample_receives (now : Q) (t rawx : string) (j payload : json) (f : Frame) :
  String.eqb (strip (sample_frame_doc t rawx)) EmptyString = false ->
  occurs newline (sample_frame_doc t rawx) = false ->
  json_loads (sample_frame_doc t rawx) = Ret j ->
  subscript j "statuscode" = Ret (JInt 200) ->
  subscript j "category" = Ret (JStr "tracker") ->
  (let! v := subscript j "values" in subscript v "frame") = Ret payload ->
  Frame_init Py2 0 now payload ";" = Ret f ->
  receives Py2 0 json_loads (Chunk now (sample_frame_doc t rawx)) f.
Proof.
  intros Hs Hn Hl Hsc Hcat Hp Hf.
  destruct (subscript j "values") as [vals| |] eqn:Hv; simpl in Hp; try discriminate.
  exists now, (sample_frame_doc t rawx), payload. split; [reflexivity|].
  split; [|exact Hf].
  split; [exact Hs|]. split; [exact Hn|].
  exists j, (JInt 200), (JStr "tracker"), vals. repeat split; assumption.
Qed.

(** A session of two frames, device times 5000 ms and 9000 ms, on a client
    that has just entered push mode. *)
Lemma time_offset_two_frames :
  sock pushed = Some (mkSocket (Some (inject_Z 20 / 1000 * 2)) [etm_get_init; etm_set_push])
  /\ ispushmode pushed = true
  /\ toffset pushed = None
  /\ exists f0 f1 self',
       Forall2 (receives Py2 0 json_loads)
               [Chunk 2 (sample_frame_doc "5000" "1058");
                Chunk 3 (sample_frame_doc "9000" "1058")] [f0; f1]
       /\ listener_target Py2 0 json_loads
            [Chunk 2 (sample_frame_doc "5000" "1058");
             Chunk 3 (sample_frame_doc "9000" "1058")] pushed = (Running, self')
       /\ time f0 == 5 /\ time f1 == 9
       /\ toffset self' = Some (time f0)
       /\ queue self' = [normalised (time f0) f0; normalised (time f0) f1]
       /\ time (normalised (time f0) f0) == 0
       /\ time (normalised (time f0) f1) == 4.
Proof.
  split; [reflexivity|]. split; [reflexivity|]. split; [reflexivity|].
  eexists. eexists.
  match goal with |- exists _, ?P /\ _ => assert (Hall : P) end.
  { constructor; [|constructor; [|constructor]];
      (eapply sample_receives; [vm_compute; reflexivity ..]). }
  destruct (@time_offset_set_once_per_session Py2 0 json_loads pushed _ _ _ _
              eq_refl eq_refl eq_refl Hall) as ((self' & Hrun & Hoff & Hq) & Hzero & Htime & _).
  exists self'. split; [exact Hall|]. split; [exact Hrun|].
  split; [vm_compute; reflexivity|]. split; [vm_compute; reflexivity|].
  split; [exact Hoff|]. split; [exact Hq|].
  split; [exact Hzero|]. vm_compute. reflexivity.
Defined.

(** The sample sessions in full.  A first session sets the offset to 5 s and ends
    when the listener's [recv] times out; the client enters push mode
    again, and the first frame of the new session, device time 9 s, is
    queued with time 4 s: the offset of the dead session is still there.
    And a [pullmode] whose listener outlives the bounded join raises before
    it resets the offset, so the client is back in pull mode with the
    offset set. *)
Lemma time_offset_stale_after_failed_session :
  let r2 := listener_target Py2 0 json_loads
              [Chunk 2 (sample_frame_doc "5000" "1058"); TimedOut] pushed in
  let s3 := pushed_from (snd r2) in
  let r4 := listener_target Py2 0 json_loads
              [Chunk 4 (sample_frame_doc "9000" "1058")] s3 in
  fst r2 = Died (Exception msg_push_timeout None)
  /\ ispushmode (snd r2) = false
  /\ ispushmode s3 = true
  /\ listener s3 = Some (Thread target_listener)
  /\ (exists f1 f2,
        queue (snd r4) = [f1; f2]
        /\ time f1 == 0 /\ time f2 == 4 /\ ~ time f2 == 0)
  /\ (exists st o,
        pullmode None None (snd r4) = (Raise (Exception msg_listener_alive None), st)
        /\ ispushmode st = false
        /\ toffset st = Some o).
Proof.
  cbv zeta.
  split; [vm_compute; reflexivity|].
  split; [vm_compute; reflexivity|].
  split; [vm_compute; reflexivity|].
  split; [vm_compute; reflexivity|].
  split.
  - eexists. eexists. split; [vm_compute; reflexivity|].
    split; [vm_compute; reflexivity|]. split; [vm_compute; reflexivity|].
    vm_compute. discriminate.
  - eexists. eexists. split; [vm_compute; reflexivity|].
    split; vm_compute; reflexivity.
Qed.

(** C6.  [pushmode] does not reset the time offset, although its
    docstring says it resets the tracker time so that all frames are
    relative to the first one returned.  Take a session in which the offset
    has been set to [o] and whose listener dies of a timeout of its [recv]:
    the listener clears the flag and leaves the offset.  [pushmode] then
    enters push mode again, starts a new listener and leaves the offset at
    [o], so the first frame of the new session, device time [time f], is
    handed on with time [time f - o] and not with time 0, and the offset of
    the new session is not taken from its first frame. *)
Theorem pushmode_keeps_stale_offset :
  forall (py : pyver) (limit : nat) (loads : string -> outcome json)
         (s0 : EyeTribe) (so : socket) (o : Q)
         (callback : option (Frame -> json)) (now : Q) (r : string) (p sc : json)
         (ev : recv_event) (f : Frame),
    ispushmode s0 = true ->
    sock s0 = Some so ->
    toffset s0 = Some o ->
    loads r = Ret p ->
    subscript p "statuscode" = Ret sc ->
    ne_int sc 200 = false ->
    receives py limit loads ev f ->
    let dead := listener_target py limit loads [TimedOut] s0 in
    let entered := pushmode loads callback (Chunk now r) (snd dead) in
    let s1 := snd entered in
    (fst dead = Died (Exception msg_push_timeout None)
     /\ ispushmode (snd dead) = false
     /\ toffset (snd dead) = Some o)
    /\ (fst entered = Ret tt
        /\ ispushmode s1 = true
        /\ listener s1 = Some (Thread target_listener)
        /\ toffset s1 = Some o)
    /\ (exists s2,
          listener_target py limit loads [ev] s1 = (Running, s2)
          /\ toffset s2 = Some o
          /\ queue s2
             = queue s0 ++ (if queued (pmcallback s1) (normalised o f)
                            then [normalised o f] else []))
    /\ time (normalised o f) = time f - o
    /\ (~ time f == o -> ~ time (normalised o f) == 0).
Proof.
  intros py limit loads s0 so o callback now r p sc ev f
         Hpm Hso Hoff Hl Hsc Hok Hev dead entered s1.
  assert (Hdead : dead = (Died (Exception msg_push_timeout None), set_ispushmode false s0)).
  { unfold dead. cbn [listener_target]. rewrite Hpm.
    unfold listener_recv. step. rewrite Hso, Hpm. reflexivity. }
  assert (Hent : entered
                 = (Ret tt,
                    set_listener (Some (Thread target_listener))
                      (set_hbeater (if Qeq_bool (hbinterval s0) 0 then None
                                    else Some (Thread target_hbeater))
                         (set_sock (Some (mkSocket (timeout so) (sent so ++ [etm_set_push])))
                            (set_pmcallback (match callback with
                                             | Some cb => Some cb
                                             | None => pmcallback s0
                                             end)
                               (set_ispushmode true (set_ispushmode false s0))))))).
  { unfold entered. rewrite Hdead. cbn [snd].
    rewrite (@pushmode_switch_state loads (set_ispushmode false s0) so callback now r p sc);
      try assumption; reflexivity. }
  subst s1. rewrite Hent, Hdead. cbn [fst snd].
  split; [repeat split; exact Hoff|].
  split; [split; [reflexivity|]; split; [reflexivity|]; split; [reflexivity| exact Hoff]|].
  split; [| split].
  - cbn [listener_target]. cbn [ispushmode set_listener set_hbeater set_sock set_pmcallback
                                  set_ispushmode].
    erewrite (@listener_recv_frame py limit loads ev f); [| reflexivity | exact Hev].
    unfold offset_for. cbn [toffset set_listener set_hbeater set_sock set_pmcallback
                              set_ispushmode set_queue set_toffset].
    rewrite Hoff. eexists. split; [reflexivity|]. split; reflexivity.
  - reflexivity.
  - intros Hne H0. apply Hne. unfold normalised in H0. simpl in H0.
    apply Qplus_inj_r with (z := - o). rewrite Qplus_opp_r. exact H0.
Qed.

(** On the sample client: the first session sets the offset to 5 s with
    its frame of device time 5000 ms, its listener times out, and the first
    frame of the session entered next, device time 9000 ms, is queued with
    time 4 s. *)
Lemma stale_offset_second_session :
  let s0 := snd (listener_target Py2 0 json_loads
                   [Chunk 2 (sample_frame_doc "5000" "1058")] pushed) in
  let s1 := snd (pushmode json_loads None (Chunk 3 reply_ok)
                   (snd (listener_target Py2 0 json_loads [TimedOut] s0))) in
  ispushmode s0 = true /\ toffset s0 = Some (5000 / 1000)
  /\ exists f s2,
       receives Py2 0 json_loads (Chunk 4 (sample_frame_doc "9000" "1058")) f
       /\ time f == 9
       /\ listener_target Py2 0 json_loads
            [Chunk 4 (sample_frame_doc "9000" "1058")] s1 = (Running, s2)
       /\ time (normalised (5000 / 1000) f) == 4
       /\ ~ time (normalised (5000 / 1000) f) == 0.
Proof.
  cbv zeta.
  split; [vm_compute; reflexivity|]. split; [vm_compute; reflexivity|].
  eexists.
  match goal with |- exists _, ?P /\ _ => assert (Hev : P) end.
  { eapply sample_receives; vm_compute; reflexivity. }
  assert (Hpm : ispushmode (snd (listener_target Py2 0 json_loads
                                   [Chunk 2 (sample_frame_doc "5000" "1058")] pushed)) = true)
    by (vm_compute; reflexivity).
  assert (Hso : sock (snd (listener_target Py2 0 json_loads
                             [Chunk 2 (sample_frame_doc "5000" "1058")] pushed))
                = Some (mkSocket (Some (inject_Z 20 / 1000 * 2)) [etm_get_init; etm_set_push]))
    by (vm_compute; reflexivity).
  assert (Hoff : toffset (snd (listener_target Py2 0 json_loads
                                 [Chunk 2 (sample_frame_doc "5000" "1058")] pushed))
                 = Some (5000 / 1000))
    by (vm_compute; reflexivity).
  assert (Hl : json_loads reply_ok
               = Ret (JObj [("category"%string, JStr "tracker");
                            ("request"%string, JStr "set");
                            ("statuscode"%string, JInt 200)]))
    by (vm_compute; reflexivity).
  destruct (@pushmode_keeps_stale_offset Py2 0 json_loads _ _ _ None 3 reply_ok _ (JInt 200)
              _ _ Hpm Hso Hoff Hl eq_refl eq_refl Hev)
    as (_ & _ & (s2 & Hrun & _) & _ & Hnz).
  exists s2. split; [exact Hev|]. split; [vm_compute; reflexivity|].
  split; [exact Hrun|]. split; [vm_compute; reflexivity|].
  apply Hnz. vm_compute. discriminate.
Defined.

(** ** The queue *)

Lemma dequeue_all_firstn (py : pyver) (limit : nat) (loads : string -> outcome json)
      (n : nat) :
  forall self : EyeTribe,
    ispushmode self = true ->
    dequeue_all py limit loads n self = firstn n (queue self).
Proof.
  induction n as [|n IH]; intros self Hpm; [reflexivity|].
  simpl. unfold next, queue_get. step. rewrite Hpm.
  destruct (queue self) as [|f q] eqn:Hq; simpl; [reflexivity|].
  rewrite IH by exact Hpm. reflexivity.
Qed.

Lemma dequeues_queue (py : pyver) (limit : nat) (loads : string -> outcome json)
      (self : EyeTribe) :
  ispushmode self = true -> dequeues py limit loads self = queue self.
Proof.
  intros Hpm. unfold dequeues. rewrite dequeue_all_firstn by exact Hpm.
  rewrite firstn_all2; [reflexivity | lia].
Qed.

(** After the queue has been drained, a non-blocking [next] returns [None]
    and a blocking one does not return. *)
Lemma next_on_empty_queue (py : pyver) (limit : nat) (loads : string -> outcome json)
      (ev : recv_event) (self : EyeTribe) :
  ispushmode self = true ->
  queue self = [] ->
  next py limit loads false ev self = (Ret None, self)
  /\ next py limit loads true ev self = (Blocked, self).
Proof.
  intros Hpm Hq. unfold next, queue_get. step. rewrite Hpm, Hq. split; reflexivity.
Qed.

Lemma queue_puts (fs : list Frame) :
  forall self : EyeTribe,
    for_each fs queue_put self = (Ret tt, set_queue (queue self ++ fs) self).
Proof.
  induction fs as [|f fs IH]; intros self; simpl.
  - unfold ret. destruct self; simpl. rewrite app_nil_r. reflexivity.
  - unfold queue_put at 1. step. rewrite IH. simpl.
    rewrite <- app_assoc. destruct self; reflexivity.
Qed.

(** C7. In push mode, a decoded frame for which the registered callback
    returns a true value is not queued: [next] hands out what it handed
    out before.  When the callback returns a false value, or none is
    registered, the frame is put on the queue once, behind what was there,
    and [next] hands it out once, after the frames queued before it. *)
Theorem callback_decides_queueing :
  forall (py : pyver) (limit : nat) (loads : string -> outcome json)
         (self : EyeTribe) (now : Q) (payload : json) (f : Frame),
    ispushmode self = true ->
    Frame_init py limit now payload ";" = Ret f ->
    let f' := normalised (offset_for self f) f in
    exists self',
      listener_frame py limit now payload self = (Ret tt, self')
      /\ ispushmode self' = true
      /\ (forall cb, pmcallback self = Some cb -> truthy (cb f') = true ->
            queue self' = queue self
            /\ dequeues py limit loads self' = dequeues py limit loads self)
      /\ (forall cb, pmcallback self = Some cb -> truthy (cb f') = false ->
            queue self' = queue self ++ [f']
            /\ dequeues py limit loads self' = dequeues py limit loads self ++ [f'])
      /\ (pmcallback self = None ->
            queue self' = queue self ++ [f']
            /\ dequeues py limit loads self' = dequeues py limit loads self ++ [f']).
Proof.
  intros py limit loads self now payload f Hpm Hdec f'.
  eexists. split; [apply (@listener_frame_decoded py limit now payload f self Hdec)|].
  fold f'. split; [exact Hpm|].
  rewrite !dequeues_queue by exact Hpm. simpl.
  repeat split; intros; unfold queued;
    repeat match goal with H : pmcallback self = _ |- _ => rewrite H end;
    repeat match goal with H : truthy _ = _ |- _ => rewrite H end;
    simpl; rewrite ?app_nil_r; reflexivity.
Qed.

(** Scenarios B and C on a client that has just entered push mode. *)
Lemma callback_scenarios_B_and_C :
  ispushmode pushed = true
  /\ exists f,
       Frame_init Py2 0 2 (sample_json "5000" "1058") ";" = Ret f
       /\ dequeues Py2 0 json_loads
            (snd (listener_frame Py2 0 2 (sample_json "5000" "1058")
                    (set_pmcallback (Some callback_consumes) pushed))) = []
       /\ dequeues Py2 0 json_loads
            (snd (listener_frame Py2 0 2 (sample_json "5000" "1058")
                    (set_pmcallback (Some callback_declines) pushed)))
          = [normalised (time f) f]
       /\ dequeues Py2 0 json_loads
            (snd (listener_frame Py2 0 2 (sample_json "5000" "1058") pushed))
          = [normalised (time f) f].
Proof.
  split; [reflexivity|].
  eexists. split; [vm_compute; reflexivity|].
  match goal with
  | |- context [normalised (time ?f0) ?f0] =>
      assert (Hdec : Frame_init Py2 0 2 (sample_json "5000" "1058") ";" = Ret f0)
        by (vm_compute; reflexivity);
      pose proof (@callback_decides_queueing Py2 0 json_loads
                    (set_pmcallback (Some callback_consumes) pushed) 2 _ f0
                    eq_refl Hdec) as (s1 & R1 & _ & T1 & _);
      pose proof (@callback_decides_queueing Py2 0 json_loads
                    (set_pmcallback (Some callback_declines) pushed) 2 _ f0
                    eq_refl Hdec) as (s2 & R2 & _ & _ & F2 & _);
      pose proof (@callback_decides_queueing Py2 0 json_loads pushed 2 _ f0
                    eq_refl Hdec) as (s3 & R3 & _ & _ & _ & N3)
  end.
  rewrite R1, R2, R3. simpl.
  split; [exact (proj2 (T1 _ eq_refl eq_refl))|].
  split; [exact (proj2 (F2 _ eq_refl eq_refl))|].
  exact (proj2 (N3 eq_refl)).
Defined.

(** An empty or blank segment is skipped. *)
Lemma listener_doc_blank (py : pyver) (limit : nat) (loads : string -> outcome json)
      (now : Q) (js : string) (self : EyeTribe) :
  String.eqb (strip js) EmptyString = true ->
  listener_doc py limit loads now js self = (Ret tt, self).
Proof. intros H. unfold listener_doc. rewrite H. reflexivity. Qed.

(** Where the documents decode (Python 2): a chunk made of two frame
    documents joined by a newline (with or
    without a newline after the second) is split into the two documents,
    the empty segment is skipped, and the two frames are decoded and handed
    on in the order received; and whatever frames the listener puts on the
    queue, in push mode [next] hands them out in that order, behind the
    frames that were queued before. *)
Theorem chunk_split_in_order_and_fifo :
  forall (py : pyver) (limit : nat) (loads : string -> outcome json)
         (self : EyeTribe) (so : socket) (now : Q)
         (d1 d2 : string) (p1 p2 : json) (f1 f2 : Frame),
    sock self = Some so ->
    ispushmode self = true ->
    frame_document loads d1 p1 ->
    frame_document loads d2 p2 ->
    Frame_init py limit now p1 ";" = Ret f1 ->
    Frame_init py limit now p2 ";" = Ret f2 ->
    let off := offset_for self f1 in
    let handed := filter (queued (pmcallback self)) [normalised off f1; normalised off f2] in
    let chunk := String.append d1 (String newline d2) in
    (split newline chunk = [d1; d2]
     /\ split newline (String.append chunk (String newline EmptyString)) = [d1; d2; EmptyString])
    /\ (exists self',
          listener_recv py limit loads (Chunk now chunk) self = (Ret tt, self')
          /\ listener_recv py limit loads
               (Chunk now (String.append chunk (String newline EmptyString))) self = (Ret tt, self')
          /\ queue self' = queue self ++ handed
          /\ dequeues py limit loads self' = dequeues py limit loads self ++ handed)
    /\ (forall (st : EyeTribe) (fs : list Frame),
          ispushmode st = true ->
          dequeues py limit loads (snd (for_each fs queue_put st))
          = dequeues py limit loads st ++ fs).
Proof.
  intros py limit loads self so now d1 d2 p1 p2 f1 f2 Hso Hpm Hd1 Hd2 Hf1 Hf2
         off handed chunk.
  assert (Hsplit : split newline chunk = [d1; d2]).
  { unfold chunk. rewrite split_append.
    rewrite (split_no_separator _ _ (proj1 (proj2 Hd1))).
    rewrite (split_no_separator _ _ (proj1 (proj2 Hd2))). reflexivity. }
  assert (Hsplit' : split newline (String.append chunk (String newline EmptyString))
                    = [d1; d2; EmptyString]).
  { rewrite split_append, Hsplit. reflexivity. }
  assert (Hrun : for_each [d1; d2] (listener_doc py limit loads now) self
                 = (Ret tt, set_queue (queue self ++ handed)
                                      (set_toffset (Some off) self))).
  { cbn [for_each]. unfold bind.
    rewrite (listener_doc_frame py limit now self Hd1).
    rewrite (@listener_frame_decoded py limit now p1 f1 self Hf1). fold off.
    rewrite (listener_doc_frame py limit now _ Hd2).
    rewrite (@listener_frame_decoded py limit now p2 f2 _ Hf2).
    unfold ret, offset_for at 1 2. simpl. unfold handed. simpl.
    destruct self as [h p s q pm hb hbt l cb o ss]; simpl.
    destruct (queued cb (normalised off f1)), (queued cb (normalised off f2)); simpl;
      rewrite <- ?app_assoc, ?app_nil_r; reflexivity. }
  split; [split; assumption|]. split.
  - exists (set_queue (queue self ++ handed) (set_toffset (Some off) self)).
    split; [| split; [| split]].
    + unfold listener_recv. step. rewrite Hso, Hsplit. exact Hrun.
    + unfold listener_recv. step. rewrite Hso, Hsplit'.
      change [d1; d2; EmptyString] with ([d1; d2] ++ [EmptyString]).
      cbn [for_each app] in *. unfold bind in *.
      destruct (listener_doc py limit loads now d1 self) as [[[]|e|] s1]; try discriminate.
      destruct (listener_doc py limit loads now d2 s1) as [[[]|e|] s2]; try discriminate.
      rewrite listener_doc_blank by reflexivity. exact Hrun.
    + reflexivity.
    + rewrite !dequeues_queue by assumption. reflexivity.
  - intros st fs Hst. rewrite queue_puts. simpl.
    rewrite !dequeues_queue by assumption. reflexivity.
Qed.

Ltac sample_document :=
  split; [vm_compute; reflexivity|];
  split; [vm_compute; reflexivity|];
  do 4 eexists; repeat split; vm_compute; reflexivity.

(** Scenario D: two sample frames, device times 5000 ms and 9000 ms, in
    one chunk. *)
Lemma chunk_scenario_D :
  let d1 := sample_frame_doc "5000" "1058" in
  let d2 := sample_frame_doc "9000" "1058" in
  frame_document json_loads d1 (sample_json "5000" "1058")
  /\ frame_document json_loads d2 (sample_json "9000" "1058")
  /\ exists f1 f2 self',
       Frame_init Py2 0 2 (sample_json "5000" "1058") ";" = Ret f1
       /\ Frame_init Py2 0 2 (sample_json "9000" "1058") ";" = Ret f2
       /\ listener_recv Py2 0 json_loads
            (Chunk 2 (String.append d1 (String newline d2))) pushed = (Ret tt, self')
       /\ dequeues Py2 0 json_loads self'
          = [normalised (time f1) f1; normalised (time f1) f2]
       /\ time (normalised (time f1) f1) == 0
       /\ time (normalised (time f1) f2) == 4.
Proof.
  intros d1 d2.
  assert (H1 : frame_document json_loads d1 (sample_json "5000" "1058"))
    by sample_document.
  assert (H2 : frame_document json_loads d2 (sample_json "9000" "1058"))
    by sample_document.
  split; [exact H1|]. split; [exact H2|].
  eexists. eexists.
  match goal with
  | |- exists _, ?P1 /\ ?P2 /\ _ =>
      assert (Hf1 : P1) by (vm_compute; reflexivity);
      assert (Hf2 : P2) by (vm_compute; reflexivity)
  end.
  destruct (@chunk_split_in_order_and_fifo Py2 0 json_loads pushed _ 2 d1 d2 _ _ _ _
              eq_refl eq_refl H1 H2 Hf1 Hf2) as (_ & (self' & Hrun & _ & _ & Hdq) & _).
  exists self'. split; [exact Hf1|]. split; [exact Hf2|]. split; [exact Hrun|].
  split; [exact Hdq|]. split; vm_compute; reflexivity.
Defined.

(** C8.  Under Python 3 a chunk of two frame documents joined by a
    newline yields no frame.  The chunk is split into the two documents in
    order, but decoding the first raises [RecursionError] in the
    constructor of [Frame] (the defect of C1), which the listener does not
    catch: the thread dies with the flag set, the second document and all
    later chunks are never looked at, and [next] hands out what was queued
    before and nothing more. *)
Theorem chunk_of_two_frames_lost_under_python3 :
  forall (limit : nat) (loads : string -> outcome json)
         (self : EyeTribe) (so : socket) (now : Q)
         (d1 d2 : string) (p1 p2 : json) (evs : list recv_event),
    sock self = Some so ->
    ispushmode self = true ->
    frame_document loads d1 p1 ->
    frame_document loads d2 p2 ->
    let chunk := String.append d1 (String newline d2) in
    split newline chunk = [d1; d2]
    /\ listener_target Py3 limit loads (Chunk now chunk :: evs) self
       = (Died RecursionError, self)
    /\ dequeues Py3 limit loads
         (snd (listener_target Py3 limit loads (Chunk now chunk :: evs) self))
       = queue self.
Proof.
  intros limit loads self so now d1 d2 p1 p2 evs Hso Hpm Hd1 Hd2 chunk.
  assert (Hsplit : split newline chunk = [d1; d2]).
  { unfold chunk. rewrite split_append.
    rewrite (split_no_separator _ _ (proj1 (proj2 Hd1))).
    rewrite (split_no_separator _ _ (proj1 (proj2 Hd2))). reflexivity. }
  assert (Hrun : listener_target Py3 limit loads (Chunk now chunk :: evs) self
                 = (Died RecursionError, self)).
  { cbn [listener_target]. rewrite Hpm. unfold listener_recv. step. rewrite Hso, Hsplit.
    cbn [for_each]. unfold bind.
    rewrite (listener_doc_frame Py3 limit now self Hd1).
    assert (Hinit : Frame_init Py3 limit now p1 ";" = Raise RecursionError)
      by (unfold Frame_init; rewrite setattr_new_style; reflexivity).
    unfold listener_frame. step. rewrite Hinit. reflexivity. }
  split; [exact Hsplit|]. split; [exact Hrun|].
  rewrite Hrun. apply dequeues_queue. exact Hpm.
Qed.

(** Scenario D under Python 3, on a client that has just entered push
    mode. *)
Lemma chunk_scenario_D_python3 :
  let d1 := sample_frame_doc "5000" "1058" in
  let d2 := sample_frame_doc "9000" "1058" in
  frame_document json_loads d1 (sample_json "5000" "1058")
  /\ frame_document json_loads d2 (sample_json "9000" "1058")
  /\ listener_target Py3 1000 json_loads
       [Chunk 2 (String.append d1 (String newline d2))] pushed
     = (Died RecursionError, pushed)
  /\ dequeues Py3 1000 json_loads
       (snd (listener_target Py3 1000 json_loads
               [Chunk 2 (String.append d1 (String newline d2))] pushed)) = [].
Proof.
  intros d1 d2.
  assert (H1 : frame_document json_loads d1 (sample_json "5000" "1058"))
    by sample_document.
  assert (H2 : frame_document json_loads d2 (sample_json "9000" "1058"))
    by sample_document.
  split; [exact H1|]. split; [exact H2|].
  destruct (@chunk_of_two_frames_lost_under_python3 1000 json_loads pushed _ 2 d1 d2 _ _ []
              eq_refl eq_refl H1 H2) as (_ & Hrun & Hdq).
  split; [exact Hrun | exact Hdq].
Defined.

(** ** Leaving push mode *)

Lemma isAlive_after_join_within (bound d : Q) :
  d <= bound -> isAlive_after_join bound (Some d) = false.
Proof.
  intros H. unfold isAlive_after_join.
  apply Qle_bool_iff in H. rewrite H. reflexivity.
Qed.

Lemma isAlive_after_join_beyond (bound d : Q) :
  bound < d -> isAlive_after_join bound (Some d) = true.
Proof.
  intros H. unfold isAlive_after_join.
  destruct (Qle_bool d bound) eqn:E; [|reflexivity].
  apply Qle_bool_iff in E. exfalso. exact (Qlt_not_le _ _ H E).
Qed.

(** C9, as the code has it.  When the listener's [recv] times out with the
    flag still set, the listener clears the flag and dies of the timeout
    exception.  When [pullmode] has cleared the flag first, the timeout is
    passed over and the loop ends normally; [pullmode] then returns without
    error if that happened within [min(2*hbinterval, 10)] seconds of its
    [join] (and, with heartbeats on, the heartbeat thread ended within the
    same bound), and raises the "did not terminate" exception if the join
    gave up first. *)
Theorem listener_timeout_and_bounded_join :
  forall (py : pyver) (limit : nat) (loads : string -> outcome json)
         (self : EyeTribe) (so : socket) (l : thread)
         (evs : list recv_event) (d : Q) (hexit : option Q),
    sock self = Some so ->
    listener self = Some l ->
    ispushmode self = true ->
    (Qeq_bool (hbinterval self) 0 = false -> hbeater self <> None) ->
    let s1 := snd (pullmode_signal self) in
    let bound := join_bound self in
    (listener_resume py limit loads TimedOut evs self
       = (Died (Exception msg_push_timeout None), set_ispushmode false self)
     /\ classify (Exception msg_push_timeout None) = TimeoutError)
    /\ (fst (pullmode_signal self) = Ret true
        /\ ispushmode s1 = false
        /\ listener_resume py limit loads TimedOut evs s1 = (Returned, s1))
    /\ (d <= bound ->
        Qeq_bool (hbinterval self) 0 = true \/ isAlive_after_join bound hexit = false ->
        exists s2,
          pullmode_sync true (Some d) hexit s1 = (Ret tt, s2)
          /\ toffset s2 = None /\ pmcallback s2 = None /\ listener s2 = None)
    /\ (bound < d ->
        pullmode_sync true (Some d) hexit s1
          = (Raise (Exception msg_listener_alive None), s1)
        /\ classify (Exception msg_listener_alive None) = ShutdownTimeout).
Proof.
  intros py limit loads self so l evs d hexit Hso Hl Hpm Hhb s1 bound.
  assert (Hs1 : pullmode_signal self
                = (Ret true,
                   set_sock (Some (mkSocket (timeout so) (sent so ++ [etm_set_pull])))
                            (set_ispushmode false self))).
  { unfold pullmode_signal, sock_send. step. rewrite Hpm. simpl. rewrite Hso. reflexivity. }
  subst s1. rewrite Hs1. simpl.
  split; [| split; [| split]].
  - split; [|reflexivity].
    unfold listener_resume, listener_recv. step. rewrite Hso, Hpm. reflexivity.
  - split; [reflexivity|]. split; [reflexivity|].
    unfold listener_resume, listener_recv. step.
    destruct evs; reflexivity.
  - intros Hd Hbeat. unfold pullmode_sync. step. rewrite Hl. simpl.
    change (join_bound _) with bound.
    pose proof (isAlive_after_join_within Hd) as Ha.
    unfold isAlive_after_join in Ha. rewrite Ha. simpl.
    destruct (Qeq_bool (hbinterval self) 0) eqn:E; simpl.
    + eexists. repeat split.
    + destruct Hbeat as [Hbeat | Hbeat]; [discriminate|].
      destruct (hbeater self) as [h|] eqn:Eh; [| exfalso; exact (Hhb eq_refl eq_refl)].
      simpl. rewrite Hbeat. simpl. eexists. repeat split.
  - intros Hd. split; [|reflexivity].
    unfold pullmode_sync. step. rewrite Hl. simpl.
    change (join_bound _) with bound.
    pose proof (isAlive_after_join_beyond Hd) as Ha.
    unfold isAlive_after_join in Ha. rewrite Ha. reflexivity.
Qed.

(** On the sample client (heartbeat 20 ms, so a bound of 40 ms): the
    listener's [recv] times out 30 ms into the join, the heartbeat thread
    is gone after 20 ms. *)
Lemma leave_push_within_bound :
  sock pushed <> None /\ listener pushed <> None /\ ispushmode pushed = true
  /\ join_bound pushed == 4 # 100
  /\ listener_resume Py2 0 json_loads TimedOut [] (snd (pullmode_signal pushed))
     = (Returned, snd (pullmode_signal pushed))
  /\ exists s2,
       pullmode_sync true (Some (3 # 100)) (Some (2 # 100)) (snd (pullmode_signal pushed))
         = (Ret tt, s2)
       /\ toffset s2 = None.
Proof.
  destruct (@listener_timeout_and_bounded_join Py2 0 json_loads pushed
              (mkSocket (Some (inject_Z 20 / 1000 * 2)) [etm_get_init; etm_set_push])
              (Thread target_listener) [] (3 # 100) (Some (2 # 100))
              eq_refl eq_refl eq_refl)
    as (_ & (_ & _ & Hexit) & Hin & _).
  { intros _. vm_compute. discriminate. }
  split; [vm_compute; discriminate|]. split; [vm_compute; discriminate|].
  split; [reflexivity|]. split; [vm_compute; reflexivity|].
  split; [exact Hexit|].
  destruct Hin as (s2 & Hrun & Hoff & _).
  - vm_compute. discriminate.
  - right. vm_compute. reflexivity.
  - exists s2. split; assumption.
Defined.

(** C9 as stated fails.  With heartbeats off ([heartbeatinterval] 0) the
    socket timeout is the 30 s default and the join bound is
    [min(2*0, 10) = 0]: [pullmode] clears the flag, does not wait, finds the
    listener alive in its [recv] and raises; the [recv] then times out with
    the flag cleared and the listener leaves its loop normally. *)
Lemma leave_push_fails_though_listener_exits_normally :
  let self := pushed_from (connected_with reply_handshake_no_heartbeat) in
  let s1 := snd (pullmode_signal self) in
  ispushmode self = true
  /\ (exists so, sock self = Some so /\ timeout so = Some 30)
  /\ join_bound self == 0
  /\ ispushmode s1 = false
  /\ listener_resume Py2 0 json_loads TimedOut [] s1 = (Returned, s1)
  /\ exists e s2,
       pullmode_sync true (Some 30) None s1 = (Raise e, s2)
       /\ classify e = ShutdownTimeout
       /\ pullmode (Some 30) None self = (Raise e, s2).
Proof.
  cbv zeta.
  split; [vm_compute; reflexivity|].
  split; [eexists; split; vm_compute; reflexivity|].
  split; [vm_compute; reflexivity|].
  split; [vm_compute; reflexivity|].
  split; [vm_compute; reflexivity|].
  eexists. eexists.
  split; [vm_compute; reflexivity|].
  split; vm_compute; reflexivity.
Qed.

(** ** Decimal digits, printed and read back *)

Lemma append_assoc (a b c : string) :
  String.append (String.append a b) c = String.append a (String.append b c).
Proof. induction a as [|x a IH]; simpl; [reflexivity | rewrite IH; reflexivity]. Qed.

Lemma append_empty_r (a : string) : String.append a EmptyString = a.
Proof. induction a as [|x a IH]; simpl; [reflexivity | rewrite IH; reflexivity]. Qed.

Lemma occurs_append (c : ascii) (a b : string) :
  occurs c (String.append a b) = occurs c a || occurs c b.
Proof.
  induction a as [|x a IH]; simpl; [reflexivity|].
  rewrite IH, orb_assoc. reflexivity.
Qed.

Lemma all_digits_append (a b : string) :
  all_digits (String.append a b) = all_digits a && all_digits b.
Proof.
  induction a as [|x a IH]; simpl; [reflexivity|].
  rewrite IH, andb_assoc. reflexivity.
Qed.

Lemma digit_val_bounds (c : ascii) (d : Z) :
  digit_val c = Some d -> (48 <= nat_of_ascii c <= 57)%nat.
Proof.
  unfold digit_val.
  destruct (48 <=? nat_of_ascii c) eqn:E1; simpl; [|discriminate].
  destruct (nat_of_ascii c <=? 57) eqn:E2; simpl; [|discriminate].
  intros _. apply Nat.leb_le in E1. apply Nat.leb_le in E2. lia.
Qed.

Lemma is_digit_not (c x : ascii) :
  is_digit x = true -> is_digit c = false -> Ascii.eqb x c = false.
Proof.
  intros Hx Hc. destruct (Ascii.eqb x c) eqn:E; [|reflexivity].
  apply Ascii.eqb_eq in E. subst. congruence.
Qed.

Lemma all_digits_occurs (c : ascii) (s : string) :
  is_digit c = false -> all_digits s = true -> occurs c s = false.
Proof.
  intros Hc. induction s as [|x s IH]; simpl; [reflexivity|].
  intros H. apply andb_true_iff in H as [Hx Hs].
  rewrite (is_digit_not c x Hx Hc), (IH Hs). reflexivity.
Qed.

Lemma all_digits_remove (c : ascii) (s : string) :
  is_digit c = false -> all_digits s = true -> remove_char c s = s.
Proof.
  intros Hc. induction s as [|x s IH]; simpl; [reflexivity|].
  intros H. apply andb_true_iff in H as [Hx Hs].
  rewrite (is_digit_not c x Hx Hc), (IH Hs). reflexivity.
Qed.

Lemma remove_char_append (c : ascii) (a b : string) :
  remove_char c (String.append a b)
  = String.append (remove_char c a) (remove_char c b).
Proof.
  induction a as [|x a IH]; simpl; [reflexivity|].
  destruct (Ascii.eqb x c); simpl; rewrite IH; reflexivity.
Qed.

Lemma digit_val_digit_char (d : Z) :
  (0 <= d < 10)%Z -> digit_val (digit_char d) = Some d.
Proof.
  intros H.
  assert (d = 0 \/ d = 1 \/ d = 2 \/ d = 3 \/ d = 4 \/ d = 5 \/ d = 6 \/ d = 7
          \/ d = 8 \/ d = 9)%Z as C by lia.
  repeat (destruct C as [-> | C]; [reflexivity|]). subst. reflexivity.
Qed.

Lemma is_digit_digit_char (n : Z) : is_digit (digit_char (n mod 10)) = true.
Proof.
  unfold is_digit. rewrite digit_val_digit_char; [reflexivity|].
  apply Z.mod_pos_bound. lia.
Qed.

Lemma all_digits_dec_fuel (fuel : nat) :
  forall n : Z, all_digits (dec_fuel fuel n) = true.
Proof.
  induction fuel as [|f IH]; intros n; cbn [dec_fuel]; [reflexivity|].
  rewrite all_digits_append. cbn [all_digits]. rewrite is_digit_digit_char.
  destruct (n <? 10)%Z; cbn [all_digits andb]; [reflexivity|]. rewrite IH. reflexivity.
Qed.

Lemma all_digits_fixed (width : nat) :
  forall n : Z, all_digits (fixed_digits width n) = true.
Proof.
  induction width as [|w IH]; intros n; cbn [fixed_digits]; [reflexivity|].
  rewrite all_digits_append, IH. cbn [all_digits]. rewrite is_digit_digit_char.
  reflexivity.
Qed.

Lemma read_digits_from_append (a b : string) :
  forall acc : Z,
    read_digits_from acc (String.append a b)
    = opt_bind (read_digits_from acc a) (fun v => read_digits_from v b).
Proof.
  induction a as [|x a IH]; intros acc; simpl; [reflexivity|].
  destruct (digit_val x); [apply IH | reflexivity].
Qed.

(** Reading the digits of [n] continues from [acc] shifted by their number. *)
Lemma read_dec_fuel (fuel : nat) :
  forall (n acc : Z),
    (0 <= n < 2 ^ Z.of_nat fuel)%Z ->
    read_digits_from acc (dec_fuel fuel n)
    = Some (acc * 10 ^ Z.of_nat (String.length (dec_fuel fuel n)) + n)%Z.
Proof.
  induction fuel as [|f IH]; intros n acc Hn.
  - simpl in *. f_equal. lia.
  - cbn [dec_fuel]. rewrite read_digits_from_append.
    assert (Hd : (0 <= n mod 10 < 10)%Z) by (apply Z.mod_pos_bound; lia).
    destruct (n <? 10)%Z eqn:E.
    + apply Z.ltb_lt in E. cbn. rewrite digit_val_digit_char by exact Hd.
      rewrite Z.mod_small by lia. f_equal; lia.
    + apply Z.ltb_ge in E.
      assert (Hq : (0 <= n / 10 < 2 ^ Z.of_nat f)%Z).
      { split; [apply Z.div_pos; lia|].
        apply Z.div_lt_upper_bound; [lia|].
        rewrite Nat2Z.inj_succ, Z.pow_succ_r in Hn by lia. lia. }
      rewrite (IH _ acc Hq). cbn [opt_bind read_digits_from].
      rewrite digit_val_digit_char by exact Hd.
      set (k := String.length (dec_fuel f (n / 10))).
      assert (Hlen : String.length
                       (String.append (dec_fuel f (n / 10))
                                      (String (digit_char (n mod 10)) EmptyString))
                     = S k).
      { subst k. induction (dec_fuel f (n / 10)) as [|c s IHs]; simpl;
          [reflexivity | rewrite IHs; reflexivity]. }
      rewrite Hlen, Nat2Z.inj_succ, Z.pow_succ_r by lia.
      f_equal; pose proof (Z.div_mod n 10); lia.
Qed.

Lemma dec_not_empty (n : Z) : dec n <> EmptyString.
Proof.
  unfold dec. cbn [dec_fuel].
  destruct (if (n <? 10)%Z then _ else _); discriminate.
Qed.

Lemma dec_fuel_enough (n : Z) :
  (0 <= n)%Z -> (0 <= n < 2 ^ Z.of_nat (S (Z.to_nat (Z.log2 n))))%Z.
Proof.
  intros Hn. split; [exact Hn|].
  rewrite Nat2Z.inj_succ, Z2Nat.id by apply Z.log2_nonneg.
  destruct (Z.eq_dec n 0) as [->|Hz]; [reflexivity|].
  apply Z.log2_spec. lia.
Qed.

Lemma read_digits_dec (n : Z) : (0 <= n)%Z -> read_digits (dec n) = Some n.
Proof.
  intros Hn. unfold read_digits.
  destruct (dec n) eqn:E; [exfalso; exact (dec_not_empty n E)|].
  rewrite <- E. unfold dec. rewrite read_dec_fuel by (apply dec_fuel_enough; exact Hn).
  f_equal; lia.
Qed.

Lemma read_fixed_digits (width : nat) :
  forall (n acc : Z),
    (0 <= n)%Z ->
    read_digits_from acc (fixed_digits width n)
    = Some (acc * 10 ^ Z.of_nat width + n mod 10 ^ Z.of_nat width)%Z.
Proof.
  induction width as [|w IH]; intros n acc Hn.
  - simpl. rewrite Z.mod_1_r. f_equal. lia.
  - cbn [fixed_digits]. rewrite read_digits_from_append.
    rewrite IH by (apply Z.div_pos; lia). cbn [opt_bind read_digits_from].
    rewrite digit_val_digit_char by (apply Z.mod_pos_bound; lia).
    rewrite Nat2Z.inj_succ, Z.pow_succ_r by lia.
    f_equal.
    assert (Hp : (0 < 10 ^ Z.of_nat w)%Z) by (apply Z.pow_pos_nonneg; lia).
    rewrite Z.rem_mul_r by lia. lia.
Qed.

Lemma dec_first_digit (n : Z) :
  exists c r, dec n = String c r /\ is_digit c = true.
Proof.
  pose proof (all_digits_dec_fuel (S (Z.to_nat (Z.log2 n))) n) as H.
  fold (dec n) in H. destruct (dec n) as [|c r] eqn:E.
  - exfalso. exact (dec_not_empty n E).
  - exists c, r. split; [reflexivity|].
    cbn [all_digits] in H. apply andb_true_iff in H. exact (proj1 H).
Qed.

(** ["%d"] read back. *)
Lemma parse_signed_dec_signed (z : Z) : parse_signed (dec_signed z) = Some z.
Proof.
  unfold dec_signed. destruct (z <? 0)%Z eqn:E.
  - apply Z.ltb_lt in E. cbn [parse_signed]. rewrite Ascii.eqb_refl.
    rewrite read_digits_dec by lia. cbn. f_equal; lia.
  - apply Z.ltb_ge in E. destruct (dec_first_digit z) as (c & r & Hdec & Hc).
    rewrite Hdec. cbn [parse_signed].
    rewrite (is_digit_not "-" c Hc eq_refl). rewrite <- Hdec.
    apply read_digits_dec. exact E.
Qed.

Lemma occurs_semicolon_dec_signed (z : Z) : occurs ";" (dec_signed z) = false.
Proof.
  unfold dec_signed, dec. destruct (z <? 0)%Z; cbn [occurs];
    rewrite ?(all_digits_occurs ";" _ eq_refl (all_digits_dec_fuel _ _)); reflexivity.
Qed.

Lemma round_half_even_nonneg (q : Q) : (0 <= Qnum q)%Z -> (0 <= round_half_even q)%Z.
Proof.
  intros H. unfold round_half_even.
  assert (0 <= Qnum q / Zpos (Qden q))%Z by (apply Z.div_pos; lia).
  destruct (2 * (Qnum q mod Zpos (Qden q)) ?= Zpos (Qden q))%Z;
    [destruct (Z.even _) | |]; lia.
Qed.

Lemma scaled_nonneg (prec : nat) (q : Q) : (0 <= scaled prec q)%Z.
Proof.
  unfold scaled. apply round_half_even_nonneg.
  unfold Qabs, Qmult, inject_Z. destruct q as [n d]. cbn [Qnum].
  apply Z.mul_nonneg_nonneg; [apply Z.abs_nonneg|].
  apply Z.pow_nonneg. lia.
Qed.

Lemma format_f_float_unpadded (prec : nat) (q : Q) :
  format_f_float 0 prec q
  = String.append (if is_negative q then String "-" EmptyString else EmptyString)
      (String.append (dec (scaled prec q / 10 ^ Z.of_nat prec))
         (String "." (fixed_digits prec (scaled prec q mod 10 ^ Z.of_nat prec)))).
Proof. unfold format_f_float. cbn [Nat.sub zeros String.append]. reflexivity. Qed.

(** ["%.<prec>f"] read back. *)
Lemma parse_fixed_format_f_float (prec : nat) (q : Q) :
  parse_fixed (format_f_float 0 prec q)
  = Some (if is_negative q then (- scaled prec q)%Z else scaled prec q).
Proof.
  rewrite format_f_float_unpadded.
  set (m := scaled prec q). set (p := (10 ^ Z.of_nat prec)%Z).
  assert (Hm : (0 <= m)%Z) by apply scaled_nonneg.
  assert (Hp : (0 < p)%Z) by (apply Z.pow_pos_nonneg; lia).
  assert (Hbody : remove_char "."
                    (String.append (dec (m / p)) (String "." (fixed_digits prec (m mod p))))
                  = String.append (dec (m / p)) (fixed_digits prec (m mod p))).
  { rewrite remove_char_append. cbn [remove_char]. rewrite Ascii.eqb_refl.
    unfold dec.
    rewrite !(all_digits_remove "." _ eq_refl) by
      (apply all_digits_dec_fuel || apply all_digits_fixed).
    reflexivity. }
  assert (Hread : read_digits
                    (String.append (dec (m / p)) (fixed_digits prec (m mod p)))
                  = Some m).
  { destruct (dec_first_digit (m / p)) as (c & r & Hdec & Hc).
    unfold read_digits.
    destruct (String.append (dec (m / p)) (fixed_digits prec (m mod p))) eqn:E;
      [rewrite Hdec in E; discriminate|].
    rewrite <- E, read_digits_from_append.
    unfold dec. rewrite read_dec_fuel
      by (apply dec_fuel_enough; apply Z.div_pos; lia).
    cbn [opt_bind]. rewrite read_fixed_digits by (apply Z.mod_pos_bound; lia).
    fold p. f_equal. rewrite Z.mod_mod by lia.
    pose proof (Z.div_mod m p). lia. }
  unfold parse_fixed. destruct (is_negative q).
  - cbn [String.append remove_char]. change (Ascii.eqb "-" ".") with false.
    cbn iota. rewrite Hbody. cbn [parse_signed]. rewrite Ascii.eqb_refl, Hread.
    reflexivity.
  - cbn [String.append]. rewrite Hbody.
    destruct (dec_first_digit (m / p)) as (c & r & Hdec & Hc).
    rewrite Hdec in *. cbn [String.append parse_signed] in *.
    rewrite (is_digit_not "-" c Hc eq_refl). exact Hread.
Qed.

Lemma occurs_semicolon_format_f_float (prec : nat) (q : Q) :
  occurs ";" (format_f_float 0 prec q) = false.
Proof.
  rewrite format_f_float_unpadded, !occurs_append. cbn [occurs]. unfold dec.
  rewrite (all_digits_occurs ";" _ eq_refl (all_digits_dec_fuel _ _)).
  rewrite (all_digits_occurs ";" _ eq_refl (all_digits_fixed _ _)).
  destruct (is_negative q); reflexivity.
Qed.

(** The five flags carry the five low bits of the state. *)
Lemma state_bits (z : Z) :
  ((if Z.land z 16 =? 0 then 0 else 16) + (if Z.land z 8 =? 0 then 0 else 8)
   + (if Z.land z 4 =? 0 then 0 else 4) + (if Z.land z 2 =? 0 then 0 else 2)
   + (if Z.land z 1 =? 0 then 0 else 1))%Z
  = Z.land z 31.
Proof.
  set (t := Z.land z 31).
  assert (Hm : forall k, Z.land 31 k = k -> Z.land z k = Z.land t k).
  { intros k Hk. unfold t. rewrite <- Z.land_assoc, Hk. reflexivity. }
  rewrite (Hm 16%Z eq_refl), (Hm 8%Z eq_refl), (Hm 4%Z eq_refl),
          (Hm 2%Z eq_refl), (Hm 1%Z eq_refl).
  assert (Ht : (0 <= t < 32)%Z).
  { unfold t. change 31%Z with (Z.ones 5). rewrite Z.land_ones by lia.
    apply Z.mod_pos_bound. reflexivity. }
  clearbody t. clear Hm.
  assert (exists n : nat, (n < 32)%nat /\ t = Z.of_nat n) as (n & Hn & ->).
  { exists (Z.to_nat t). split; lia. }
  do 32 (destruct n as [|n]; [reflexivity|]). lia.
Qed.

Lemma split_join_fields (fields : list string) :
  fields <> [] ->
  Forall (fun x => occurs ";" x = false) fields ->
  split ";" (join ";" fields) = fields.
Proof.
  induction fields as [|x rest IH]; intros Hne Hall; [congruence|].
  inversion Hall as [|? ? Hx Hrest]; subst.
  destruct rest as [|y rest'].
  - cbn [join]. apply split_no_separator. exact Hx.
  - change (join ";" (x :: y :: rest'))
      with (String.append x (String ";" (join ";" (y :: rest')))).
    rewrite split_append, (split_no_separator _ _ Hx).
    rewrite IH; [reflexivity | discriminate | exact Hrest].
Qed.

(** Whatever precedes them, the fields after the last separators of a
    rendering are found again by [split]. *)
Lemma rev_split_prefix (pre : string) (fields : list string) :
  fields <> [] ->
  Forall (fun x => occurs ";" x = false) fields ->
  rev (split ";" (String.append pre (String ";" (join ";" fields))))
  = rev fields ++ rev (split ";" pre).
Proof.
  intros Hne Hall.
  rewrite split_append, (split_join_fields Hne Hall), rev_app_distr. reflexivity.
Qed.

(** ** The rendering read back *)

Ltac inv_obind H :=
  match type of H with
  | obind ?m _ = Ret _ =>
      let E := fresh "E" in
      destruct m eqn:E; cbn [obind] in H; [| discriminate H | discriminate H]
  end.

Lemma apply_format_read_back (fmt : format) (v : json) (s : string) :
  apply_format fmt v = Ret s ->
  exists z, kept_value fmt v = Ret z
            /\ parse_field fmt s = Some z
            /\ occurs ";" s = false.
Proof.
  destruct fmt as [|prec]; cbn [apply_format kept_value parse_field].
  - unfold format_d. intros H. inv_obind H. injection H as <-.
    exists a. split; [reflexivity|]. split.
    + apply parse_signed_dec_signed.
    + apply occurs_semicolon_dec_signed.
  - unfold format_f, signed_scaled. destruct (as_float v) as [q|]; [|discriminate].
    intros H. injection H as <-. eexists. split; [reflexivity|]. split.
    + apply parse_fixed_format_f_float.
    + apply occurs_semicolon_format_f_float.
Qed.

Lemma Coord_read_back (limit : nat) (d : json) (key : string) (fmt : format)
      (c : Coord) (s : string) :
  Coord_of Py2 limit d key fmt = Ret c ->
  Coord_str Py2 limit c = Ret s ->
  exists sx sy zx zy,
    s = join ";" [sx; sy]
    /\ occurs ";" sx = false /\ occurs ";" sy = false
    /\ parse_pair (parse_field fmt) sx sy = Some (zx, zy)
    /\ wire_pair (kept_value fmt) d key = Ret (zx, zy).
Proof.
  unfold Coord_of, Coord_init, Coord_str, Coord_get_x, Coord_get_y, wire_pair.
  cbn [setattr getattr obind]. intros H Hs.
  destruct (subscript d key) as [cj| |]; cbn [obind] in *; try discriminate.
  destruct (subscript cj "x") as [x| |]; cbn [obind] in *; try discriminate.
  destruct (subscript cj "y") as [y| |]; cbn [obind] in *; try discriminate.
  injection H as <-. cbn [Coord_x Coord_y Coord_fmt Coord_ssep] in Hs.
  inv_obind Hs. inv_obind Hs. injection Hs as <-.
  destruct (apply_format_read_back _ _ E) as (zx & Kx & Px & Ox).
  destruct (apply_format_read_back _ _ E0) as (zy & Ky & Py & Oy).
  exists a, a0, zx, zy. rewrite Kx, Ky. cbn [obind]. unfold parse_pair.
  rewrite Px, Py. repeat split; assumption.
Qed.

Lemma Eye_read_back (limit : nat) (eye : json) (e : Eye) (s : string) :
  Eye_of Py2 limit eye = Ret e ->
  Eye_str Py2 limit e = Ret s ->
  exists rx ry ax ay ps cx cy ke,
    s = join ";" [rx; ry; ax; ay; ps; cx; cy]
    /\ Forall (fun x => occurs ";" x = false) [rx; ry; ax; ay; ps; cx; cy]
    /\ parse_eye rx ry ax ay ps cx cy = Some ke
    /\ wire_eye eye = Ret ke.
Proof.
  unfold Eye_of, Eye_init, Eye_str, Eye_get_raw, Eye_get_avg, Eye_get_psize,
    Eye_get_pcenter, wire_eye.
  cbn [setattr getattr obind]. intros H Hs.
  destruct (Coord_of Py2 limit eye "raw" fmt_d) as [r| |] eqn:Er;
    cbn [obind] in *; try discriminate.
  destruct (Coord_of Py2 limit eye "avg" fmt_d) as [a| |] eqn:Ea;
    cbn [obind] in *; try discriminate.
  destruct (subscript eye "psize") as [psz| |] eqn:Ep;
    cbn [obind] in *; try discriminate.
  destruct (Coord_of Py2 limit eye "pcenter" (fmt_f 3)) as [pc| |] eqn:Ec;
    cbn [obind] in *; try discriminate.
  injection H as <-. cbn [Eye_raw Eye_avg Eye_psize Eye_pcenter Eye_ssep] in Hs.
  destruct (Coord_str Py2 limit r) as [sr| |] eqn:Sr; cbn [obind] in Hs; try discriminate.
  destruct (Coord_str Py2 limit a) as [sa| |] eqn:Sa; cbn [obind] in Hs; try discriminate.
  destruct (Coord_str Py2 limit pc) as [sc| |] eqn:Sc; cbn [obind] in Hs; try discriminate.
  destruct (format_f 0 1 psz) as [sps| |] eqn:Sp; cbn [obind] in Hs; try discriminate.
  injection Hs as <-.
  destruct (Coord_read_back _ _ _ _ Er Sr) as (rx & ry & zrx & zry & -> & Orx & Ory & Pr & Wr).
  destruct (Coord_read_back _ _ _ _ Ea Sa) as (ax & ay & zax & zay & -> & Oax & Oay & Pa & Wa).
  destruct (Coord_read_back _ _ _ _ Ec Sc) as (cx & cy & zcx & zcy & -> & Ocx & Ocy & Pc & Wc).
  destruct (apply_format_read_back (fmt_f 1) psz Sp) as (zp & Kp & Pp & Op).
  cbn [kept_value parse_field] in Kp, Pp, Pr, Pa, Pc.
  change int_value with (kept_value fmt_d).
  change (signed_scaled 3) with (kept_value (fmt_f 3)).
  exists rx, ry, ax, ay, sps, cx, cy, (mkKeptEye (zrx, zry) (zax, zay) zp (zcx, zcy)).
  split; [cbn [join String.append]; rewrite !append_assoc; reflexivity|].
  split; [repeat constructor; assumption|].
  split.
  - unfold parse_eye. rewrite Pr, Pa, Pp, Pc. reflexivity.
  - rewrite Wr, Wa. cbn [obind]. rewrite Kp. cbn [obind]. rewrite Wc. reflexivity.
Qed.

Lemma bit_and_int (st : json) (mask b : Z) :
  bit_and st mask = Ret b ->
  exists z, forall m, bit_and st m = Ret (Z.land z m).
Proof.
  destruct st; cbn [bit_and]; try discriminate; intros _; eexists; intros m; reflexivity.
Qed.

Lemma state_flag_bit (c : ascii) (weight b : Z) :
  Ascii.eqb c "." = false ->
  flag_bit (if (b =? 0)%Z then "."%char else c) weight
  = if (b =? 0)%Z then 0%Z else weight.
Proof.
  intros Hc. unfold flag_bit. destruct (b =? 0)%Z; [reflexivity|]. rewrite Hc. reflexivity.
Qed.

(** C10, as the code has it.  A wire frame document that decodes and
    renders gives a string from which the fields of the document are read
    back to the precision of their conversions: raw and averaged
    coordinates (of the frame and of each eye) cut to integers, pupil sizes
    rounded to one decimal, pupil centres to three, the five low bits of
    the state, and the truth value of the fixation flag. *)
Theorem rendering_keeps_fields_to_print_precision :
  forall (py : pyver) (limit : nat) (str_ : json -> string) (now : Q)
         (json : json) (f : Frame) (s : string),
    Frame_init py limit now json ";" = Ret f ->
    Frame_str py limit str_ f = Ret s ->
    exists k, wire_kept json = Ret k /\ unrender s = Some k.
Proof.
  intros py limit str_ now json f s Hinit Hstr.
  pose proof (Frame_init_returns _ _ _ _ _ Hinit) as ->.
  unfold Frame_init in Hinit. cbn [setattr obind] in Hinit.
  destruct (subscript json "time") as [t| |]; cbn [obind] in Hinit; try discriminate.
  destruct (truediv t 1000) as [t'| |]; cbn [obind] in Hinit; try discriminate.
  destruct (subscript json "timestamp") as [ts| |]; cbn [obind] in Hinit; try discriminate.
  destruct (subscript json "fix") as [fx| |] eqn:Efx; cbn [obind] in Hinit; try discriminate.
  destruct (subscript json "state") as [st| |] eqn:Est; cbn [obind] in Hinit; try discriminate.
  destruct (Coord_of Py2 limit json "raw" fmt_d) as [rw| |] eqn:Erw;
    cbn [obind] in Hinit; try discriminate.
  destruct (Coord_of Py2 limit json "avg" fmt_d) as [av| |] eqn:Eav;
    cbn [obind] in Hinit; try discriminate.
  destruct (subscript json "lefteye") as [lj| |] eqn:Elj; cbn [obind] in Hinit; try discriminate.
  destruct (Eye_of Py2 limit lj) as [le| |] eqn:Ele; cbn [obind] in Hinit; try discriminate.
  destruct (subscript json "righteye") as [rj| |] eqn:Erj; cbn [obind] in Hinit; try discriminate.
  destruct (Eye_of Py2 limit rj) as [re| |] eqn:Ere; cbn [obind] in Hinit; try discriminate.
  injection Hinit as <-.
  unfold Frame_str, state_flag, Frame_get_state, Frame_get_fix, Frame_get_etime,
    Frame_get_time, Frame_get_timestamp, Frame_get_avg, Frame_get_lefteye,
    Frame_get_righteye in Hstr.
  cbn [getattr obind state fix_ etime time timestamp raw avg lefteye righteye Frame_ssep]
    in Hstr.
  destruct (bit_and st 16) as [b16| |] eqn:B16; cbn [obind] in Hstr; try discriminate.
  destruct (bit_and_int _ _ B16) as (z & Hz).
  rewrite !Hz in Hstr. rewrite Hz in B16. injection B16 as <-. cbn [obind] in Hstr.
  destruct (Coord_str Py2 limit rw) as [srw| |] eqn:Srw; cbn [obind] in Hstr; try discriminate.
  destruct (Coord_str Py2 limit av) as [sav| |] eqn:Sav; cbn [obind] in Hstr; try discriminate.
  destruct (Eye_str Py2 limit le) as [sle| |] eqn:Sle; cbn [obind] in Hstr; try discriminate.
  destruct (Eye_str Py2 limit re) as [sre| |] eqn:Sre; cbn [obind] in Hstr; try discriminate.
  injection Hstr as <-.
  destruct (Coord_read_back _ _ _ _ Erw Srw) as (rwx & rwy & zrx & zry & -> & Orx & Ory & Prw & Wrw).
  destruct (Coord_read_back _ _ _ _ Eav Sav) as (avx & avy & zax & zay & -> & Oax & Oay & Pav & Wav).
  destruct (Eye_read_back _ _ Ele Sle)
    as (l1 & l2 & l3 & l4 & l5 & l6 & l7 & kl & -> & Ol & Pl & Wl).
  destruct (Eye_read_back _ _ Ere Sre)
    as (r1 & r2 & r3 & r4 & r5 & r6 & r7 & kr & -> & Or & Pr & Wr).
  cbn [kept_value parse_field] in Prw, Pav.
  exists (mkKept (truthy fx) (Z.land z 31) (zrx, zry) (zax, zay) kl kr).
  split.
  - unfold wire_kept. rewrite Efx, Est. cbn [obind]. rewrite Hz. cbn [obind].
    change int_value with (kept_value fmt_d).
    rewrite Wrw, Wav. cbn [obind]. rewrite Elj. cbn [obind]. rewrite Wl. cbn [obind].
    rewrite Erj. cbn [obind]. rewrite Wr. reflexivity.
  - set (fch := String (if truthy fx then "F"%char else "N"%char) EmptyString).
    set (flags :=
           String (if (Z.land z 16 =? 0)%Z then "."%char else "L"%char)
          (String (if (Z.land z 8 =? 0)%Z then "."%char else "F"%char)
          (String (if (Z.land z 4 =? 0)%Z then "."%char else "P"%char)
          (String (if (Z.land z 2 =? 0)%Z then "."%char else "E"%char)
          (String (if (Z.land z 1 =? 0)%Z then "."%char else "G"%char) EmptyString))))).
    set (pre := String.append (format_f_float 14 3 now)
                  (String ";" (String.append (format_f_float 7 3 t')
                     (String ";" (str_ ts))))).
    match goal with
    | |- unrender ?x = _ =>
        assert (Hshape : x = String.append pre (String ";"
                  (join ";" [fch; flags; rwx; rwy; avx; avy;
                             l1; l2; l3; l4; l5; l6; l7;
                             r1; r2; r3; r4; r5; r6; r7])))
    end.
    { subst pre fch flags. cbn [join].
      repeat first [rewrite append_assoc | progress cbn [String.append]].
      reflexivity. }
    rewrite Hshape. unfold unrender.
    rewrite rev_split_prefix.
    + cbn [rev app].
      assert (Hfix : parse_fix fch = Some (truthy fx))
        by (subst fch; destruct (truthy fx); reflexivity).
      assert (Hst : parse_state flags = Some (Z.land z 31)).
      { subst flags. cbn [parse_state].
        rewrite !state_flag_bit by reflexivity. rewrite state_bits. reflexivity. }
      rewrite Hfix, Hst. cbn [opt_bind]. rewrite Prw, Pav. cbn [opt_bind].
      rewrite Pl. cbn [opt_bind]. rewrite Pr. reflexivity.
    + discriminate.
    + inversion Ol as [|? ? O1 Ol1]; subst.
      inversion Or as [|? ? O1' Or1]; subst.
      assert (Oflags : occurs ";" flags = false).
      { subst flags. cbn [occurs].
        destruct (Z.land z 16 =? 0)%Z, (Z.land z 8 =? 0)%Z, (Z.land z 4 =? 0)%Z,
                 (Z.land z 2 =? 0)%Z, (Z.land z 1 =? 0)%Z; reflexivity. }
      assert (Ofch : occurs ";" fch = false)
        by (subst fch; destruct (truthy fx); reflexivity).
      repeat (constructor; [assumption|]).
      repeat match goal with
             | H : Forall _ (_ :: _) |- _ => inversion H; clear H; subst
             end.
      repeat (constructor; [assumption|]). constructor.
Qed.

(** The sample frame, rendered and read back. *)
Lemma rendering_of_sample_frame :
  exists f k,
    Frame_init Py2 0 2 (sample_json "5000" "1058") ";" = Ret f
    /\ Frame_str Py2 0 str_scalar f = Ret sample_rendering
    /\ wire_kept (sample_json "5000" "1058") = Ret k
    /\ unrender sample_rendering = Some k
    /\ k_fix k = true /\ k_state k = 7%Z
    /\ k_raw k = (1058, 600)%Z /\ k_avg k = (1055, 608)%Z
    /\ k_psize (k_lefteye k) = 203%Z /\ k_pcenter (k_lefteye k) = (326, 521)%Z.
Proof.
  eexists.
  match goal with
  | |- exists _, ?P1 /\ ?P2 /\ _ =>
      assert (Hf : P1) by (vm_compute; reflexivity);
      assert (Hs : P2) by (vm_compute; reflexivity)
  end.
  destruct (@rendering_keeps_fields_to_print_precision Py2 0 str_scalar 2 _ _ _ Hf Hs)
    as (k & Hk & Hu).
  exists k. split; [exact Hf|]. split; [exact Hs|]. split; [exact Hk|].
  split; [exact Hu|].
  assert (Hk' : wire_kept (sample_json "5000" "1058")
                = Ret (mkKept true 7 (1058, 600)%Z (1055, 608)%Z
                         (mkKeptEye (1058, 612)%Z (1060, 610)%Z 203 (326, 521)%Z)
                         (mkKeptEye (1058, 612)%Z (1060, 610)%Z 203 (326, 521)%Z)))
    by (vm_compute; reflexivity).
  rewrite Hk' in Hk. injection Hk as <-. repeat split.
Defined.

(** C10 as stated fails.  Two frame documents that differ in the raw x
    coordinate, 1058.2 and 1058.7, decode and render to the same string:
    ["%d"] cuts both to 1058, so the rendering does not give the source
    field back.  The averaged coordinate 1055.4305, the pupil size 20.3247
    and the pupil centre 0.3262 of the same documents are printed as 1055,
    20.3 and 0.326. *)
Lemma rendering_loses_fractions :
  exists f1 f2,
    Frame_init Py2 0 2 (sample_json "5000" "1058.2") ";" = Ret f1
    /\ Frame_init Py2 0 2 (sample_json "5000" "1058.7") ";" = Ret f2
    /\ Frame_str Py2 0 str_scalar f1 = Ret sample_rendering
    /\ Frame_str Py2 0 str_scalar f2 = Ret sample_rendering
    /\ Coord_x (raw f1) = JFloat (10582 # 10)
    /\ Coord_x (raw f2) = JFloat (10587 # 10)
    /\ ~ (10582 # 10 == 10587 # 10)
    /\ Coord_x (avg f1) = JFloat (10554305 # 10000)
    /\ Eye_psize (lefteye f1) = JFloat (203247 # 10000)
    /\ Coord_x (Eye_pcenter (lefteye f1)) = JFloat (3262 # 10000).
Proof.
  eexists. eexists.
  split; [vm_compute; reflexivity|].
  split; [vm_compute; reflexivity|].
  split; [vm_compute; reflexivity|].
  split; [vm_compute; reflexivity|].
  split; [vm_compute; reflexivity|].
  split; [vm_compute; reflexivity|].
  split; [vm_compute; discriminate|].
  split; [vm_compute; reflexivity|].
  split; vm_compute; reflexivity.
Qed.

(** * Further properties of the client *)

(** ** [connect] and [close] *)

Lemma connect_socket_owned (loads : string -> outcome json) (net : wire) (self : EyeTribe) :
  sock self = None ->
  exists so, sock (snd (connect loads net self)) = Some so.
Proof.
  intros Hs. unfold connect, sock_send, sock_settimeout, sock_recv. step.
  rewrite Hs. simpl. destruct net as [|ev]; simpl; [eexists; reflexivity|].
  destruct ev as [now data|]; simpl; [|eexists; reflexivity].
  destruct (loads data) as [p| |]; simpl; try (eexists; reflexivity).
  destruct (subscript p "statuscode") as [sc| |]; simpl; try (eexists; reflexivity).
  destruct (ne_int sc 200); simpl; try (eexists; reflexivity).
  destruct (subscript p "values") as [vals| |]; simpl; try (eexists; reflexivity).
  destruct (subscript vals "heartbeatinterval") as [hb| |]; simpl;
    try (eexists; reflexivity).
  destruct (int hb) as [n| |]; simpl; try (eexists; reflexivity).
  destruct (negb (Qeq_bool (inject_Z n / 1000) 0)); simpl; try (eexists; reflexivity).
  destruct (Qle_bool 0 (inject_Z n / 1000 * 2)); simpl; eexists; reflexivity.
Qed.

(** X1. Whatever the network does to a [connect] on an unconnected client
    (refused connection, timeout, unreadable or failing reply, success), the
    client owns a socket afterwards, so that a second [connect] raises the
    "already connected" exception and changes nothing: a failed handshake
    has to be followed by [close] before it can be tried again. *)
Theorem connect_attempt_keeps_socket :
  forall (loads : string -> outcome json) (net net' : wire) (self : EyeTribe),
    sock self = None ->
    let s1 := snd (connect loads net self) in
    sock s1 <> None
    /\ connect loads net' s1 = (Raise (Exception msg_already_connected None), s1)
    /\ classify (Exception msg_already_connected None) = AlreadyConnected.
Proof.
  intros loads net net' self Hs s1.
  destruct (connect_socket_owned loads net self Hs) as (so & Hso). fold s1 in Hso.
  split; [congruence|]. split; [|reflexivity].
  unfold connect. step. rewrite Hso. reflexivity.
Qed.

Lemma connect_attempt_after_refusal :
  sock fresh = None
  /\ fst (connect json_loads Refused fresh) = Raise socket_error
  /\ connect json_loads (Answer (Chunk 0 reply_handshake))
       (snd (connect json_loads Refused fresh))
     = (Raise (Exception msg_already_connected None),
        snd (connect json_loads Refused fresh)).
Proof.
  split; [reflexivity|]. split; [reflexivity|].
  exact (proj1 (proj2 (@connect_attempt_keeps_socket json_loads Refused
                         (Answer (Chunk 0 reply_handshake)) fresh eq_refl))).
Defined.

(** X2. When [connect] on an unconnected client returns, a [close] gives
    the object back as it was before the [connect], except for the
    heartbeat interval, which keeps the value negotiated. *)
Theorem connect_then_close :
  forall (loads : string -> outcome json) (net : wire) (self s1 : EyeTribe),
    sock self = None ->
    connect loads net self = (Ret tt, s1) ->
    close s1 = (Ret tt, set_hbinterval (hbinterval s1) self).
Proof.
  intros loads net self s1 Hs.
  unfold connect, sock_send, sock_settimeout, sock_recv. step.
  rewrite Hs. simpl. destruct net as [|ev]; simpl; [discriminate|].
  destruct ev as [now data|]; simpl; [|discriminate].
  destruct (loads data) as [p| |]; simpl; try discriminate.
  destruct (subscript p "statuscode") as [sc| |]; simpl; try discriminate.
  destruct (ne_int sc 200); simpl; try discriminate.
  destruct (subscript p "values") as [vals| |]; simpl; try discriminate.
  destruct (subscript vals "heartbeatinterval") as [hb| |]; simpl; try discriminate.
  destruct (int hb) as [n| |]; simpl; try discriminate.
  destruct self as [h p0 s q pm hbi hbt l cb off ss]; simpl in *. subst s.
  destruct (negb (Qeq_bool (inject_Z n / 1000) 0)); simpl.
  - destruct (Qle_bool 0 (inject_Z n / 1000 * 2)); simpl; [|discriminate].
    intros H. injection H as <-. reflexivity.
  - intros H. injection H as <-. reflexivity.
Qed.

Lemma connect_then_close_sample :
  sock fresh = None
  /\ connect json_loads (Answer (Chunk 0 reply_handshake)) fresh = (Ret tt, connected)
  /\ close connected = (Ret tt, set_hbinterval (hbinterval connected) fresh)
  /\ hbinterval connected == 2 # 100.
Proof.
  split; [reflexivity|].
  assert (H : connect json_loads (Answer (Chunk 0 reply_handshake)) fresh
              = (Ret tt, connected)) by (vm_compute; reflexivity).
  split; [exact H|]. split; [|reflexivity].
  exact (@connect_then_close json_loads _ fresh connected eq_refl H).
Defined.

(** X3. A handshake reply with a status other than 200 makes [connect]
    raise its protocol error; the client is left owning the socket, with the
    30 s timeout set before the reply was read, and with its heartbeat
    interval untouched. *)
Theorem connect_protocol_error :
  forall (loads : string -> outcome json) (self : EyeTribe) (now : Q) (r : string)
         (p sc : json),
    sock self = None ->
    loads r = Ret p ->
    subscript p "statuscode" = Ret sc ->
    ne_int sc 200 = true ->
    connect loads (Answer (Chunk now r)) self
      = (Raise (Exception msg_connect_protocol (Some sc)),
         set_sock (Some (mkSocket (Some 30) [etm_get_init])) self)
    /\ classify (Exception msg_connect_protocol (Some sc)) = ProtocolError.
Proof.
  intros loads self now r p sc Hs Hl Hsc Hne. split; [|reflexivity].
  unfold connect, sock_send, sock_settimeout, sock_recv. step.
  rewrite Hs. simpl. rewrite Hl. simpl. rewrite Hsc. simpl. rewrite Hne. reflexivity.
Qed.

Lemma connect_protocol_error_sample :
  sock fresh = None
  /\ connect json_loads (Answer (Chunk 0 reply_error)) fresh
     = (Raise (Exception msg_connect_protocol (Some (JInt 500))),
        set_sock (Some (mkSocket (Some 30) [etm_get_init])) fresh).
Proof.
  split; [reflexivity|].
  refine (proj1 (@connect_protocol_error json_loads fresh 0 reply_error _ (JInt 500)
                   eq_refl _ _ _)); vm_compute; reflexivity.
Defined.

Lemma twice_hbinterval_out_of_range (n : Z) :
  (n < 0)%Z -> Qle_bool 0 (inject_Z n / 1000 * 2) = false.
Proof.
  intros H. destruct (Qle_bool 0 (inject_Z n / 1000 * 2)) eqn:E; [|reflexivity].
  apply Qle_bool_iff in E. unfold Qle, Qdiv, Qmult, Qinv, inject_Z in E.
  simpl in E. lia.
Qed.

(** X4. A handshake reply with status 200 and a negative heartbeat
    interval makes [connect] fail with the [ValueError] of
    [settimeout]: the negative interval has been stored by then, and the
    socket keeps the 30 s timeout. *)
Theorem connect_negative_heartbeat :
  forall (loads : string -> outcome json) (self : EyeTribe) (now : Q) (r : string)
         (p sc vals hb : json) (n : Z),
    sock self = None ->
    loads r = Ret p ->
    subscript p "statuscode" = Ret sc ->
    ne_int sc 200 = false ->
    subscript p "values" = Ret vals ->
    subscript vals "heartbeatinterval" = Ret hb ->
    int hb = Ret n ->
    (n < 0)%Z ->
    connect loads (Answer (Chunk now r)) self
      = (Raise ValueError,
         set_sock (Some (mkSocket (Some 30) [etm_get_init]))
                  (set_hbinterval (inject_Z n / 1000) self)).
Proof.
  intros loads self now r p sc vals hb n Hs Hl Hsc Hok Hv Hhb Hn Hneg.
  unfold connect, sock_send, sock_settimeout, sock_recv. step.
  rewrite Hs. simpl. rewrite Hl. simpl. rewrite Hsc. simpl. rewrite Hok.
  rewrite Hv. simpl. rewrite Hhb. simpl. rewrite Hn. simpl.
  rewrite hbinterval_zero.
  assert (E : (n =? 0)%Z = false) by (apply Z.eqb_neq; lia).
  rewrite E. simpl. rewrite (twice_hbinterval_out_of_range Hneg). reflexivity.
Qed.

Lemma connect_negative_heartbeat_sample :
  sock fresh = None
  /\ connect json_loads (Answer (Chunk 0 reply_handshake_negative)) fresh
     = (Raise ValueError,
        set_sock (Some (mkSocket (Some 30) [etm_get_init]))
                 (set_hbinterval (inject_Z (-20) / 1000) fresh)).
Proof.
  split; [reflexivity|].
  eapply (@connect_negative_heartbeat json_loads fresh 0 reply_handshake_negative);
    try (vm_compute; reflexivity).
Defined.

(** ** [pushmode] and [pullmode] *)

Lemma pushmode_sets_flag (loads : string -> outcome json)
      (callback : option (Frame -> json)) (ev : recv_event) (self : EyeTribe) :
  ispushmode (snd (pushmode loads callback ev self)) = true.
Proof.
  unfold pushmode, sock_send, sock_recv. step.
  destruct (ispushmode self) eqn:Hpm; simpl; [exact Hpm|].
  destruct callback as [cb|]; simpl;
    (destruct (sock self) as [so|]; simpl; [|reflexivity]);
    (destruct ev as [now data|]; simpl; [|reflexivity]);
    (destruct (loads data) as [p| |]; simpl; try reflexivity);
    (destruct (subscript p "statuscode") as [sc| |]; simpl; try reflexivity);
    (destruct (ne_int sc 200); simpl; try reflexivity);
    destruct (negb (Qeq_bool (hbinterval self) 0)); reflexivity.
Qed.

(** X5. After a call of [pushmode], however it ended (mode switched,
    protocol error, timeout, unreadable reply, no socket), a further
    [pushmode] does nothing: it sends nothing, starts nothing, ignores the
    callback it is given and returns. *)
Theorem pushmode_again_is_noop :
  forall (loads : string -> outcome json) (callback callback' : option (Frame -> json))
         (ev ev' : recv_event) (self : EyeTribe),
    pushmode loads callback' ev' (snd (pushmode loads callback ev self))
    = (Ret tt, snd (pushmode loads callback ev self)).
Proof.
  intros loads callback callback' ev ev' self.
  pose proof (pushmode_sets_flag loads callback ev self) as H.
  unfold pushmode at 1. step. rewrite H. reflexivity.
Qed.

(** X6. On a connected client in pull mode, a reply with status 200 to the
    "set push" request makes [pushmode] return with the flag set, the
    request written to the socket, the listener thread started, and the
    heartbeat thread started exactly when the heartbeat interval is not 0;
    a callback given to the call is registered, one registered before is
    kept when none is given; queue and time offset are as they were. *)
Theorem pushmode_starts_threads :
  forall (loads : string -> outcome json) (self : EyeTribe) (so : socket)
         (callback : option (Frame -> json)) (now : Q) (r : string) (p sc : json),
    ispushmode self = false ->
    sock self = Some so ->
    loads r = Ret p ->
    subscript p "statuscode" = Ret sc ->
    ne_int sc 200 = false ->
    exists self',
      pushmode loads callback (Chunk now r) self = (Ret tt, self')
      /\ ispushmode self' = true
      /\ sock self' = Some (mkSocket (timeout so) (sent so ++ [etm_set_push]))
      /\ listener self' = Some (Thread target_listener)
      /\ hbeater self'
         = (if Qeq_bool (hbinterval self) 0 then None else Some (Thread target_hbeater))
      /\ pmcallback self'
         = match callback with Some cb => Some cb | None => pmcallback self end
      /\ queue self' = queue self
      /\ toffset self' = toffset self
      /\ hbinterval self' = hbinterval self
      /\ host self' = host self /\ port self' = port self.
Proof.
  intros loads self so callback now r p sc Hpm Hs Hl Hsc Hok.
  rewrite (@pushmode_switch_state loads self so callback now r p sc Hpm Hs Hl Hsc Hok).
  eexists. split; [reflexivity|]. simpl. repeat split.
Qed.

Lemma pushmode_starts_threads_sample :
  ispushmode connected = false
  /\ exists self',
       pushmode json_loads (Some callback_declines) (Chunk 1 reply_ok) connected
         = (Ret tt, self')
       /\ ispushmode self' = true
       /\ listener self' = Some (Thread target_listener)
       /\ hbeater self' = Some (Thread target_hbeater)
       /\ pmcallback self' = Some callback_declines
       /\ queue self' = queue connected /\ toffset self' = toffset connected.
Proof.
  split; [reflexivity|].
  destruct (@pushmode_starts_threads json_loads connected
              (mkSocket (Some (inject_Z 20 / 1000 * 2)) [etm_get_init])
              (Some callback_declines) 1 reply_ok
              (JObj [("category"%string, JStr "tracker");
                     ("request"%string, JStr "set");
                     ("statuscode"%string, JInt 200)]) (JInt 200))
    as (self' & Hrun & Hflag & _ & Hl & Hh & Hcb & Hq & Hoff & _);
    try (vm_compute; reflexivity).
  exists self'. repeat split; assumption.
Defined.

(** X7. A [pullmode] that has returned leaves the client in a state in
    which a further [pullmode] returns again and changes nothing; and in
    pull mode [pullmode] never raises and never touches the socket, even on
    a client that owns none: it only resets the time offset and the
    callback. *)
Theorem pullmode_again_is_noop :
  forall (lexit hexit lexit' hexit' : option Q) (self st' : EyeTribe),
    pullmode lexit hexit self = (Ret tt, st') ->
    pullmode lexit' hexit' st' = (Ret tt, st')
    /\ (forall st : EyeTribe,
          ispushmode st = false ->
          pullmode lexit' hexit' st
          = (Ret tt, set_pmcallback None (set_toffset None st))).
Proof.
  intros lexit hexit lexit' hexit' self st' H.
  assert (Hpull : forall st : EyeTribe,
             ispushmode st = false ->
             pullmode lexit' hexit' st
             = (Ret tt, set_pmcallback None (set_toffset None st))).
  { intros st Hst. unfold pullmode, pullmode_signal, pullmode_sync. step.
    rewrite Hst. reflexivity. }
  split; [|exact Hpull].
  destruct (pullmode_returns_offset_cleared _ _ _ H) as (Hoff & Hcb & Hpm).
  rewrite (Hpull st' Hpm).
  destruct st'; simpl in *. subst. reflexivity.
Qed.

Lemma pullmode_again_is_noop_sample :
  exists st',
    pullmode (Some (3 # 100)) (Some (2 # 100)) pushed = (Ret tt, st')
    /\ pullmode None None st' = (Ret tt, st')
    /\ pullmode None None fresh = (Ret tt, fresh).
Proof.
  eexists.
  match goal with
  | |- ?P /\ _ => assert (H : P) by (vm_compute; reflexivity)
  end.
  destruct (@pullmode_again_is_noop _ _ None None _ _ H) as (H1 & H2).
  split; [exact H|]. split; [exact H1|].
  exact (H2 fresh eq_refl).
Defined.

(** X9. In push mode with heartbeats on, a [pullmode] whose listener ends
    within the bound but whose heartbeat thread does not raises the
    "HeartBeater thread did not terminate" exception: the flag is cleared,
    the request written and the listener forgotten by then, while the
    heartbeat thread, the time offset and the callback stay as they were. *)
Theorem pullmode_heartbeat_thread_alive :
  forall (self : EyeTribe) (so : socket) (l h : thread) (lexit hexit : option Q),
    ispushmode self = true ->
    sock self = Some so ->
    listener self = Some l ->
    hbeater self = Some h ->
    Qeq_bool (hbinterval self) 0 = false ->
    isAlive_after_join (join_bound self) lexit = false ->
    isAlive_after_join (join_bound self) hexit = true ->
    pullmode lexit hexit self
    = (Raise (Exception msg_hbeater_alive None),
       set_listener None
         (set_sock (Some (mkSocket (timeout so) (sent so ++ [etm_set_pull])))
            (set_ispushmode false self)))
    /\ classify (Exception msg_hbeater_alive None) = ShutdownTimeout.
Proof.
  intros self so l h lexit hexit Hpm Hs Hl Hh Hhb Hle Hhe. split; [|reflexivity].
  unfold pullmode, pullmode_signal, pullmode_sync, sock_send. step.
  unfold join_bound in *.
  destruct self as [ho p0 s q pm hbi hbt li cb off ss]; simpl in *. subst. simpl.
  rewrite Hle. simpl. rewrite Hhb. simpl. rewrite Hhe. reflexivity.
Qed.

Lemma pullmode_heartbeat_thread_alive_sample :
  ispushmode pushed = true
  /\ exists st,
       pullmode (Some (1 # 100)) None pushed
         = (Raise (Exception msg_hbeater_alive None), st)
       /\ ispushmode st = false /\ listener st = None
       /\ hbeater st = Some (Thread target_hbeater).
Proof.
  split; [reflexivity|].
  eexists. split.
  - refine (proj1 (@pullmode_heartbeat_thread_alive pushed _ _ _ (Some (1 # 100)) None
                     eq_refl eq_refl eq_refl eq_refl _ _ _));
      vm_compute; reflexivity.
  - repeat split.
Defined.

(** ** [next] *)

(** X10. In pull mode [next] writes the "get frame" request, reads one
    reply and returns the frame decoded from its [values.frame], with the
    time the device reported: no offset is subtracted even when one is
    set, the queue is not touched, and the [block] argument plays no part. *)
Theorem next_pull_fetches_one_frame :
  forall (py : pyver) (limit : nat) (loads : string -> outcome json)
         (self : EyeTribe) (so : socket) (block : bool) (now : Q) (r : string)
         (p sc vals payload : json) (f : Frame),
    ispushmode self = false ->
    sock self = Some so ->
    loads r = Ret p ->
    subscript p "statuscode" = Ret sc ->
    ne_int sc 200 = false ->
    subscript p "values" = Ret vals ->
    subscript vals "frame" = Ret payload ->
    Frame_init py limit now payload ";" = Ret f ->
    next py limit loads block (Chunk now r) self
    = (Ret (Some f),
       set_sock (Some (mkSocket (timeout so) (sent so ++ [etm_get_frame]))) self).
Proof.
  intros py limit loads self so block now r p sc vals payload f
         Hpm Hs Hl Hsc Hok Hv Hp Hf.
  unfold next, sock_send, sock_recv. step. rewrite Hpm. simpl. rewrite Hs. simpl.
  rewrite Hl. simpl. rewrite Hsc. simpl. rewrite Hok. rewrite Hv. simpl.
  rewrite Hp. simpl. rewrite Hf. reflexivity.
Qed.

Lemma next_pull_fetches_sample :
  ispushmode connected = false
  /\ exists f self',
       next Py2 0 json_loads true (Chunk 7 (sample_frame_doc "5000" "1058"))
            (set_toffset (Some 3) connected) = (Ret (Some f), self')
       /\ time f == 5
       /\ toffset self' = Some 3 /\ queue self' = [].
Proof.
  split; [reflexivity|].
  eexists. eexists. split.
  - eapply (@next_pull_fetches_one_frame Py2 0 json_loads (set_toffset (Some 3) connected)
              _ true 7 (sample_frame_doc "5000" "1058"));
      vm_compute; reflexivity.
  - split; [vm_compute; reflexivity|]. split; reflexivity.
Defined.

(** X11. The failures of [next] in pull mode: without a socket the
    attribute lookup for [send] fails and nothing changes; with a socket,
    a [recv] that times out lets [socket.timeout] through and a reply with
    a status other than 200 raises the protocol error, the request having
    been written in both cases. *)
Theorem next_pull_failures :
  forall (py : pyver) (limit : nat) (loads : string -> outcome json)
         (block : bool) (self : EyeTribe),
    ispushmode self = false ->
    (sock self = None ->
     forall ev, next py limit loads block ev self = (Raise (AttributeError "send"), self))
    /\ (forall so, sock self = Some so ->
          next py limit loads block TimedOut self
          = (Raise socket_timeout,
             set_sock (Some (mkSocket (timeout so) (sent so ++ [etm_get_frame]))) self))
    /\ (forall so now r p sc,
          sock self = Some so ->
          loads r = Ret p ->
          subscript p "statuscode" = Ret sc ->
          ne_int sc 200 = true ->
          next py limit loads block (Chunk now r) self
          = (Raise (Exception msg_connect_protocol (Some sc)),
             set_sock (Some (mkSocket (timeout so) (sent so ++ [etm_get_frame]))) self)).
Proof.
  intros py limit loads block self Hpm. split; [| split].
  - intros Hs ev. unfold next, sock_send. step. rewrite Hpm. simpl. rewrite Hs.
    reflexivity.
  - intros so Hs. unfold next, sock_send, sock_recv. step. rewrite Hpm. simpl.
    rewrite Hs. reflexivity.
  - intros so now r p sc Hs Hl Hsc Hne. unfold next, sock_send, sock_recv. step.
    rewrite Hpm. simpl. rewrite Hs. simpl. rewrite Hl. simpl. rewrite Hsc. simpl.
    rewrite Hne. reflexivity.
Qed.

Lemma next_pull_failures_sample :
  ispushmode fresh = false
  /\ next Py2 0 json_loads true TimedOut fresh = (Raise (AttributeError "send"), fresh)
  /\ fst (next Py2 0 json_loads true (Chunk 1 reply_error) connected)
     = Raise (Exception msg_connect_protocol (Some (JInt 500))).
Proof.
  split; [reflexivity|].
  split.
  - exact (proj1 (@next_pull_failures Py2 0 json_loads true fresh eq_refl) eq_refl TimedOut).
  - destruct (@next_pull_failures Py2 0 json_loads true connected eq_refl)
      as (_ & _ & H).
    erewrite H; [reflexivity | reflexivity | vm_compute; reflexivity ..].
Defined.

Lemma next_pull_state (py : pyver) (limit : nat) (loads : string -> outcome json)
      (block : bool) (ev : recv_event) (self : EyeTribe) :
  ispushmode self = false ->
  let s1 := snd (next py limit loads block ev self) in
  queue s1 = queue self /\ toffset s1 = toffset self /\ ispushmode s1 = false.
Proof.
  intros Hpm. unfold next, sock_send, sock_recv. step. rewrite Hpm. simpl.
  destruct (sock self) as [so|]; simpl; [| repeat split; exact Hpm].
  destruct ev as [now data|]; simpl; [| repeat split; exact Hpm].
  destruct (loads data) as [p| |]; simpl; try (repeat split; exact Hpm).
  destruct (subscript p "statuscode") as [sc| |]; simpl; try (repeat split; exact Hpm).
  destruct (ne_int sc 200); simpl; try (repeat split; exact Hpm).
  destruct (subscript p "values") as [vals| |]; simpl; try (repeat split; exact Hpm).
  destruct (subscript vals "frame") as [pl| |]; simpl; try (repeat split; exact Hpm).
  destruct (Frame_init py limit now pl ";") as [f| |]; simpl; repeat split; exact Hpm.
Qed.

(** X12. Frames left on the queue when the client is in pull mode are out
    of reach there: whatever a pull-mode [next] receives and however it
    ends, it leaves the queue, the time offset and the mode as they are.
    They come back on the next switch to push mode, where [next] hands
    them out first. *)
Theorem queued_frames_wait_for_push_mode :
  forall (py : pyver) (limit : nat) (loads : string -> outcome json)
         (self : EyeTribe),
    ispushmode self = false ->
    (forall block ev,
        queue (snd (next py limit loads block ev self)) = queue self
        /\ toffset (snd (next py limit loads block ev self)) = toffset self
        /\ ispushmode (snd (next py limit loads block ev self)) = false)
    /\ (forall so callback now r p sc,
          sock self = Some so ->
          loads r = Ret p ->
          subscript p "statuscode" = Ret sc ->
          ne_int sc 200 = false ->
          dequeues py limit loads (snd (pushmode loads callback (Chunk now r) self))
          = queue self).
Proof.
  intros py limit loads self Hpm. split.
  - intros block ev. exact (next_pull_state py limit loads block ev self Hpm).
  - intros so callback now r p sc Hs Hl Hsc Hok.
    rewrite (@pushmode_switch_state loads self so callback now r p sc Hpm Hs Hl Hsc Hok).
    rewrite dequeues_queue by reflexivity. reflexivity.
Qed.

Lemma queued_frames_wait_sample :
  ispushmode with_stale_frame = false
  /\ List.length (queue with_stale_frame) = 1%nat
  /\ queue (snd (next Py2 0 json_loads true
                   (Chunk 7 (sample_frame_doc "9000" "1058")) with_stale_frame))
     = queue with_stale_frame
  /\ dequeues Py2 0 json_loads
       (snd (pushmode json_loads None (Chunk 8 reply_ok) with_stale_frame))
     = queue with_stale_frame.
Proof.
  split; [reflexivity|]. split; [vm_compute; reflexivity|].
  destruct (@queued_frames_wait_for_push_mode Py2 0 json_loads with_stale_frame eq_refl)
    as (H1 & H2).
  split; [exact (proj1 (H1 true (Chunk 7 (sample_frame_doc "9000" "1058"))))|].
  eapply H2; vm_compute; reflexivity.
Defined.

(** ** The listener thread on arbitrary input *)

Lemma listener_changes_refl (s : EyeTribe) : listener_changes s s.
Proof.
  unfold listener_changes. repeat split; try reflexivity; try (intros; assumption).
  exists []. rewrite app_nil_r. reflexivity.
Qed.

Lemma listener_changes_trans (s1 s2 s3 : EyeTribe) :
  listener_changes s1 s2 -> listener_changes s2 s3 -> listener_changes s1 s3.
Proof.
  unfold listener_changes.
  intros (A1 & A2 & A3 & A4 & A5 & A6 & A7 & A8 & (a & A9) & A10 & A11)
         (B1 & B2 & B3 & B4 & B5 & B6 & B7 & B8 & (b & B9) & B10 & B11).
  repeat split; try congruence.
  - exists (a ++ b). rewrite B9, A9, app_assoc. reflexivity.
  - intros o Ho. apply B10, A10, Ho.
  - intros H. apply B11, A11, H.
Qed.

Lemma listener_changes_flag (s : EyeTribe) : listener_changes s (set_ispushmode false s).
Proof.
  unfold listener_changes. simpl. repeat split; try (intros; assumption).
  exists []. rewrite app_nil_r. reflexivity.
Qed.

Lemma listener_frame_changes (py : pyver) (limit : nat) (now : Q) (payload : json)
      (self : EyeTribe) :
  listener_changes self (snd (listener_frame py limit now payload self)).
Proof.
  destruct (Frame_init py limit now payload ";") as [f| |] eqn:E.
  - rewrite (@listener_frame_decoded py limit now payload f self E). simpl.
    unfold listener_changes, offset_for. simpl. repeat split.
    + eexists. reflexivity.
    + intros o Ho. rewrite Ho. reflexivity.
    + intros H. exact H.
  - unfold listener_frame. step. rewrite E. simpl. apply listener_changes_refl.
  - unfold listener_frame. step. rewrite E. simpl. apply listener_changes_refl.
Qed.

Lemma listener_doc_changes (py : pyver) (limit : nat) (loads : string -> outcome json)
      (now : Q) (js : string) (self : EyeTribe) :
  listener_changes self (snd (listener_doc py limit loads now js self)).
Proof.
  unfold listener_doc.
  destruct (String.eqb (strip js) EmptyString); [apply listener_changes_refl|].
  step.
  destruct (loads js) as [j| |]; simpl; try apply listener_changes_refl.
  destruct (subscript j "statuscode") as [sc| |]; simpl; try apply listener_changes_refl.
  destruct (ne_int sc 200); simpl; [apply listener_changes_flag|].
  destruct (subscript j "category") as [cat| |]; simpl; try apply listener_changes_refl.
  destruct (ne_str cat "heartbeat"); simpl; [|apply listener_changes_refl].
  destruct (contains "values" j) as [[|]| |]; simpl; try apply listener_changes_refl.
  destruct (subscript j "values") as [vals| |]; simpl; try apply listener_changes_refl.
  destruct (contains "frame" vals) as [[|]| |]; simpl; try apply listener_changes_refl.
  destruct (subscript vals "frame") as [pl| |]; simpl; try apply listener_changes_refl.
  pose proof (listener_frame_changes py limit now pl self) as H.
  destruct (listener_frame py limit now pl self) as [[u|e|] s']; exact H.
Qed.

Lemma for_each_changes (py : pyver) (limit : nat) (loads : string -> outcome json)
      (now : Q) (segs : list string) :
  forall self : EyeTribe,
    listener_changes self (snd (for_each segs (listener_doc py limit loads now) self)).
Proof.
  induction segs as [|js segs IH]; intros self; [apply listener_changes_refl|].
  cbn [for_each]. unfold bind.
  pose proof (listener_doc_changes py limit loads now js self) as H.
  destruct (listener_doc py limit loads now js self) as [[u|e|] s']; simpl in *;
    try exact H.
  exact (listener_changes_trans H (IH s')).
Qed.

Lemma listener_recv_changes (py : pyver) (limit : nat) (loads : string -> outcome json)
      (ev : recv_event) (self : EyeTribe) :
  listener_changes self (snd (listener_recv py limit loads ev self)).
Proof.
  unfold listener_recv. step.
  destruct (sock self); simpl; [|apply listener_changes_refl].
  destruct ev as [now data|].
  - apply for_each_changes.
  - destruct (ispushmode self); simpl;
      [apply listener_changes_flag | apply listener_changes_refl].
Qed.

Lemma listener_target_changes (py : pyver) (limit : nat)
      (loads : string -> outcome json) (evs : list recv_event) :
  forall self : EyeTribe,
    listener_changes self (snd (listener_target py limit loads evs self)).
Proof.
  induction evs as [|ev evs IH]; intros self; simpl.
  - destruct (ispushmode self); apply listener_changes_refl.
  - destruct (ispushmode self); [|apply listener_changes_refl].
    pose proof (listener_recv_changes py limit loads ev self) as H.
    destruct (listener_recv py limit loads ev self) as [[u|e|] s']; simpl in *;
      try exact H.
    exact (listener_changes_trans H (IH s')).
Qed.

(** X13. Whatever the socket delivers and however the thread ends, the
    listener leaves host, port, socket, heartbeat interval, thread handles
    and callback as they are, and the frames that were queued stay at the
    head of the queue in their order: it only appends. *)
Theorem listener_only_appends :
  forall (py : pyver) (limit : nat) (loads : string -> outcome json)
         (evs : list recv_event) (self : EyeTribe),
    let self' := snd (listener_target py limit loads evs self) in
    host self' = host self /\ port self' = port self /\ sock self' = sock self
    /\ hbinterval self' = hbinterval self
    /\ hbeater self' = hbeater self /\ listener self' = listener self
    /\ pmcallback self' = pmcallback self
    /\ exists added, queue self' = queue self ++ added.
Proof.
  intros py limit loads evs self self'.
  destruct (listener_target_changes py limit loads evs self)
    as (H1 & H2 & H3 & H4 & H5 & H6 & H7 & _ & H9 & _).
  repeat split; assumption.
Qed.

(** X14. Once the time offset is set, nothing the listener receives
    changes it: frames, other replies, unreadable lines, protocol errors
    and timeouts all leave it as it is. *)
Theorem listener_keeps_offset :
  forall (py : pyver) (limit : nat) (loads : string -> outcome json)
         (evs : list recv_event) (self : EyeTribe) (o : Q),
    toffset self = Some o ->
    toffset (snd (listener_target py limit loads evs self)) = Some o.
Proof.
  intros py limit loads evs self o Ho.
  destruct (listener_target_changes py limit loads evs self)
    as (_ & _ & _ & _ & _ & _ & _ & _ & _ & H & _).
  exact (H o Ho).
Qed.

Lemma listener_keeps_offset_sample :
  toffset (set_toffset (Some 5) pushed) = Some 5
  /\ toffset (snd (listener_target Py2 0 json_loads
                     [Chunk 2 (sample_frame_doc "9000" "1058");
                      Chunk 3 reply_heartbeat; Chunk 4 half_document; TimedOut]
                     (set_toffset (Some 5) pushed))) = Some 5.
Proof.
  split; [reflexivity|].
  exact (@listener_keeps_offset Py2 0 json_loads _ (set_toffset (Some 5) pushed) 5 eq_refl).
Defined.

(** X15. A document with a status other than 200 in the stream ends the
    listener: the documents before it in the chunk have been handled (a
    frame is on the queue), the flag is cleared, the thread dies of the
    protocol error, and neither the rest of the chunk nor any later chunk
    is looked at. *)
Theorem listener_protocol_error_in_stream :
  forall (py : pyver) (limit : nat) (loads : string -> outcome json)
         (self : EyeTribe) (so : socket) (now : Q)
         (d1 bad rest : string) (p1 j sc : json) (f1 : Frame)
         (evs : list recv_event),
    sock self = Some so ->
    ispushmode self = true ->
    frame_document loads d1 p1 ->
    Frame_init py limit now p1 ";" = Ret f1 ->
    String.eqb (strip bad) EmptyString = false ->
    occurs newline bad = false ->
    loads bad = Ret j ->
    subscript j "statuscode" = Ret sc ->
    ne_int sc 200 = true ->
    let chunk := String.append d1 (String newline (String.append bad (String newline rest))) in
    let f1' := normalised (offset_for self f1) f1 in
    listener_target py limit loads (Chunk now chunk :: evs) self
    = (Died (Exception msg_connect_protocol (Some sc)),
       set_ispushmode false
         (set_queue (queue self ++ (if queued (pmcallback self) f1' then [f1'] else []))
                    (set_toffset (Some (offset_for self f1)) self)))
    /\ classify (Exception msg_connect_protocol (Some sc)) = ProtocolError.
Proof.
  intros py limit loads self so now d1 bad rest p1 j sc f1 evs
         Hso Hpm Hd1 Hf1 Hblank Hnl Hl Hsc Hne chunk f1'.
  split; [|reflexivity].
  assert (Hsplit : split newline chunk = d1 :: bad :: split newline rest).
  { unfold chunk. rewrite split_append.
    rewrite (split_no_separator _ _ (proj1 (proj2 Hd1))).
    rewrite split_append, (split_no_separator _ _ Hnl). reflexivity. }
  cbn [listener_target]. rewrite Hpm.
  unfold listener_recv. step. rewrite Hso, Hsplit.
  cbn [for_each]. unfold bind.
  rewrite (listener_doc_frame py limit now self Hd1).
  rewrite (@listener_frame_decoded py limit now p1 f1 self Hf1). fold f1'.
  unfold listener_doc. rewrite Hblank. step. rewrite Hl. simpl. rewrite Hsc. simpl.
  rewrite Hne. reflexivity.
Qed.

Lemma listener_protocol_error_in_stream_sample :
  ispushmode pushed = true
  /\ exists f1 self',
       Frame_init Py2 0 2 (sample_json "5000" "1058") ";" = Ret f1
       /\ listener_target Py2 0 json_loads
            [Chunk 2 (String.append (sample_frame_doc "5000" "1058")
                        (String newline (String.append reply_error
                           (String newline (sample_frame_doc "9000" "1058")))));
             Chunk 3 (sample_frame_doc "9000" "1058")] pushed
          = (Died (Exception msg_connect_protocol (Some (JInt 500))), self')
       /\ ispushmode self' = false
       /\ queue self' = [normalised (time f1) f1].
Proof.
  split; [reflexivity|].
  eexists.
  match goal with
  | |- exists _, ?P1 /\ _ => assert (Hf1 : P1) by (vm_compute; reflexivity)
  end.
  assert (Hd1 : frame_document json_loads (sample_frame_doc "5000" "1058")
                  (sample_json "5000" "1058")) by sample_document.
  eexists. split; [exact Hf1|]. split.
  - refine (proj1 (@listener_protocol_error_in_stream Py2 0 json_loads pushed _ 2
                     _ reply_error _ _ _ (JInt 500) _ _
                     eq_refl eq_refl Hd1 Hf1 _ _ _ _ _));
      vm_compute; reflexivity.
  - split; reflexivity.
Defined.

Lemma listener_doc_ignored (py : pyver) (limit : nat) (loads : string -> outcome json)
      (now : Q) (js : string) (self : EyeTribe) :
  ignored_line loads js ->
  listener_doc py limit loads now js self = (Ret tt, self).
Proof.
  unfold listener_doc.
  intros [Hb | (j & sc & cat & Hl & Hsc & Hok & Hcat & Hwhy)]; [rewrite Hb; reflexivity|].
  destruct (String.eqb (strip js) EmptyString); [reflexivity|].
  step. rewrite Hl. simpl. rewrite Hsc. simpl. rewrite Hok. rewrite Hcat. simpl.
  destruct Hwhy as [Hhb | [Hnv | (vals & Hv & Hnf)]].
  - rewrite Hhb. reflexivity.
  - destruct (ne_str cat "heartbeat"); [|reflexivity]. rewrite Hnv. reflexivity.
  - destruct (ne_str cat "heartbeat"); [|reflexivity].
    rewrite (subscript_contains _ _ Hv). simpl. rewrite Hv. simpl. rewrite Hnf.
    reflexivity.
Qed.

Lemma for_each_ignored (py : pyver) (limit : nat) (loads : string -> outcome json)
      (now : Q) (segs : list string) (self : EyeTribe) :
  Forall (ignored_line loads) segs ->
  for_each segs (listener_doc py limit loads now) self = (Ret tt, self).
Proof.
  induction 1 as [|js segs Hjs _ IH]; [reflexivity|].
  cbn [for_each]. unfold bind.
  rewrite (listener_doc_ignored py limit now self Hjs). exact IH.
Qed.

(** X16. Chunks that hold nothing but blank lines, heartbeat replies and
    replies without a frame (such as the acknowledgement of a mode switch)
    pass through the listener without any effect on the object, and the
    thread goes on waiting.  The empty chunk that [recv] returns once the
    tracker has closed the connection is such a chunk: the listener does not
    notice the closed connection. *)
Theorem listener_ignores_other_replies :
  forall (py : pyver) (limit : nat) (loads : string -> outcome json)
         (evs : list recv_event) (self : EyeTribe) (so : socket),
    sock self = Some so ->
    ispushmode self = true ->
    Forall (ignored_chunk loads) evs ->
    listener_target py limit loads evs self = (Running, self).
Proof.
  intros py limit loads evs self so Hso Hpm Hall.
  induction Hall as [|ev evs (now & data & -> & Hlines) _ IH]; simpl; rewrite Hpm;
    [reflexivity|].
  unfold listener_recv. step. rewrite Hso.
  rewrite (for_each_ignored py limit now self Hlines). exact IH.
Qed.

Lemma listener_ignores_sample :
  ispushmode pushed = true
  /\ Forall (ignored_chunk json_loads)
       [Chunk 2 reply_heartbeat; Chunk 3 (String.append reply_ok (String newline EmptyString));
        Chunk 4 EmptyString; Chunk 5 EmptyString]
  /\ listener_target Py2 0 json_loads
       [Chunk 2 reply_heartbeat; Chunk 3 (String.append reply_ok (String newline EmptyString));
        Chunk 4 EmptyString; Chunk 5 EmptyString] pushed
     = (Running, pushed).
Proof.
  split; [reflexivity|].
  assert (Hall : Forall (ignored_chunk json_loads)
       [Chunk 2 reply_heartbeat; Chunk 3 (String.append reply_ok (String newline EmptyString));
        Chunk 4 EmptyString; Chunk 5 EmptyString]).
  { repeat constructor.
    - exists 2, reply_heartbeat. split; [reflexivity|].
      change (split newline reply_heartbeat) with [reply_heartbeat].
      constructor; [|constructor]. right.
      do 3 eexists. split; [vm_compute; reflexivity|].
      split; [vm_compute; reflexivity|]. split; [vm_compute; reflexivity|].
      split; [vm_compute; reflexivity|]. left. vm_compute. reflexivity.
    - eexists. eexists. split; [reflexivity|].
      change (split newline (String.append reply_ok (String newline EmptyString)))
        with [reply_ok; EmptyString].
      constructor; [|constructor; [left; reflexivity | constructor]]. right.
      do 3 eexists. split; [vm_compute; reflexivity|].
      split; [vm_compute; reflexivity|]. split; [vm_compute; reflexivity|].
      split; [vm_compute; reflexivity|]. right. left. vm_compute. reflexivity.
    - exists 4, EmptyString. split; [reflexivity|].
      constructor; [left; reflexivity | constructor].
    - exists 5, EmptyString. split; [reflexivity|].
      constructor; [left; reflexivity | constructor]. }
  split; [exact Hall|].
  exact (@listener_ignores_other_replies Py2 0 json_loads _ pushed _ eq_refl eq_refl Hall).
Defined.

(** ** The heartbeat thread *)

Lemma hbeater_target_beats (py : pyver) (n : nat) :
  forall (self : EyeTribe) (so : socket),
    ispushmode self = true ->
    sock self = Some so ->
    Qle_bool 0 (hbinterval self) = true ->
    hbeater_target py n self
    = (Running,
       set_sock (Some (mkSocket (timeout so) (sent so ++ repeat etm_heartbeat n))) self).
Proof.
  induction n as [|n IH]; intros self so Hpm Hso Hhb.
  - simpl. rewrite Hpm. destruct self, so; simpl in *. subst.
    rewrite app_nil_r. reflexivity.
  - cbn [hbeater_target]. rewrite Hpm.
    unfold hbeater_turn, time_sleep, sock_send. step. rewrite Hso. simpl.
    rewrite Hhb. simpl.
    rewrite (IH _ (mkSocket (timeout so) (sent so ++ [etm_heartbeat])));
      [| exact Hpm | reflexivity | exact Hhb].
    simpl. rewrite <- app_assoc. destruct self; reflexivity.
Qed.

(** X17. While the flag is set and the client owns its socket, the
    heartbeat thread writes one heartbeat message per turn of its loop,
    nothing else, and reads nothing, provided the heartbeat interval is not
    negative; with a negative interval (one a failed [connect] has stored)
    it writes one heartbeat and dies in its first [time.sleep].  Once the
    flag is cleared it returns at its next test without writing; and if the
    socket has been given up by [close] while the flag is still set, its
    next turn dies of the failed attribute lookup. *)
Theorem hbeater_writes_heartbeats :
  forall (py : pyver) (n : nat) (self : EyeTribe) (so : socket),
    ispushmode self = true ->
    sock self = Some so ->
    (Qle_bool 0 (hbinterval self) = true ->
     hbeater_target py n self
     = (Running,
        set_sock (Some (mkSocket (timeout so) (sent so ++ repeat etm_heartbeat n))) self))
    /\ (Qle_bool 0 (hbinterval self) = false ->
        hbeater_target py (S n) self
        = (Died (match py with Py2 => IOError | Py3 => ValueError end),
           set_sock (Some (mkSocket (timeout so) (sent so ++ [etm_heartbeat]))) self))
    /\ hbeater_target py n (set_ispushmode false self)
       = (Returned, set_ispushmode false self)
    /\ hbeater_target py (S n) (snd (close self))
       = (Died (AttributeError "send"), snd (close self)).
Proof.
  intros py n self so Hpm Hso. split; [| split; [| split]].
  - intros Hhb. exact (@hbeater_target_beats py n self so Hpm Hso Hhb).
  - intros Hhb. cbn [hbeater_target]. rewrite Hpm.
    unfold hbeater_turn, time_sleep, sock_send. step. rewrite Hso. simpl.
    rewrite Hhb. reflexivity.
  - destruct n; reflexivity.
  - unfold close, sock_close_method. step. rewrite Hso. simpl.
    rewrite Hpm. unfold hbeater_turn, sock_send. step. reflexivity.
Qed.

Lemma hbeater_writes_heartbeats_sample :
  ispushmode pushed = true
  /\ hbeater_target Py2 3 pushed
     = (Running,
        set_sock (Some (mkSocket (Some (inject_Z 20 / 1000 * 2))
                          [etm_get_init; etm_set_push;
                           etm_heartbeat; etm_heartbeat; etm_heartbeat])) pushed)
  /\ hbinterval (pushed_from (connected_with reply_handshake_negative)) == - (20 # 1000)
  /\ fst (hbeater_target Py3 3 (pushed_from (connected_with reply_handshake_negative)))
     = Died ValueError.
Proof.
  split; [reflexivity|].
  split.
  - exact (proj1 (@hbeater_writes_heartbeats Py2 3 pushed _ eq_refl eq_refl) eq_refl).
  - split; [vm_compute; reflexivity|].
    destruct (@hbeater_writes_heartbeats Py3 2
                (pushed_from (connected_with reply_handshake_negative)) _
                eq_refl eq_refl) as (_ & H & _).
    rewrite (H eq_refl). reflexivity.
Defined.

(** X18. A line that [json.loads] cannot read (half of a frame cut by the
    end of a chunk, say) kills the listener with the exception of the
    parser and leaves the object as it is, flag included: later chunks are
    never read, [pushmode] cannot start a new listener because it takes the
    client to be in push mode still, and the heartbeat thread (of a client
    whose heartbeat interval is not negative) goes on writing. *)
Theorem listener_unreadable_line_kills_thread :
  forall (py : pyver) (limit : nat) (loads : string -> outcome json)
         (self : EyeTribe) (so : socket) (now : Q) (js : string) (e : exn)
         (evs : list recv_event),
    sock self = Some so ->
    ispushmode self = true ->
    String.eqb (strip js) EmptyString = false ->
    occurs newline js = false ->
    loads js = Raise e ->
    listener_target py limit loads (Chunk now js :: evs) self = (Died e, self)
    /\ (forall callback ev, pushmode loads callback ev self = (Ret tt, self))
    /\ (Qle_bool 0 (hbinterval self) = true ->
        forall n, fst (hbeater_target py n self) = Running).
Proof.
  intros py limit loads self so now js e evs Hso Hpm Hblank Hnl Hl.
  split; [| split].
  - cbn [listener_target]. rewrite Hpm. unfold listener_recv. step. rewrite Hso.
    rewrite (split_no_separator _ _ Hnl). cbn [for_each]. unfold bind.
    unfold listener_doc. rewrite Hblank. step. rewrite Hl. reflexivity.
  - intros callback ev. unfold pushmode. step. rewrite Hpm. reflexivity.
  - intros Hhb n. rewrite (@hbeater_target_beats py n self so Hpm Hso Hhb). reflexivity.
Qed.

Lemma listener_unreadable_line_sample :
  ispushmode pushed = true
  /\ json_loads half_document = Raise ValueError
  /\ listener_target Py2 0 json_loads
       [Chunk 2 half_document; Chunk 3 (sample_frame_doc "9000" "1058")] pushed
     = (Died ValueError, pushed).
Proof.
  split; [reflexivity|].
  assert (Hl : json_loads half_document = Raise ValueError) by (vm_compute; reflexivity).
  split; [exact Hl|].
  refine (proj1 (@listener_unreadable_line_kills_thread Py2 0 json_loads pushed _ 2
                   half_document ValueError _ eq_refl eq_refl _ _ Hl));
    vm_compute; reflexivity.
Defined.

(** ** A whole push-mode session *)

Lemma listener_frame_flag (py : pyver) (limit : nat) (now : Q) (payload : json)
      (self : EyeTribe) :
  ispushmode (snd (listener_frame py limit now payload self)) = ispushmode self.
Proof.
  destruct (Frame_init py limit now payload ";") as [f| |] eqn:E.
  - rewrite (@listener_frame_decoded py limit now payload f self E). reflexivity.
  - unfold listener_frame. step. rewrite E. reflexivity.
  - unfold listener_frame. step. rewrite E. reflexivity.
Qed.

(** The listener clears the flag only on its way out with an exception. *)
Lemma listener_doc_flag (py : pyver) (limit : nat) (loads : string -> outcome json)
      (now : Q) (js : string) (self : EyeTribe) :
  (forall e, fst (listener_doc py limit loads now js self) <> Raise e) ->
  ispushmode (snd (listener_doc py limit loads now js self)) = ispushmode self.
Proof.
  unfold listener_doc.
  destruct (String.eqb (strip js) EmptyString); [reflexivity|].
  step.
  destruct (loads js) as [j| |]; simpl; try reflexivity.
  destruct (subscript j "statuscode") as [sc| |]; simpl; try reflexivity.
  destruct (ne_int sc 200); simpl.
  { intros H. exfalso. exact (H _ eq_refl). }
  destruct (subscript j "category") as [cat| |]; simpl; try reflexivity.
  destruct (ne_str cat "heartbeat"); simpl; [|reflexivity].
  destruct (contains "values" j) as [[|]| |]; simpl; try reflexivity.
  destruct (subscript j "values") as [vals| |]; simpl; try reflexivity.
  destruct (contains "frame" vals) as [[|]| |]; simpl; try reflexivity.
  destruct (subscript vals "frame") as [pl| |]; simpl; try reflexivity.
  pose proof (listener_frame_flag py limit now pl self) as H.
  destruct (listener_frame py limit now pl self) as [[u|e|] s']; intros _; exact H.
Qed.

Lemma for_each_flag (py : pyver) (limit : nat) (loads : string -> outcome json)
      (now : Q) (segs : list string) :
  forall self : EyeTribe,
    (forall e, fst (for_each segs (listener_doc py limit loads now) self) <> Raise e) ->
    ispushmode (snd (for_each segs (listener_doc py limit loads now) self))
    = ispushmode self.
Proof.
  induction segs as [|js segs IH]; intros self; [reflexivity|].
  cbn [for_each]. unfold bind.
  pose proof (listener_doc_flag py limit loads now js self) as H.
  destruct (listener_doc py limit loads now js self) as [[u|e|] s']; simpl in *.
  - intros Hrest. rewrite (IH s' Hrest). apply H. discriminate.
  - intros Hrest. exfalso. exact (Hrest _ eq_refl).
  - intros _. apply H. discriminate.
Qed.

Lemma listener_recv_flag (py : pyver) (limit : nat) (loads : string -> outcome json)
      (ev : recv_event) (self : EyeTribe) :
  (forall e, fst (listener_recv py limit loads ev self) <> Raise e) ->
  ispushmode (snd (listener_recv py limit loads ev self)) = ispushmode self.
Proof.
  unfold listener_recv. step.
  destruct (sock self); simpl; [|reflexivity].
  destruct ev as [now data|].
  - apply for_each_flag.
  - destruct (ispushmode self) eqn:E; simpl; [|intros _; exact E].
    intros H. exfalso. exact (H _ eq_refl).
Qed.

(** A listener that is waiting in [recv] has the flag set. *)
Lemma listener_target_running (py : pyver) (limit : nat)
      (loads : string -> outcome json) (evs : list recv_event) :
  forall self s' : EyeTribe,
    listener_target py limit loads evs self = (Running, s') ->
    ispushmode s' = true.
Proof.
  induction evs as [|ev evs IH]; intros self s'; cbn [listener_target];
    destruct (ispushmode self) eqn:Hpm; try discriminate.
  - intros H. injection H as <-. exact Hpm.
  - pose proof (listener_recv_flag py limit loads ev self) as Hflag.
    destruct (listener_recv py limit loads ev self) as [[u|e|] s1]; simpl in *.
    + apply IH.
    + discriminate.
    + intros H. injection H as <-. rewrite Hflag by discriminate. exact Hpm.
Qed.

(** X8. A whole session.  From a connected client in pull mode with a
    heartbeat interval that is not negative and nothing left over from an
    earlier session, take a switch to push mode, a listener that has
    handled any chunks and is still waiting in [recv], a heartbeat thread
    (if one was started) that has made any number of turns, and a
    [pullmode] whose joins see both threads end within the bound.  Once
    [pullmode] has cleared the flag and written its request, the listener
    leaves its loop when its [recv] times out and the heartbeat thread
    returns at its next test, neither changing the object.  Then
    [pullmode] returns and the client is as it was before the session,
    except for what the session wrote to the socket (the "set push"
    request, the heartbeats, the "set pull" request) and for the frames the
    listener has put behind those already on the queue; the time offset is
    unset again and a callback given to [pushmode] is gone. *)
Theorem push_then_pull_restores :
  forall (py : pyver) (limit : nat) (loads : string -> outcome json)
         (self : EyeTribe) (so : socket)
         (callback : option (Frame -> json)) (now : Q) (r : string) (p sc : json)
         (evs : list recv_event) (s2 : EyeTribe) (beats : nat)
         (lexit hexit : option Q),
    ispushmode self = false ->
    sock self = Some so ->
    listener self = None ->
    hbeater self = None ->
    toffset self = None ->
    pmcallback self = None ->
    Qle_bool 0 (hbinterval self) = true ->
    loads r = Ret p ->
    subscript p "statuscode" = Ret sc ->
    ne_int sc 200 = false ->
    listener_target py limit loads evs (snd (pushmode loads callback (Chunk now r) self))
    = (Running, s2) ->
    isAlive_after_join (join_bound self) lexit = false ->
    isAlive_after_join (join_bound self) hexit = false ->
    let written :=
      etm_set_push
        :: repeat etm_heartbeat (if Qeq_bool (hbinterval self) 0 then 0 else beats)
        ++ [etm_set_pull] in
    exists added,
      queue s2 = queue self ++ added
      /\ (let s3 := hbeater_run py beats s2 in
          let s4 := snd (pullmode_signal s3) in
          let final :=
            set_queue (queue self ++ added)
              (set_sock (Some (mkSocket (timeout so) (sent so ++ written))) self) in
          fst (pullmode_signal s3) = Ret true
          /\ listener_resume py limit loads TimedOut [] s4 = (Returned, s4)
          /\ hbeater_target py beats s4 = (Returned, s4)
          /\ pullmode_sync true lexit hexit s4 = (Ret tt, final)
          /\ pullmode lexit hexit s3 = (Ret tt, final)).
Proof.
  intros py limit loads self so callback now r p sc evs s2 beats lexit hexit
         Hpm Hs Hl Hhb Hoff Hcb Hnn Hlo Hsc Hok Hrun Hle Hhe written.
  rewrite (@pushmode_switch_state loads self so callback now r p sc Hpm Hs Hlo Hsc Hok)
    in Hrun.
  cbn [snd] in Hrun.
  pose proof (listener_target_running _ _ _ _ _ Hrun) as Hflag.
  pose proof (listener_target_changes py limit loads evs
                (set_listener (Some (Thread target_listener))
                   (set_hbeater (if Qeq_bool (hbinterval self) 0 then None
                                 else Some (Thread target_hbeater))
                      (set_sock (Some (mkSocket (timeout so) (sent so ++ [etm_set_push])))
                         (set_pmcallback (match callback with
                                          | Some cb => Some cb
                                          | None => pmcallback self
                                          end)
                            (set_ispushmode true self)))))) as Hch.
  rewrite Hrun in Hch. cbn [snd] in Hch.
  destruct Hch as (H1 & H2 & H3 & H4 & H5 & H6 & H7 & H8 & (added & H9) & _ & _).
  exists added.
  unfold join_bound in *. subst written.
  destruct self as [h p0 s q pm hbi hbt l cb off ss].
  destruct s2 as [h2 p2 sk2 q2 pm2 hbi2 hbt2 l2 cb2 off2 ss2].
  simpl in *. subst.
  split; [reflexivity|].
  unfold hbeater_run. simpl.
  destruct (Qeq_bool hbi 0) eqn:E; simpl.
  - split; [reflexivity|]. split; [reflexivity|].
    split; [destruct beats; reflexivity|].
    split.
    + unfold pullmode_sync, join_bound. step.
      rewrite Hle. simpl. rewrite E. simpl. rewrite <- app_assoc. reflexivity.
    + unfold pullmode, pullmode_signal, pullmode_sync, sock_send, join_bound. step.
      rewrite Hle. simpl. rewrite E. simpl. rewrite <- app_assoc. reflexivity.
  - erewrite (@hbeater_target_beats py beats); [| reflexivity | reflexivity | exact Hnn].
    split; [reflexivity|]. split; [reflexivity|].
    split; [destruct beats; reflexivity|].
    split.
    + unfold pullmode_sync, join_bound. step.
      rewrite Hle. simpl. rewrite E. simpl. rewrite Hhe. simpl.
      rewrite <- !app_assoc. reflexivity.
    + unfold pullmode, pullmode_signal, pullmode_sync, sock_send, join_bound. step.
      rewrite Hle. simpl. rewrite E. simpl. rewrite Hhe. simpl.
      rewrite <- !app_assoc. reflexivity.
Qed.

(** A session on the sample client (heartbeat 20 ms): the listener receives
    a frame and a heartbeat reply, the heartbeat thread makes two turns. *)
Lemma push_then_pull_restores_sample :
  let evs := [Chunk 2 (sample_frame_doc "5000" "1058"); Chunk 3 reply_heartbeat] in
  let s1 := snd (pushmode json_loads (Some callback_declines) (Chunk 1 reply_ok) connected) in
  let s2 := snd (listener_target Py2 0 json_loads evs s1) in
  ispushmode connected = false
  /\ listener_target Py2 0 json_loads evs s1 = (Running, s2)
  /\ exists added,
       queue s2 = added
       /\ List.length added = 1%nat
       /\ pullmode (Some (3 # 100)) (Some (2 # 100)) (hbeater_run Py2 2 s2)
          = (Ret tt,
             set_queue added
               (set_sock (Some (mkSocket (Some (inject_Z 20 / 1000 * 2))
                                 [etm_get_init; etm_set_push; etm_heartbeat;
                                  etm_heartbeat; etm_set_pull])) connected)).
Proof.
  cbv zeta.
  split; [reflexivity|].
  assert (Hrun : listener_target Py2 0 json_loads
                   [Chunk 2 (sample_frame_doc "5000" "1058"); Chunk 3 reply_heartbeat]
                   (snd (pushmode json_loads (Some callback_declines) (Chunk 1 reply_ok)
                           connected))
                 = (Running,
                    snd (listener_target Py2 0 json_loads
                           [Chunk 2 (sample_frame_doc "5000" "1058"); Chunk 3 reply_heartbeat]
                           (snd (pushmode json_loads (Some callback_declines)
                                   (Chunk 1 reply_ok) connected)))))
    by (vm_compute; reflexivity).
  split; [exact Hrun|].
  assert (Hl : json_loads reply_ok
               = Ret (JObj [("category"%string, JStr "tracker");
                            ("request"%string, JStr "set");
                            ("statuscode"%string, JInt 200)]))
    by (vm_compute; reflexivity).
  destruct (@push_then_pull_restores Py2 0 json_loads connected
              (mkSocket (Some (inject_Z 20 / 1000 * 2)) [etm_get_init])
              (Some callback_declines) 1 reply_ok _ (JInt 200) _ _ 2
              (Some (3 # 100)) (Some (2 # 100))
              eq_refl eq_refl eq_refl eq_refl eq_refl eq_refl eq_refl Hl eq_refl eq_refl
              Hrun)
    as (added & Hq & _ & _ & _ & _ & Hpull);
    [vm_compute; reflexivity | vm_compute; reflexivity |].
  exists added. split; [exact Hq|].
  split; [| exact Hpull].
  change added with (queue connected ++ added). rewrite <- Hq.
  vm_compute. reflexivity.
Defined.

(** ** The columns of a rendering *)

Lemma occurs_zeros (c : ascii) (n : nat) : Ascii.eqb "0" c = false -> occurs c (zeros n) = false.
Proof.
  intros H. induction n as [|n IH]; cbn [zeros occurs]; [reflexivity|].
  rewrite H, IH. reflexivity.
Qed.

Lemma occurs_semicolon_format_f_padded (width prec : nat) (q : Q) :
  occurs ";" (format_f_float width prec q) = false.
Proof.
  unfold format_f_float. rewrite !occurs_append. cbn [occurs].
  rewrite (occurs_zeros ";" _ eq_refl). unfold dec.
  rewrite (all_digits_occurs ";" _ eq_refl (all_digits_dec_fuel _ _)).
  rewrite (all_digits_occurs ";" _ eq_refl (all_digits_fixed _ _)).
  destruct (is_negative q); reflexivity.
Qed.

(** A rendering is the two times, the timestamp and twenty more fields
    without a separator in them, joined by the separator. *)
Lemma Frame_str_shape (py : pyver) (limit : nat) (str_ : json -> string) (now : Q)
      (json : json) (f : Frame) (s : string) :
  Frame_init py limit now json ";" = Ret f ->
  Frame_str py limit str_ f = Ret s ->
  exists fields,
    List.length fields = 20%nat
    /\ Forall (fun x => occurs ";" x = false) fields
    /\ s = String.append (format_f_float 14 3 (etime f))
             (String ";" (String.append (format_f_float 7 3 (time f))
                (String ";" (String.append (str_ (timestamp f))
                   (String ";" (join ";" fields)))))).
Proof.
  intros Hinit Hstr.
  pose proof (Frame_init_returns _ _ _ _ _ Hinit) as ->.
  unfold Frame_init in Hinit. cbn [setattr obind] in Hinit.
  destruct (subscript json "time") as [t| |]; cbn [obind] in Hinit; try discriminate.
  destruct (truediv t 1000) as [t'| |]; cbn [obind] in Hinit; try discriminate.
  destruct (subscript json "timestamp") as [ts| |]; cbn [obind] in Hinit; try discriminate.
  destruct (subscript json "fix") as [fx| |]; cbn [obind] in Hinit; try discriminate.
  destruct (subscript json "state") as [st| |]; cbn [obind] in Hinit; try discriminate.
  destruct (Coord_of Py2 limit json "raw" fmt_d) as [rw| |] eqn:Erw;
    cbn [obind] in Hinit; try discriminate.
  destruct (Coord_of Py2 limit json "avg" fmt_d) as [av| |] eqn:Eav;
    cbn [obind] in Hinit; try discriminate.
  destruct (subscript json "lefteye") as [lj| |]; cbn [obind] in Hinit; try discriminate.
  destruct (Eye_of Py2 limit lj) as [le| |] eqn:Ele; cbn [obind] in Hinit; try discriminate.
  destruct (subscript json "righteye") as [rj| |]; cbn [obind] in Hinit; try discriminate.
  destruct (Eye_of Py2 limit rj) as [re| |] eqn:Ere; cbn [obind] in Hinit; try discriminate.
  injection Hinit as <-.
  unfold Frame_str, state_flag, Frame_get_state, Frame_get_fix, Frame_get_etime,
    Frame_get_time, Frame_get_timestamp, Frame_get_avg, Frame_get_lefteye,
    Frame_get_righteye in Hstr.
  cbn [getattr obind state fix_ etime time timestamp raw avg lefteye righteye Frame_ssep]
    in Hstr.
  destruct (bit_and st 16) as [b16| |]; cbn [obind] in Hstr; try discriminate.
  destruct (bit_and st 8) as [b8| |]; cbn [obind] in Hstr; try discriminate.
  destruct (bit_and st 4) as [b4| |]; cbn [obind] in Hstr; try discriminate.
  destruct (bit_and st 2) as [b2| |]; cbn [obind] in Hstr; try discriminate.
  destruct (bit_and st 1) as [b1| |]; cbn [obind] in Hstr; try discriminate.
  destruct (Coord_str Py2 limit rw) as [srw| |] eqn:Srw; cbn [obind] in Hstr; try discriminate.
  destruct (Coord_str Py2 limit av) as [sav| |] eqn:Sav; cbn [obind] in Hstr; try discriminate.
  destruct (Eye_str Py2 limit le) as [sle| |] eqn:Sle; cbn [obind] in Hstr; try discriminate.
  destruct (Eye_str Py2 limit re) as [sre| |] eqn:Sre; cbn [obind] in Hstr; try discriminate.
  injection Hstr as <-.
  destruct (Coord_read_back _ _ _ _ Erw Srw) as (rwx & rwy & ? & ? & -> & Orx & Ory & _).
  destruct (Coord_read_back _ _ _ _ Eav Sav) as (avx & avy & ? & ? & -> & Oax & Oay & _).
  destruct (Eye_read_back _ _ Ele Sle)
    as (l1 & l2 & l3 & l4 & l5 & l6 & l7 & ? & -> & Ol & _).
  destruct (Eye_read_back _ _ Ere Sre)
    as (r1 & r2 & r3 & r4 & r5 & r6 & r7 & ? & -> & Or & _).
  set (fch := String (if truthy fx then "F"%char else "N"%char) EmptyString).
  set (flags :=
         String (if (b16 =? 0)%Z then "."%char else "L"%char)
        (String (if (b8 =? 0)%Z then "."%char else "F"%char)
        (String (if (b4 =? 0)%Z then "."%char else "P"%char)
        (String (if (b2 =? 0)%Z then "."%char else "E"%char)
        (String (if (b1 =? 0)%Z then "."%char else "G"%char) EmptyString))))).
  exists [fch; flags; rwx; rwy; avx; avy; l1; l2; l3; l4; l5; l6; l7;
          r1; r2; r3; r4; r5; r6; r7].
  split; [reflexivity|]. split.
  - assert (Oflags : occurs ";" flags = false).
    { subst flags. cbn [occurs].
      destruct (b16 =? 0)%Z, (b8 =? 0)%Z, (b4 =? 0)%Z, (b2 =? 0)%Z, (b1 =? 0)%Z;
        reflexivity. }
    assert (Ofch : occurs ";" fch = false)
      by (subst fch; destruct (truthy fx); reflexivity).
    repeat (constructor; [assumption|]).
    repeat match goal with
           | H : Forall _ (_ :: _) |- _ => inversion H; clear H; subst
           end.
    repeat (constructor; [assumption|]). constructor.
  - subst fch flags. cbn [join etime time timestamp].
    repeat first [rewrite append_assoc | progress cbn [String.append]].
    reflexivity.
Qed.

(** X19. The rendering of a decoded frame has one column for each name of
    the header line the module prints: split at the separator it gives 22
    fields besides those of the timestamp, hence the 23 of the header when
    the timestamp holds no separator. *)
Theorem rendering_has_header_columns :
  forall (py : pyver) (limit : nat) (str_ : json -> string) (now : Q)
         (json : json) (f : Frame) (s : string),
    Frame_init py limit now json ";" = Ret f ->
    Frame_str py limit str_ f = Ret s ->
    List.length (split ";" s)
    = (22 + List.length (split ";" (str_ (timestamp f))))%nat
    /\ (occurs ";" (str_ (timestamp f)) = false ->
        List.length (split ";" s) = List.length (split ";" header)).
Proof.
  intros py limit str_ now json f s Hinit Hstr.
  destruct (@Frame_str_shape py limit str_ now json f s Hinit Hstr)
    as (fields & Hlen & Hall & ->).
  assert (Hne : fields <> []) by (destruct fields; [discriminate Hlen | discriminate]).
  assert (Hcount : List.length
                     (split ";"
                        (String.append (format_f_float 14 3 (etime f))
                           (String ";" (String.append (format_f_float 7 3 (time f))
                              (String ";" (String.append (str_ (timestamp f))
                                 (String ";" (join ";" fields))))))))
                   = (22 + List.length (split ";" (str_ (timestamp f))))%nat).
  { rewrite split_append, (split_no_separator _ _ (occurs_semicolon_format_f_padded 14 3 _)).
    rewrite split_append, (split_no_separator _ _ (occurs_semicolon_format_f_padded 7 3 _)).
    rewrite split_append, (split_join_fields Hne Hall).
    cbn [app List.length]. rewrite length_app, Hlen. lia. }
  split; [exact Hcount|].
  intros Hts. rewrite Hcount, (split_no_separator _ _ Hts). reflexivity.
Qed.

Lemma rendering_has_header_columns_sample :
  exists f,
    Frame_init Py2 0 2 (sample_json "5000" "1058") ";" = Ret f
    /\ Frame_str Py2 0 str_scalar f = Ret sample_rendering
    /\ List.length (split ";" sample_rendering) = 23%nat
    /\ List.length (split ";" header) = 23%nat.
Proof.
  eexists.
  match goal with
  | |- ?P1 /\ ?P2 /\ _ =>
      assert (Hf : P1) by (vm_compute; reflexivity);
      assert (Hs : P2) by (vm_compute; reflexivity)
  end.
  split; [exact Hf|]. split; [exact Hs|].
  destruct (@rendering_has_header_columns Py2 0 str_scalar 2 _ _ _ Hf Hs) as (_ & H).
  assert (Hh : List.length (split ";" header) = 23%nat) by (vm_compute; reflexivity).
  split; [|exact Hh]. rewrite <- Hh. apply H. vm_compute. reflexivity.
Defined.

(** ** More on [next], [close] and the decoder *)

(** X20. In push mode [next] never touches the socket: it takes the frame
    at the head of the queue when there is one; on an empty queue it
    returns [None] at once when asked not to block, and otherwise waits. *)
Theorem next_push_mode_reads_queue :
  forall (py : pyver) (limit : nat) (loads : string -> outcome json)
         (block : bool) (ev : recv_event) (self : EyeTribe),
    ispushmode self = true ->
    (forall f q, queue self = f :: q ->
       next py limit loads block ev self = (Ret (Some f), set_queue q self))
    /\ (queue self = [] ->
        next py limit loads false ev self = (Ret None, self)
        /\ next py limit loads true ev self = (Blocked, self)).
Proof.
  intros py limit loads block ev self Hpm. split.
  - intros f q Hq. unfold next, queue_get. step. rewrite Hpm, Hq. reflexivity.
  - intros Hq. unfold next, queue_get. step. rewrite Hpm, Hq. split; reflexivity.
Qed.

Lemma next_push_mode_sample :
  ispushmode pushed = true
  /\ next Py2 0 json_loads false TimedOut pushed = (Ret None, pushed)
  /\ next Py2 0 json_loads true TimedOut pushed = (Blocked, pushed).
Proof.
  split; [reflexivity|].
  exact (proj2 (@next_push_mode_reads_queue Py2 0 json_loads true TimedOut pushed eq_refl)
               eq_refl).
Defined.

(** X21. [close] does not leave push mode: called with the flag set it
    gives up the socket and returns, and the flag stays set.  Frames
    already queued are still handed out by [next]; a [pushmode] does
    nothing, the client being in push mode still; and [pullmode] clears the
    flag and then fails on the missing socket with the failed attribute
    lookup, before it reaches its joins. *)
Theorem close_in_push_mode :
  forall (py : pyver) (limit : nat) (loads : string -> outcome json)
         (self : EyeTribe) (so : socket)
         (callback : option (Frame -> json)) (ev : recv_event) (lexit hexit : option Q),
    ispushmode self = true ->
    sock self = Some so ->
    close self = (Ret tt, set_sock None self)
    /\ ispushmode (set_sock None self) = true
    /\ dequeues py limit loads (set_sock None self) = queue self
    /\ pushmode loads callback ev (set_sock None self) = (Ret tt, set_sock None self)
    /\ pullmode lexit hexit (set_sock None self)
       = (Raise (AttributeError "send"), set_ispushmode false (set_sock None self)).
Proof.
  intros py limit loads self so callback ev lexit hexit Hpm Hso.
  split; [| split; [| split; [| split]]].
  - unfold close, sock_close_method. step. rewrite Hso. reflexivity.
  - exact Hpm.
  - rewrite dequeues_queue by exact Hpm. reflexivity.
  - unfold pushmode. step. rewrite Hpm. reflexivity.
  - unfold pullmode, pullmode_signal, sock_send. step. rewrite Hpm. reflexivity.
Qed.

Lemma close_in_push_mode_sample :
  ispushmode pushed = true
  /\ fst (close pushed) = Ret tt
  /\ ispushmode (snd (close pushed)) = true
  /\ fst (pullmode (Some 0) (Some 0) (snd (close pushed))) = Raise (AttributeError "send").
Proof.
  split; [reflexivity|].
  destruct (@close_in_push_mode Py2 0 json_loads pushed _ None TimedOut (Some 0) (Some 0)
              eq_refl eq_refl)
    as (Hc & Hf & _ & _ & Hp).
  rewrite Hc. split; [reflexivity|]. split; [exact Hf|]. cbn [snd]. rewrite Hp. reflexivity.
Defined.

(** X22. When the decoder returns a frame, the interpreter is Python 2,
    the document is an object holding the eight keys of the schema with a
    number for the time, and the frame holds the document's values: the
    wall-clock reading, the time divided by 1000, and timestamp, fixation
    flag and state as they came. *)
Theorem Frame_init_returns_document_values :
  forall (py : pyver) (limit : nat) (now : Q) (json : json) (ssep : string) (f : Frame),
    Frame_init py limit now json ssep = Ret f ->
    py = Py2
    /\ Forall (fun key => exists v, subscript json key = Ret v)
         ["time"; "timestamp"; "fix"; "state"; "raw"; "avg"; "lefteye"; "righteye"]%string
    /\ etime f = now
    /\ (exists t q, subscript json "time" = Ret t /\ as_float t = Some q
                    /\ time f = q / 1000)
    /\ subscript json "timestamp" = Ret (timestamp f)
    /\ subscript json "fix" = Ret (fix_ f)
    /\ subscript json "state" = Ret (state f)
    /\ Frame_ssep f = ssep.
Proof.
  intros py limit now json ssep f Hinit.
  pose proof (Frame_init_returns _ _ _ _ _ Hinit) as ->.
  unfold Frame_init, Coord_of, truediv in Hinit. cbn [setattr obind] in Hinit.
  destruct (subscript json "time") as [t| |] eqn:Et; cbn [obind] in Hinit; try discriminate.
  destruct (as_float t) as [q|] eqn:Eq; cbn [obind] in Hinit; try discriminate.
  destruct (subscript json "timestamp") as [ts| |] eqn:Ets; cbn [obind] in Hinit;
    try discriminate.
  destruct (subscript json "fix") as [fx| |] eqn:Efx; cbn [obind] in Hinit; try discriminate.
  destruct (subscript json "state") as [st| |] eqn:Est; cbn [obind] in Hinit;
    try discriminate.
  destruct (subscript json "raw") as [rw| |] eqn:Erw; cbn [obind] in Hinit; try discriminate.
  destruct (subscript rw "x") as [rx| |]; cbn [obind] in Hinit; try discriminate.
  destruct (subscript rw "y") as [ry| |]; cbn [obind] in Hinit; try discriminate.
  unfold Coord_init in Hinit. cbn [setattr obind] in Hinit.
  destruct (subscript json "avg") as [av| |] eqn:Eav; cbn [obind] in Hinit; try discriminate.
  destruct (subscript av "x") as [ax| |]; cbn [obind] in Hinit; try discriminate.
  destruct (subscript av "y") as [ay| |]; cbn [obind] in Hinit; try discriminate.
  destruct (subscript json "lefteye") as [lj| |] eqn:Elj; cbn [obind] in Hinit;
    try discriminate.
  destruct (Eye_of Py2 limit lj) as [le| |]; cbn [obind] in Hinit; try discriminate.
  destruct (subscript json "righteye") as [rj| |] eqn:Erj; cbn [obind] in Hinit;
    try discriminate.
  destruct (Eye_of Py2 limit rj) as [re| |]; cbn [obind] in Hinit; try discriminate.
  injection Hinit as <-. cbn [etime time timestamp fix_ state Frame_ssep].
  split; [reflexivity|]. split.
  - repeat (constructor; [eexists; eassumption|]). constructor.
  - split; [reflexivity|]. split; [exists t, q; repeat split; assumption|].
    repeat split.
Qed.

Lemma Frame_init_returns_sample :
  exists f,
    Frame_init Py2 0 2 (sample_json "5000" "1058") ";" = Ret f
    /\ time f == 5 /\ etime f = 2
    /\ state f = JInt 7 /\ fix_ f = JBool true
    /\ timestamp f = JStr "2014-04-15 12:00:00.123".
Proof.
  eexists.
  match goal with
  | |- ?P1 /\ _ => assert (Hf : P1) by (vm_compute; reflexivity)
  end.
  destruct (@Frame_init_returns_document_values Py2 0 2 _ _ _ Hf)
    as (_ & _ & He & _ & _ & _ & _ & _).
  split; [exact Hf|]. split; [vm_compute; reflexivity|]. split; [exact He|].
  repeat split.
Defined.

(** X23. Under Python 3 no frame is ever delivered: a frame document
    received by the listener kills the thread with [RecursionError], the
    flag still set and nothing queued, and a pull-mode [next] that receives
    a frame reply raises [RecursionError] after writing its request. *)
Theorem no_frame_under_python3 :
  forall (limit : nat) (loads : string -> outcome json) (self : EyeTribe) (so : socket)
         (now : Q) (js : string) (payload : json) (evs : list recv_event),
    sock self = Some so ->
    frame_document loads js payload ->
    (ispushmode self = true ->
     listener_target Py3 limit loads (Chunk now js :: evs) self
     = (Died RecursionError, self))
    /\ (forall block,
          ispushmode self = false ->
          next Py3 limit loads block (Chunk now js) self
          = (Raise RecursionError,
             set_sock (Some (mkSocket (timeout so) (sent so ++ [etm_get_frame]))) self)).
Proof.
  intros limit loads self so now js payload evs Hso Hdoc.
  assert (Hinit : Frame_init Py3 limit now payload ";" = Raise RecursionError)
    by (unfold Frame_init; rewrite setattr_new_style; reflexivity).
  split.
  - intros Hpm. cbn [listener_target]. rewrite Hpm. unfold listener_recv. step.
    rewrite Hso. rewrite (split_no_separator _ _ (proj1 (proj2 Hdoc))).
    cbn [for_each]. unfold bind.
    rewrite (listener_doc_frame Py3 limit now self Hdoc).
    unfold listener_frame. step. rewrite Hinit. reflexivity.
  - intros block Hpm.
    destruct Hdoc as (_ & _ & j & sc & cat & vals & Hl & Hsc & Hok & _ & _ & Hv & Hf).
    unfold next, sock_send, sock_recv. step. rewrite Hpm. simpl. rewrite Hso. simpl.
    rewrite Hl. simpl. rewrite Hsc. simpl. rewrite Hok. rewrite Hv. simpl.
    rewrite Hf. simpl. rewrite Hinit. reflexivity.
Qed.

Lemma no_frame_under_python3_sample :
  frame_document json_loads (sample_frame_doc "5000" "1058") (sample_json "5000" "1058")
  /\ listener_target Py3 1000 json_loads
       [Chunk 2 (sample_frame_doc "5000" "1058")] pushed
     = (Died RecursionError, pushed)
  /\ fst (next Py3 1000 json_loads true (Chunk 2 (sample_frame_doc "5000" "1058")) connected)
     = Raise RecursionError.
Proof.
  assert (Hd : frame_document json_loads (sample_frame_doc "5000" "1058")
                 (sample_json "5000" "1058")) by sample_document.
  split; [exact Hd|].
  destruct (@no_frame_under_python3 1000 json_loads pushed _ 2 _ _ [] eq_refl Hd)
    as (Hl & _).
  split; [exact (Hl eq_refl)|].
  destruct (@no_frame_under_python3 1000 json_loads connected _ 2 _ _ [] eq_refl Hd)
    as (_ & Hn).
  rewrite (Hn true eq_refl). reflexivity.
Defined.
